(** * Linux packaging helpers: dependency reconciliation and sysroot provisioning

    A shallow embedding of two build scripts,

    - [build/linux/dependencies-generator.js] ([getDependencies],
      [mergePackageDeps], [bundledDeps]), and
    - [build/linux/debian/install-sysroot.js] ([fetchUrl], [getVSCodeSysroot],
      [getChromiumSysroot], [getSha], [getVSCodeSysrootChecksum]),

    together with the properties of them that the design document states.

    Conventions.  A JavaScript string is a [string]; its characters stand for
    code units below 256.  A [Set<string>] is the list of its elements in
    insertion order.  A function that can throw returns a [Result]; a function
    with side effects threads the state it works on and records what it did to
    the outside world as a list of events.  A path is written in normal form:
    names separated by single slashes, without a slash at the end and
    without [.] or [..]. *)

From Stdlib Require Import ZArith Lia Bool Ascii String List.
From Stdlib Require Import DecimalString.
From stdpp Require Import gmap strings list sorting.
Import ListNotations.

Local Open Scope string_scope.
Local Open Scope list_scope.

(** ** JavaScript values the scripts rely on *)

Module JS.

(** What [throw] carries: [new Error(message)], or the [TypeError] the
    engine raises on a property access on [undefined]. *)
Inductive Exception : Type :=
| Error (message : string)
| TypeError (message : string).

Inductive Result (A : Type) : Type :=
| Ok (value : A)
| Throw (e : Exception).
Arguments Ok {A} value.
Arguments Throw {A} e.

Definition isOk {A} (r : Result A) : bool :=
  match r with Ok _ => true | Throw _ => false end.

(** The text of an exception inside a template literal. *)
Definition Exception_toString (e : Exception) : string :=
  match e with
  | Error message => "Error: " +:+ message
  | TypeError message => "TypeError: " +:+ message
  end.

(** An integer inside a template literal or a string concatenation. *)
Definition Number_toString (z : Z) : string := NilZero.string_of_int (Z.to_int z).

(** What [spawnSync] returns: [status] is the exit code, or [null] when the
    child was ended by a signal or could not be started. *)
Record SpawnSyncReturns : Type := {
  status : option Z;
  stdout : string;
  stderr : string
}.

(** [if (result.status)]: the status is a number other than 0. *)
Definition truthy_status (st : option Z) : bool :=
  match st with
  | Some z => negb (z =? 0)%Z
  | None => false
  end.

(** [result.status !== 0] *)
Definition status_not_zero (st : option Z) : bool :=
  match st with
  | Some z => negb (z =? 0)%Z
  | None => true
  end.

(** [if (s)] for a string that may be [undefined]. *)
Definition truthy_string (s : option string) : bool :=
  match s with
  | Some EmptyString | None => false
  | Some _ => true
  end.

(** [WhiteSpace] and [LineTerminator] code units below 256: TAB, LF, VT, FF,
    CR, SP and NBSP. *)
Definition isWhiteSpace (c : ascii) : bool :=
  match N_of_ascii c with
  | 9 | 10 | 11 | 12 | 13 | 32 | 160 => true
  | _ => false
  end%N.

(** [String.prototype.trimStart] *)
Fixpoint trimStart (s : string) : string :=
  match s with
  | EmptyString => EmptyString
  | String c r => if isWhiteSpace c then trimStart r else s
  end.

(** [String.prototype.trimEnd] *)
Fixpoint trimEnd (s : string) : string :=
  match s with
  | EmptyString => EmptyString
  | String c r =>
      match trimEnd r with
      | EmptyString => if isWhiteSpace c then EmptyString else String c EmptyString
      | r' => String c r'
      end
  end.

(** [String.prototype.trim] *)
Definition trim (s : string) : string := trimEnd (trimStart s).

(** [s.startsWith(p)] *)
Definition startsWith (s p : string) : bool := String.prefix p s.

(** [s.split(sep)] for a one-character separator. *)
Fixpoint split (sep : ascii) (s : string) : list string :=
  match s with
  | EmptyString => [EmptyString]
  | String c r =>
      if Ascii.eqb c sep then EmptyString :: split sep r
      else match split sep r with
           | h :: t => String c h :: t
           | [] => [String c EmptyString]
           end
  end.

(** [Array.prototype.join] on an array of strings. *)
Definition join (sep : string) (l : list string) : string := String.concat sep l.

(** [path.join] for a path in normal form that is followed by names: the
    segments with a slash between them, as the template literals of the
    scripts build their paths too.  On other arguments [path.join] also
    removes doubled slashes and resolves [.] and [..]; such paths are
    outside this embedding. *)
Definition path_join (segments : list string) : string := join "/" segments.

Definition LF : string := String (ascii_of_N 10) EmptyString.

(** [Set.prototype.add]: a value already present keeps its place. *)
Definition Set_add (s : list string) (v : string) : list string :=
  if existsb (String.eqb v) s then s else s ++ [v].

(** [new Set(iterable)] *)
Definition Set_from (l : list string) : list string := fold_left Set_add l [].

(** [Array.prototype.sort()] without a comparator, on strings: ascending in
    the order of their code units. *)
Definition sort (l : list string) : list string := merge_sort String.le l.

(** *** [JSON.stringify] on an array of strings *)

Definition hexDigit (n : N) : ascii :=
  if (n <? 10)%N then ascii_of_N (48 + n) else ascii_of_N (87 + n).

(** One code unit of [QuoteJSONString]. *)
Definition quoteChar (c : ascii) : string :=
  match N_of_ascii c with
  | 8 => "\b"
  | 9 => "\t"
  | 10 => "\n"
  | 12 => "\f"
  | 13 => "\r"
  | 34 => String "\" (String c EmptyString)
  | 92 => "\\"
  | n => if (n <? 32)%N
         then "\u00" +:+ String (hexDigit (n / 16)) (String (hexDigit (n mod 16)) EmptyString)
         else String c EmptyString
  end%N.

Fixpoint quoteBody (s : string) : string :=
  match s with
  | EmptyString => EmptyString
  | String c r => quoteChar c +:+ quoteBody r
  end.

Definition dquote : ascii := ascii_of_N 34.

Definition QuoteJSONString (s : string) : string :=
  String dquote (quoteBody s +:+ String dquote EmptyString).

(** [JSON.stringify(a)] for an array [a] of strings. *)
Definition JSON_stringify (a : list string) : string :=
  "[" +:+ join "," (map QuoteJSONString a) +:+ "]".

(** [JSON.stringify(v)] where [v] may be [undefined]: the result is then
    [undefined] as well. *)
Definition JSON_stringify_opt (v : option (list string)) : option string :=
  option_map JSON_stringify v.

(** *** Reading a quoted text back *)

Definition hexValue (c : ascii) : option N :=
  let n := N_of_ascii c in
  if (48 <=? n)%N && (n <=? 57)%N then Some (n - 48)%N
  else if (97 <=? n)%N && (n <=? 102)%N then Some (n - 87)%N
  else None.

(** The code unit that a text produced by [quoteChar] starts with, and the
    rest of the text; nothing at a double quote, which ends the body. *)
Definition unquoteChar (s : string) : option (ascii * string) :=
  match s with
  | EmptyString => None
  | String c r =>
      match N_of_ascii c with
      | 34%N => None
      | 92%N =>
          match r with
          | EmptyString => None
          | String e r' =>
              match N_of_ascii e with
              | 98%N => Some (ascii_of_N 8, r')
              | 116%N => Some (ascii_of_N 9, r')
              | 110%N => Some (ascii_of_N 10, r')
              | 102%N => Some (ascii_of_N 12, r')
              | 114%N => Some (ascii_of_N 13, r')
              | 34%N => Some (ascii_of_N 34, r')
              | 92%N => Some (ascii_of_N 92, r')
              | 117%N =>
                  match r' with
                  | String _ (String _ (String h (String l r''))) =>
                      match hexValue h, hexValue l with
                      | Some a, Some b => Some (ascii_of_N (16 * a + b), r'')
                      | _, _ => None
                      end
                  | _ => None
                  end
              | _ => None
              end
          end
      | _ => Some (c, r)
      end
  end.

(** The text that follows the first element of a serialised array. *)
Definition joinRest (l : list string) : string :=
  match l with
  | [] => EmptyString
  | _ => "," +:+ join "," (map QuoteJSONString l)
  end.

(** [d] occurs in [text]. *)
Definition occursIn (d text : string) : Prop :=
  exists before after, text = before +:+ d +:+ after.

Fixpoint countSlashes (s : string) : nat :=
  match s with
  | EmptyString => 0
  | String c r => (if Ascii.eqb c "/" then 1 else 0) + countSlashes r
  end.

End JS.
Import JS.

(** ** The dependency reconciler ([dependencies-generator.js]) *)

Module Reconciler.

(** The [packageType] argument, ['deb'] or ['rpm']. *)
Inductive PackageType : Type := deb | rpm.

Definition PackageType_eqb (a b : PackageType) : bool :=
  match a, b with
  | deb, deb | rpm, rpm => true
  | _, _ => false
  end.

(** Everything the function does to the outside world, in order. *)
Inductive Event : Type :=
| SpawnSync (command : string) (args : list string)
| GetChromiumSysroot (arch : string)
| GetVSCodeSysroot (arch : string)
| DebGeneratePackageDeps (files : list string) (arch sysroot : string)
| RpmGeneratePackageDeps (files : list string)
| ConsoleError (text : string)
| ConsoleWarn (text : string).

(** A computation that records events and may throw. *)
Definition M (A : Type) : Type := list Event * Result A.

Definition ret {A} (a : A) : M A := ([], Ok a).
Definition throw {A} (e : Exception) : M A := ([], Throw e).
Definition emit (ev : Event) : M unit := ([ev], Ok tt).
Definition bind {A B} (m : M A) (k : A -> M B) : M B :=
  match m with
  | (t, Ok a) => let '(t', r) := k a in (t ++ t', r)
  | (t, Throw e) => (t, Throw e)
  end.
(** A call to a collaborator: the call is recorded, its outcome returned. *)
Definition call {A} (ev : Event) (r : Result A) : M A := ([ev], r).

Declare Scope m_scope.
Delimit Scope m_scope with M.
Notation "x <- c1 ;; c2" := (bind c1 (fun x => c2))
  (at level 100, c1 at next level, right associativity) : m_scope.
Notation "c1 ;; c2" := (bind c1 (fun _ => c2))
  (at level 100, right associativity) : m_scope.

(** A flag that can easily be toggled: if false, new dependencies are
    warned about; if true, they fail the build. *)
Definition FAIL_BUILD_FOR_NEW_DEPENDENCIES : bool := true.

(** Shared library dependencies that we already bundle. *)
Definition bundledDeps : list string :=
  [ "libEGL.so";
    "libGLESv2.so";
    "libvulkan.so.1";
    "libvk_swiftshader.so";
    "libffmpeg.so" ].

(** The test of [mergePackageDeps] on a trimmed entry: it is not empty and
    does not start with a hash sign. *)
Definition keptEntry (trimmedDependency : string) : bool :=
  negb (String.length trimmedDependency =? 0)%nat
  && negb (startsWith trimmedDependency "#").

(** The body of the inner loop of [mergePackageDeps]. *)
Definition addDep (requires : list string) (dep : string) : list string :=
  let trimmedDependency := trim dep in
  if keptEntry trimmedDependency
  then Set_add requires trimmedDependency
  else requires.

(** [mergePackageDeps] *)
Definition mergePackageDeps (inputDeps : list (list string)) : list string :=
  fold_left (fun requires depSet => fold_left addDep depSet requires) inputDeps [].

(** The filter callback of [getDependencies], over any list of bundled
    names. *)
Definition notBundledIn (bundled : list string) (dependency : string) : bool :=
  negb (existsb (fun bundledDep => startsWith dependency bundledDep) bundled).

(** [Array.from(mergedDependencies).filter(...).sort()], over any list of
    bundled names. *)
Definition excludeAndSort (bundled : list string) (mergedDependencies : list string)
  : list string :=
  sort (List.filter (notBundledIn bundled) mergedDependencies).

(** The test of line 83: the two serialisations differ. *)
Definition depsChanged (sortedDependencies : list string)
                       (referenceGeneratedDeps : option (list string)) : bool :=
  negb (bool_decide (Some (JSON_stringify sortedDependencies)
                     = JSON_stringify_opt referenceGeneratedDeps)).

Definition failMessage (referenceGeneratedDeps sortedDependencies : list string)
  : string :=
  "The dependencies list has changed."
    +:+ LF +:+ "Old:" +:+ LF +:+ join LF referenceGeneratedDeps
    +:+ LF +:+ "New:" +:+ LF +:+ join LF sortedDependencies.

(** The modules the script imports and the process it starts: the
    validators of [debian/types] and [rpm/types], [spawnSync], the two
    provisioners of [debian/install-sysroot], the extractors of
    [debian/calculate-deps] and [rpm/calculate-deps], the reference lists of
    [debian/dep-lists] and [rpm/dep-lists], and [product.json]. *)
Record Imports : Type := {
  isDebianArchString : string -> bool;
  isRpmArchString : string -> bool;
  spawnSync : string -> list string -> SpawnSyncReturns;
  getChromiumSysroot : string -> Result string;
  getVSCodeSysroot : string -> Result string;
  debGeneratePackageDeps : list string -> string -> string -> Result (list (list string));
  rpmGeneratePackageDeps : list string -> Result (list (list string));
  debReferenceGeneratedDepsByArch : gmap string (list string);
  rpmReferenceGeneratedDepsByArch : gmap string (list string);
  tunnelApplicationName : string
}.

Section GetDependencies.

Variable env : Imports.

(** Lines 64 to 75: the merged dependencies of either package type. *)
Definition generateMerged (packageType : PackageType)
           (vscodeFiles runtimeFiles : list string) (arch : string)
  : M (list string) :=
  (if PackageType_eqb packageType deb then
     chromiumSysroot <- call (GetChromiumSysroot arch) (getChromiumSysroot env arch) ;;
     vscodeSysroot <- call (GetVSCodeSysroot arch) (getVSCodeSysroot env arch) ;;
     vscodeDeps <- call (DebGeneratePackageDeps vscodeFiles arch vscodeSysroot)
                        (debGeneratePackageDeps env vscodeFiles arch vscodeSysroot) ;;
     let vscodeDependencies := mergePackageDeps vscodeDeps in
     runtimeDeps <- call (DebGeneratePackageDeps runtimeFiles arch chromiumSysroot)
                         (debGeneratePackageDeps env runtimeFiles arch chromiumSysroot) ;;
     let runtimeDependencies := mergePackageDeps runtimeDeps in
     ret (Set_from (vscodeDependencies ++ runtimeDependencies))
   else
     dependencies <- call (RpmGeneratePackageDeps (vscodeFiles ++ runtimeFiles))
                          (rpmGeneratePackageDeps env (vscodeFiles ++ runtimeFiles)) ;;
     ret (mergePackageDeps dependencies))%M.

(** Lines 80 to 94: the comparison with the reference list. *)
Definition checkAgainstReference (failBuild : bool) (packageType : PackageType)
           (arch : string) (sortedDependencies : list string)
  : M (list string) :=
  (let referenceGeneratedDeps :=
     if PackageType_eqb packageType deb
     then debReferenceGeneratedDepsByArch env !! arch
     else rpmReferenceGeneratedDepsByArch env !! arch in
   (if depsChanged sortedDependencies referenceGeneratedDeps then
      match referenceGeneratedDeps with
      | None => throw (TypeError "Cannot read properties of undefined (reading 'join')")
      | Some reference =>
          let failMessage := failMessage reference sortedDependencies in
          if failBuild then throw (Error failMessage)
          else emit (ConsoleWarn failMessage)
      end
    else ret tt) ;;
   ret sortedDependencies)%M.

(** The arguments of [find]. *)
Definition findArgs (buildDir : string) : list string :=
  let nativeModulesPath :=
    path_join [buildDir; "resources"; "app"; "node_modules.asar.unpacked"] in
  [nativeModulesPath; "-name"; "*.node"].

(** The native modules that [find] printed, and the tunnel binary. *)
Definition vscodeFilesOf (buildDir : string) : list string :=
  let findResult := spawnSync env "find" (findArgs buildDir) in
  split (ascii_of_N 10) (trimEnd (stdout findResult))
    ++ [path_join [buildDir; "bin"; tunnelApplicationName env]].

(** The main executable, the sandbox and the crash handler. *)
Definition runtimeFilesOf (buildDir applicationName : string) : list string :=
  let appPath := path_join [buildDir; applicationName] in
  [appPath;
   path_join [buildDir; "chrome-sandbox"];
   path_join [buildDir; "chrome_crashpad_handler"]].

(** [getDependencies], with the build flag as an argument. *)
Definition getDependenciesWith (failBuild : bool) (packageType : PackageType)
           (buildDir applicationName arch : string) : M (list string) :=
  ((if PackageType_eqb packageType deb then
      if negb (isDebianArchString env arch)
      then throw (Error ("Invalid Debian arch string " +:+ arch))
      else ret tt
    else ret tt) ;;
   (if PackageType_eqb packageType rpm && negb (isRpmArchString env arch)
    then throw (Error ("Invalid RPM arch string " +:+ arch))
    else ret tt) ;;
   emit (SpawnSync "find" (findArgs buildDir)) ;;
   let findResult := spawnSync env "find" (findArgs buildDir) in
   if truthy_status (status findResult) then
     emit (ConsoleError "Error finding files:") ;;
     emit (ConsoleError (stderr findResult)) ;;
     ret []
   else
     let vscodeFiles := vscodeFilesOf buildDir in
     let runtimeFiles := runtimeFilesOf buildDir applicationName in
     mergedDependencies <- generateMerged packageType vscodeFiles runtimeFiles arch ;;
     let sortedDependencies := excludeAndSort bundledDeps mergedDependencies in
     checkAgainstReference failBuild packageType arch sortedDependencies)%M.

(** [getDependencies] as built. *)
Definition getDependencies : PackageType -> string -> string -> string -> M (list string) :=
  getDependenciesWith FAIL_BUILD_FOR_NEW_DEPENDENCIES.

End GetDependencies.

(** *** What the statements about [getDependencies] speak of *)

(** The architecture passes the validator of its package type. *)
Definition validArch (env : Imports) (packageType : PackageType) (arch : string) : bool :=
  match packageType with
  | deb => isDebianArchString env arch
  | rpm => isRpmArchString env arch
  end.

(** What the run of [find] returned. *)
Definition findResultOf (env : Imports) (buildDir : string) : SpawnSyncReturns :=
  spawnSync env "find" (findArgs buildDir).

(** The baseline of the architecture, if the table of its package type has
    one. *)
Definition referenceFor (env : Imports) (packageType : PackageType) (arch : string)
  : option (list string) :=
  match packageType with
  | deb => debReferenceGeneratedDepsByArch env !! arch
  | rpm => rpmReferenceGeneratedDepsByArch env !! arch
  end.


Definition invalidArchMessage (packageType : PackageType) (arch : string) : string :=
  match packageType with
  | deb => "Invalid Debian arch string " +:+ arch
  | rpm => "Invalid RPM arch string " +:+ arch
  end.

(** A trimmed entry that [mergePackageDeps] keeps: it is not empty and does
    not start with a hash sign. *)
Definition kept (d : string) : Prop := d <> EmptyString /\ startsWith d "#" = false.

(** [d] is the trimmed form of an entry of one of the dependency sets. *)
Definition entriesOf (outputs : list (list string)) (d : string) : Prop :=
  exists depSet dep, depSet ∈ outputs /\ dep ∈ depSet /\ trim dep = d.

(** [l] is the list that the dependency sets [outputs] determine: ascending,
    without repetition, and with exactly the kept trimmed entries that start
    with none of the bundled names. *)
Definition describes (bundled : list string) (outputs : list (list string))
           (l : list string) : Prop :=
  StronglySorted String.le l /\ NoDup l /\
  forall d, d ∈ l <-> entriesOf outputs d /\ kept d
                      /\ forall b, b ∈ bundled -> startsWith d b = false.

(** The dependency sets that the extractors returned in this call: for a
    Debian package those of the native modules followed by those of the
    runtime files, for an RPM package those of all files. *)
Definition extractedBy (env : Imports) (packageType : PackageType)
           (buildDir applicationName arch : string) (outputs : list (list string)) : Prop :=
  match packageType with
  | deb =>
      exists chromiumSysroot vscodeSysroot vscodeDeps runtimeDeps,
        getChromiumSysroot env arch = Ok chromiumSysroot
        /\ getVSCodeSysroot env arch = Ok vscodeSysroot
        /\ debGeneratePackageDeps env (vscodeFilesOf env buildDir) arch vscodeSysroot
           = Ok vscodeDeps
        /\ debGeneratePackageDeps env (runtimeFilesOf buildDir applicationName) arch
             chromiumSysroot = Ok runtimeDeps
        /\ outputs = vscodeDeps ++ runtimeDeps
  | rpm =>
      rpmGeneratePackageDeps env
        (vscodeFilesOf env buildDir ++ runtimeFilesOf buildDir applicationName) = Ok outputs
  end.

End Reconciler.

(** ** The sysroot provisioner ([install-sysroot.js]) *)

Module Sysroot.

(** The [arch] argument of both provisioners, a [DebianArchString]. *)
Inductive DebianArchString : Type := amd64 | armhf | arm64.

Definition arch_toString (arch : DebianArchString) : string :=
  match arch with
  | amd64 => "amd64"
  | armhf => "armhf"
  | arm64 => "arm64"
  end.

(** An entry of the [assets] array of a release. *)
Record Asset : Type := { asset_name : string; asset_url : string }.

(** What a settled [fetch] gives: [ok], [status], and the outcome of reading
    the body with [arrayBuffer()]. *)
Record Response : Type := {
  response_ok : bool;
  response_status : Z;
  response_arrayBuffer : Result string
}.

(** One [https.get]: the chunks of the ['data'] events, followed either by
    ['end'] on the response or by ['error'] on the request. *)
Inductive HttpsOutcome : Type :=
| ResponseEnd (chunks : list string)
| RequestError (chunks : list string) (message : string).

(** An entry of [sysroots.json]. *)
Record SysrootDict : Type := {
  Tarball : string;
  Sha1Sum : string;
  SysrootDir : string
}.

(** What a run of [tar] did: its exit status and the files it wrote, each
    with its path below the target directory. *)
Record TarOutcome : Type := {
  tar_status : option Z;
  tar_files : list (string * string)
}.

(** The argument of [fetchUrl]. *)
Record FetchOptions : Type := {
  assetName : string;
  checksumSha256 : option string;
  dest : string
}.

(** The world around the script.  The number given to the network and to
    the child processes is the count of such interactions made before, so
    that no two of them need to behave alike. *)
Record Outside : Type := {
  tmpdir : string;
  REPO_ROOT : string;
  VSCODE_SYSROOT_DIR : option string;
  fetch : nat -> string -> Result Response;
  https_get : nat -> string -> HttpsOutcome;
  curl : nat -> string -> SpawnSyncReturns * option string;
  tar : nat -> string -> TarOutcome;
  sha1_hex : string -> string;
  sha256_hex : string -> string;
  JSON_parse_assets : string -> Result (list Asset);
  JSON_parse_sysroots : string -> Result (gmap string SysrootDict);
  magenta : string -> string;
  cyan : string -> string
}.

(** What the script does to the outside world, in order. *)
Inductive Event : Type :=
| ConsoleLog (text : string)
| ConsoleError (text : string)
| Fetch (url : string)
| HttpsGet (url : string)
| SpawnSync (command : string) (args : list string)
| ExecSync (command : string)
| RmSync (path : string)
| MkdirSync (path : string)
| WriteFileSync (path : string)
| AppendFileSync (path : string)
| Delay (ms : Z).

(** Requests that leave the machine. *)
Definition isNetwork (ev : Event) : bool :=
  match ev with
  | Fetch _ | HttpsGet _ => true
  | SpawnSync command _ => String.eqb command "curl"
  | _ => false
  end.

Definition isDeletion (ev : Event) : bool :=
  match ev with RmSync _ => true | _ => false end.

(** Unpacking of an archive. *)
Definition isExtraction (ev : Event) : bool :=
  match ev with
  | SpawnSync command _ => String.eqb command "tar"
  | ExecSync _ => true
  | _ => false
  end.

(** The state the script works on: the regular files by path, the cache of
    [require], the count of interactions with the outside, and the events so
    far. *)
Record State : Type := {
  fs : gmap string string;
  requireCache : gmap string (gmap string SysrootDict);
  clock : nat;
  trace : list Event
}.

Definition M (A : Type) : Type := State -> Result A * State.

Definition ret {A} (a : A) : M A := fun s => (Ok a, s).
Definition throw {A} (e : Exception) : M A := fun s => (Throw e, s).
Definition bind {A B} (m : M A) (k : A -> M B) : M B :=
  fun s => match m s with
           | (Ok a, s') => k a s'
           | (Throw e, s') => (Throw e, s')
           end.
Definition lift {A} (r : Result A) : M A := fun s => (r, s).
Definition get {A} (f : State -> A) : M A := fun s => (Ok (f s), s).

Declare Scope sysroot_scope.
Delimit Scope sysroot_scope with S.
Notation "x <- c1 ;; c2" := (bind c1 (fun x => c2))
  (at level 100, c1 at next level, right associativity) : sysroot_scope.
Notation "c1 ;; c2" := (bind c1 (fun _ => c2))
  (at level 100, right associativity) : sysroot_scope.

Definition emit (ev : Event) : M unit :=
  fun s => (Ok tt, {| fs := fs s; requireCache := requireCache s;
                      clock := clock s; trace := trace s ++ [ev] |}).

(** The number of the next interaction with the outside. *)
Definition tick : M nat :=
  fun s => (Ok (clock s), {| fs := fs s; requireCache := requireCache s;
                             clock := S (clock s); trace := trace s |}).

Definition set_fs (f : gmap string string -> gmap string string) : M unit :=
  fun s => (Ok tt, {| fs := f (fs s); requireCache := requireCache s;
                      clock := clock s; trace := trace s |}).

(** *** The file system calls *)

(** [p] lies below the directory [dir], both written as absolute paths in
    normal form. *)
Definition isInside (dir p : string) : bool := startsWith p (dir +:+ "/").

Definition existsSync (p : string) : M bool :=
  get (fun s => bool_decide (is_Some (fs s !! p))).

Definition readFileSync (p : string) : M string :=
  fun s => match fs s !! p with
           | Some content => (Ok content, s)
           | None => (Throw (Error ("ENOENT: no such file or directory, open '" +:+ p +:+ "'")), s)
           end.

Definition writeFileSync (p content : string) : M unit :=
  (emit (WriteFileSync p) ;; set_fs (insert p content))%S.

Definition appendFileSync (p chunk : string) : M unit :=
  (emit (AppendFileSync p) ;;
   set_fs (fun files => <[p := default EmptyString (files !! p) +:+ chunk]> files))%S.

(** [fs.rmSync(p)] on a file: it has to exist. *)
Definition rmSync (p : string) : M unit :=
  (emit (RmSync p) ;;
   there <- existsSync p ;;
   if there then set_fs (delete p)
   else throw (Error ("ENOENT: no such file or directory, rm '" +:+ p +:+ "'")))%S.

(** [fs.rmSync(dir, { recursive: true, force: true })] for a directory
    written in normal form: the directory goes with all that lies below
    it. *)
Definition rmSync_recursive_force (dir : string) : M unit :=
  (emit (RmSync dir) ;;
   set_fs (filter (fun entry => negb (String.eqb entry.1 dir || isInside dir entry.1) = true)))%S.

Definition mkdirSync (dir : string) : M unit := emit (MkdirSync dir).

Definition console_log (text : string) : M unit := emit (ConsoleLog text).
Definition console_error (text : string) : M unit := emit (ConsoleError text).

(** *** Text helpers *)

(** [line.split(/\s+/)] *)
Fixpoint split_whitespace_from (inRun : bool) (s : string) : list string :=
  match s with
  | EmptyString => [EmptyString]
  | String c r =>
      if isWhiteSpace c then
        if inRun then split_whitespace_from true r
        else EmptyString :: split_whitespace_from true r
      else match split_whitespace_from false r with
           | h :: t => String c h :: t
           | [] => [String c EmptyString]
           end
  end.
Definition split_whitespace (s : string) : list string :=
  split_whitespace_from false s.

(** The lines of a text for a regular expression with the [m] flag. *)
Definition regexLines (s : string) : list string :=
  concat (map (split (ascii_of_N 13)) (split (ascii_of_N 10) s)).

Definition dropLast (s : string) : string :=
  String.substring 0 (String.length s - 1) s.

Definition endsWithQuote (s : string) : bool :=
  match String.get (String.length s - 1) s with
  | Some c => Ascii.eqb c dquote
  | None => false
  end.

(** One line against the pattern of [getElectronVersion], which is the key,
    a space, and any text between a first and a last double quote that ends
    the line: the text between the quotes. *)
Definition matchQuotedLine (key line : string) : option string :=
  let opening := key +:+ String " " (String dquote EmptyString) in
  if startsWith line opening then
    let rest := String.substring (String.length opening)
                                 (String.length line - String.length opening) line in
    if endsWithQuote rest then Some (dropLast rest) else None
  else None.

(** The first capture group of the first line that matches; a text without
    such a line makes the access to the group throw. *)
Definition execQuoted (key text : string) : Result string :=
  match omap (matchQuotedLine key) (regexLines text) with
  | group :: _ => Ok group
  | [] => Throw (TypeError "Cannot read properties of null (reading '1')")
  end.

Definition URL_PREFIX : string := "https://msftelectron.blob.core.windows.net".
Definition URL_PATH : string := "sysroots/toolchain".
Definition version : string := "20231122-245579".
Definition releaseUrl : string :=
  "https://api.github.com/repos/Microsoft/vscode-linux-build-agent/releases/tags/v"
    +:+ version.

Section Provisioner.

Variable out : Outside.

(** [getElectronVersion] *)
Definition getElectronVersion : M (string * string) :=
  (yarnrc <- readFileSync (path_join [REPO_ROOT out; ".yarnrc"]) ;;
   electronVersion <- lift (execQuoted "target" yarnrc) ;;
   msBuildId <- lift (execQuoted "ms_build_id" yarnrc) ;;
   ret (electronVersion, msBuildId))%S.

(** [getSha]: the SHA-1 of the file, which is read one megabyte at a
    time. *)
Definition getSha (filename : string) : M string :=
  (content <- readFileSync filename ;;
   ret (sha1_hex out content))%S.

(** The loop of [getVSCodeSysrootChecksum] over the lines. *)
Fixpoint findChecksum (expectedName : string) (lines : list string) : option string :=
  match lines with
  | [] => None
  | line :: rest =>
      match split_whitespace line with
      | checksum :: name :: _ =>
          if String.eqb name expectedName then Some checksum
          else findChecksum expectedName rest
      | _ => findChecksum expectedName rest
      end
  end.

Definition checksumsPath : string :=
  path_join [REPO_ROOT out; "build"; "checksums"; "vscode-sysroot.txt"].

(** [getVSCodeSysrootChecksum] *)
Definition getVSCodeSysrootChecksum (expectedName : string) : M (option string) :=
  (checksums <- readFileSync checksumsPath ;;
   ret (findChecksum expectedName (split (ascii_of_N 10) checksums)))%S.

(** A call of [fetch]. *)
Definition do_fetch (url : string) : M Response :=
  (emit (Fetch url) ;;
   n <- tick ;;
   lift (fetch out n url))%S.

(** A run of [tar] that unpacks [archive] into [target]. *)
Definition run_tar (ev : Event) (archive target : string) : M (option Z) :=
  (emit ev ;;
   n <- tick ;;
   let outcome := tar out n archive in
   set_fs (fun files =>
             fold_left (fun files entry => <[path_join [target; entry.1] := entry.2]> files)
                       (tar_files outcome) files) ;;
   ret (tar_status outcome))%S.

(** [execSync(tarCommand, { input: assetContents })]: it throws unless the
    exit status is 0. *)
Definition execSync_tar (target assetContents : string) : M unit :=
  (let tarCommand := "tar -xz -C " +:+ target in
   st <- run_tar (ExecSync tarCommand) assetContents target ;;
   if status_not_zero st then throw (Error ("Command failed: " +:+ tarCommand))
   else ret tt)%S.

Definition okStatus (response : Response) : bool :=
  response_ok response
  && ((200 <=? response_status response)%Z && (response_status response <? 300)%Z).

(** The body of the outer [try] of [fetchUrl]: one attempt. *)
Definition fetchAttempt (options : FetchOptions) : M unit :=
  (response <- do_fetch releaseUrl ;;
   if okStatus response then
     console_log ("Fetch completed: Status "
                    +:+ Number_toString (response_status response) +:+ ".") ;;
     contents <- lift (response_arrayBuffer response) ;;
     assets <- lift (JSON_parse_assets out contents) ;;
     match find (fun a => String.eqb (asset_name a) (assetName options)) assets with
     | None =>
         throw (Error ("Could not find asset in release of Microsoft/vscode-linux-build-agent @ "
                         +:+ version))
     | Some asset =>
         console_log ("Found asset " +:+ assetName options +:+ " @ "
                        +:+ asset_url asset +:+ ".") ;;
         assetResponse <- do_fetch (asset_url asset) ;;
         if okStatus assetResponse then
           assetContents <- lift (response_arrayBuffer assetResponse) ;;
           console_log ("Fetched response body buffer: "
                          +:+ magenta out (Number_toString (Z.of_nat (String.length assetContents))
                                             +:+ " bytes")) ;;
           (match checksumSha256 options with
            | Some expected =>
                if truthy_string (Some expected) then
                  let actualSHA256Checksum := sha256_hex out assetContents in
                  if negb (String.eqb actualSHA256Checksum expected) then
                    throw (Error ("Checksum mismatch for " +:+ cyan out (asset_url asset)
                                    +:+ " (expected " +:+ expected +:+ ", actual "
                                    +:+ actualSHA256Checksum +:+ "))"))
                  else ret tt
                else ret tt
            | None => ret tt
            end) ;;
           console_log ("Verified SHA256 checksums match for " +:+ cyan out (asset_url asset)) ;;
           execSync_tar (dest options) assetContents ;;
           console_log "Fetch complete!"
         else
           throw (Error ("Request " +:+ magenta out (asset_url asset)
                           +:+ " failed with status code: "
                           +:+ Number_toString (response_status assetResponse)))
     end
   else
     throw (Error ("Request " +:+ magenta out "https://api.github.com"
                     +:+ " failed with status code: "
                     +:+ Number_toString (response_status response))))%S.

(** The [catch] block of [fetchUrl] before the recursive call: the log
    line and the wait of [retryDelay] milliseconds. *)
Definition beforeRetry (e : Exception) (retryDelay : Z) (s : State) : State :=
  snd ((console_log ("Fetching failed: " +:+ Exception_toString e) ;;
        emit (Delay retryDelay))%S s).

(** [fetchUrl]: [retries > 0] is the successor case, [retries - 1] its
    predecessor. *)
Fixpoint fetchUrl (options : FetchOptions) (retries : nat) (retryDelay : Z)
         (s : State) : Result unit * State :=
  match fetchAttempt options s with
  | (Ok tt, s') => (Ok tt, s')
  | (Throw e, s') =>
      match retries with
      | S retries' => fetchUrl options retries' retryDelay (beforeRetry e retryDelay s')
      | O => (Throw e, s')
      end
  end.

(** [fetchUrl(options)], with the defaults [retries = 10] and
    [retryDelay = 1000]. *)
Definition fetchUrl_default (options : FetchOptions) : M unit :=
  fetchUrl options 10 1000.

(** The archive name and the triple that [getVSCodeSysroot] selects. *)
Definition expectedNameOf (arch : DebianArchString) : string :=
  match arch with
  | amd64 => "x86_64-linux-gnu.tar.gz"
  | arm64 => "aarch64-linux-gnu.tar.gz"
  | armhf => "arm-rpi-linux-gnueabihf.tar.gz"
  end.

Definition tripleOf (arch : DebianArchString) : string :=
  match arch with
  | amd64 => "x86_64-linux-gnu"
  | arm64 => "aarch64-linux-gnu"
  | armhf => "arm-rpi-linux-gnueabihf"
  end.

Definition vscodeSysrootDir (arch : DebianArchString) : string :=
  match VSCODE_SYSROOT_DIR out with
  | Some dir => dir
  | None => path_join [tmpdir out; "vscode-" +:+ arch_toString arch +:+ "-sysroot"]
  end.

Definition vscodeStamp (arch : DebianArchString) : string :=
  path_join [vscodeSysrootDir arch; ".stamp"].

Definition vscodeResult (arch : DebianArchString) : string :=
  vscodeSysrootDir arch +:+ "/" +:+ tripleOf arch +:+ "/" +:+ tripleOf arch +:+ "/sysroot".

(** [fs.existsSync(stamp) && fs.readFileSync(stamp).toString() === expected] *)
Definition stampMatches (stamp expected : string) : M bool :=
  (there <- existsSync stamp ;;
   if there then
     content <- readFileSync stamp ;;
     ret (String.eqb content expected)
   else ret false)%S.

(** [getVSCodeSysroot] *)
Definition getVSCodeSysroot (arch : DebianArchString) : M string :=
  (let expectedName := expectedNameOf arch in
   let triple := tripleOf arch in
   checksumSha256 <- getVSCodeSysrootChecksum expectedName ;;
   if negb (truthy_string checksumSha256) then
     throw (Error ("Could not find checksum for " +:+ expectedName))
   else
     let sysroot := vscodeSysrootDir arch in
     let stamp := vscodeStamp arch in
     let result := vscodeResult arch in
     valid <- stampMatches stamp expectedName ;;
     if valid then ret result
     else
       console_log ("Installing " +:+ arch_toString arch +:+ " root image: " +:+ sysroot) ;;
       rmSync_recursive_force sysroot ;;
       mkdirSync sysroot ;;
       fetchUrl_default {| checksumSha256 := checksumSha256;
                           assetName := expectedName;
                           dest := sysroot |} ;;
       writeFileSync stamp expectedName ;;
       ret result)%S.

(** [require(location)] of a JSON file: parsed once, then taken from the
    cache. *)
Definition require (location : string) : M (gmap string SysrootDict) :=
  fun s =>
    match requireCache s !! location with
    | Some module => (Ok module, s)
    | None =>
        match fs s !! location with
        | None => (Throw (Error ("Cannot find module '" +:+ location +:+ "'")), s)
        | Some text =>
            match JSON_parse_sysroots out text with
            | Throw e => (Throw e, s)
            | Ok module =>
                (Ok module, {| fs := fs s;
                               requireCache := <[location := module]> (requireCache s);
                               clock := clock s; trace := trace s |})
            end
        end
    end.

(** [spawnSync('curl', [url, '-o', location])] *)
Definition spawnSync_curl (url location : string) : M SpawnSyncReturns :=
  (emit (SpawnSync "curl" [url; "-o"; location]) ;;
   n <- tick ;;
   let '(result, written) := curl out n url in
   (match written with
    | Some text => set_fs (insert location text)
    | None => ret tt
    end) ;;
   ret result)%S.

(** One [https.get] of the download loop: the chunks are appended to the
    tarball; the result tells whether ['end'] was reached. *)
Definition httpsAttempt (url tarball : string) : M bool :=
  (emit (HttpsGet url) ;;
   n <- tick ;;
   match https_get out n url with
   | ResponseEnd chunks =>
       fold_right (fun chunk rest => appendFileSync tarball chunk ;; rest) (ret tt) chunks ;;
       ret true
   | RequestError chunks message =>
       fold_right (fun chunk rest => appendFileSync tarball chunk ;; rest) (ret tt) chunks ;;
       console_error ("Encountered an error during the download attempt: " +:+ message) ;;
       ret false
   end)%S.

(** The loop [for (let i = 0; i < 3 && !downloadSuccess; i++)], with the
    number of iterations that are left. *)
Fixpoint downloadLoop (left : nat) (url tarball : string) : M bool :=
  match left with
  | O => ret false
  | S left' =>
      (writeFileSync tarball EmptyString ;;
       downloadSuccess <- httpsAttempt url tarball ;;
       if downloadSuccess then ret true else downloadLoop left' url tarball)%S
  end.

Definition sysrootArchOf (arch : DebianArchString) : string :=
  match arch with
  | armhf => "bullseye_arm"
  | _ => "bullseye_" +:+ arch_toString arch
  end.

Definition chromiumUrl (sysrootDict : SysrootDict) : string :=
  join "/" [URL_PREFIX; URL_PATH; Sha1Sum sysrootDict; Tarball sysrootDict].

Definition chromiumSysrootDir (sysrootDict : SysrootDict) : string :=
  path_join [tmpdir out; SysrootDir sysrootDict].

Definition chromiumStamp (sysrootDict : SysrootDict) : string :=
  path_join [chromiumSysrootDir sysrootDict; ".stamp"].

Definition chromiumTarball (sysrootDict : SysrootDict) : string :=
  path_join [chromiumSysrootDir sysrootDict; Tarball sysrootDict].

(** Lines 180 to 217 of [getChromiumSysroot]: the acquisition. *)
Definition installChromiumSysroot (arch : DebianArchString) (sysrootDict : SysrootDict)
  : M string :=
  (let tarballFilename := Tarball sysrootDict in
   let tarballSha := Sha1Sum sysrootDict in
   let sysroot := chromiumSysrootDir sysrootDict in
   let url := chromiumUrl sysrootDict in
   let stamp := chromiumStamp sysrootDict in
   console_log ("Installing Debian " +:+ arch_toString arch +:+ " root image: " +:+ sysroot) ;;
   rmSync_recursive_force sysroot ;;
   mkdirSync sysroot ;;
   let tarball := chromiumTarball sysrootDict in
   console_log ("Downloading " +:+ url) ;;
   downloadSuccess <- downloadLoop 3 url tarball ;;
   if negb downloadSuccess then
     rmSync tarball ;;
     throw (Error ("Failed to download " +:+ url))
   else
     sha <- getSha tarball ;;
     if negb (String.eqb sha tarballSha) then
       throw (Error ("Tarball sha1sum is wrong. Expected " +:+ tarballSha
                       +:+ ", actual " +:+ sha))
     else
       archive <- get (fun s => default EmptyString (fs s !! tarball)) ;;
       procStatus <- run_tar (SpawnSync "tar" ["xf"; tarball; "-C"; sysroot]) archive sysroot ;;
       if truthy_status procStatus then
         throw (Error ("Tarball extraction failed with code "
                         +:+ Number_toString (default 0%Z procStatus)))
       else
         rmSync tarball ;;
         writeFileSync stamp url ;;
         ret sysroot)%S.

Definition sysrootDictLocation : string := tmpdir out +:+ "/sysroots.json".

(** Lines 163 to 169 of [getChromiumSysroot]: the manifest is downloaded
    and loaded. *)
Definition loadSysrootInfo : M (gmap string SysrootDict) :=
  (electron <- getElectronVersion ;;
   let sysrootJSONUrl :=
     "https://raw.githubusercontent.com/electron/electron/v" +:+ electron.1
       +:+ "/script/sysroots.json" in
   result <- spawnSync_curl sysrootJSONUrl sysrootDictLocation ;;
   if status_not_zero (status result) then
     throw (Error ("Cannot retrieve sysroots.json. Stderr:" +:+ LF +:+ stderr result))
   else
     require sysrootDictLocation)%S.

(** [getChromiumSysroot] *)
Definition getChromiumSysroot (arch : DebianArchString) : M string :=
  (sysrootInfo <- loadSysrootInfo ;;
   match sysrootInfo !! sysrootArchOf arch with
   | None => throw (TypeError "Cannot read properties of undefined (reading 'Tarball')")
   | Some sysrootDict =>
       let sysroot := chromiumSysrootDir sysrootDict in
       let url := chromiumUrl sysrootDict in
       let stamp := chromiumStamp sysrootDict in
       valid <- stampMatches stamp url ;;
       if valid then ret sysroot
       else installChromiumSysroot arch sysrootDict
   end)%S.

End Provisioner.

(** *** What the statements about the provisioners speak of *)

Definition isDelay (ev : Event) : bool :=
  match ev with Delay _ => true | _ => false end.

Definition isFetchOf (url : string) (ev : Event) : bool :=
  match ev with Fetch u => String.eqb u url | _ => false end.

(** The run of [curl] that downloads the manifest. *)
Definition curlEvent (out : Outside) (electronVersion : string) : Event :=
  SpawnSync "curl"
    ["https://raw.githubusercontent.com/electron/electron/v" +:+ electronVersion
       +:+ "/script/sysroots.json";
     "-o"; sysrootDictLocation out].

(** An attempt of [fetchUrl] that starts in [s] throws. *)
Definition attemptFails (out : Outside) (options : FetchOptions) (s : State) : Prop :=
  isOk (fst (fetchAttempt out options s)) = false.

(** The state in which the next attempt starts after a failed one. *)
Definition afterFailure (out : Outside) (options : FetchOptions) (retryDelay : Z)
           (s : State) : State :=
  match fetchAttempt out options s with
  | (Throw e, s') => beforeRetry e retryDelay s'
  | (Ok _, s') => s'
  end.

(** The state in which attempt number [k] starts, counted from 0, when the
    attempts before it have failed. *)
Fixpoint stateBefore (out : Outside) (options : FetchOptions) (retryDelay : Z)
         (k : nat) (s : State) : State :=
  match k with
  | O => s
  | S k' => stateBefore out options retryDelay k' (afterFailure out options retryDelay s)
  end.

(** The ways an attempt of [fetchUrl] can fail that the design document
    names. *)
Inductive Failure (out : Outside) (options : FetchOptions) (s : State) : Prop :=
| NetworkError e :
    fetch out (clock s) releaseUrl = Throw e ->
    Failure out options s
| BadStatus response :
    fetch out (clock s) releaseUrl = Ok response ->
    okStatus response = false ->
    Failure out options s
| MissingAsset response contents assets :
    fetch out (clock s) releaseUrl = Ok response ->
    okStatus response = true ->
    response_arrayBuffer response = Ok contents ->
    JSON_parse_assets out contents = Ok assets ->
    find (fun a => String.eqb (asset_name a) (assetName options)) assets = None ->
    Failure out options s
| ChecksumMismatch response contents assets asset assetResponse assetContents expected :
    fetch out (clock s) releaseUrl = Ok response ->
    okStatus response = true ->
    response_arrayBuffer response = Ok contents ->
    JSON_parse_assets out contents = Ok assets ->
    find (fun a => String.eqb (asset_name a) (assetName options)) assets = Some asset ->
    fetch out (S (clock s)) (asset_url asset) = Ok assetResponse ->
    okStatus assetResponse = true ->
    response_arrayBuffer assetResponse = Ok assetContents ->
    checksumSha256 options = Some expected ->
    expected <> EmptyString ->
    sha256_hex out assetContents <> expected ->
    Failure out options s.

(** [tar] never unpacks a file named like the marker. *)
Definition noStampEntry (out : Outside) : Prop :=
  forall n archive entry, entry ∈ tar_files (tar out n archive) -> entry.1 <> ".stamp".

(** *** Invariants of the files and of the module cache *)

Definition Inv : Type :=
  gmap string string -> gmap string (gmap string SysrootDict) -> Prop.

Definition holds (I : Inv) (s : State) : Prop := I (fs s) (requireCache s).

(** [m] keeps [I], whether it returns or throws. *)
Definition preserves {A} (I : Inv) (m : M A) : Prop :=
  forall s, holds I s -> holds I (snd (m s)).

(** [m] keeps [I] whenever it throws. *)
Definition guarded {A} (I : Inv) (m : M A) : Prop :=
  forall s, holds I s -> isOk (fst (m s)) = false -> holds I (snd (m s)).

(** [m] changes nothing. *)
Definition readOnly {A} (m : M A) : Prop := forall s, snd (m s) = s.

(** An invariant that survives every write below [dir], every removal below
    it, and its clearing. *)
Record writeProof (I : Inv) (dir : string) : Prop := {
  wp_insert : forall files cache p content,
    isInside dir p = true -> I files cache -> I (<[p := content]> files) cache;
  wp_delete : forall files cache p,
    isInside dir p = true -> I files cache -> I (delete p files) cache;
  wp_clear : forall files cache,
    I files cache ->
    I (filter (fun entry => negb (String.eqb entry.1 dir || isInside dir entry.1) = true) files)
      cache
}.

(** An invariant that survives what [tar] unpacks into [target]. *)
Definition survivesTar (out : Outside) (I : Inv) (target : string) : Prop :=
  forall files cache n archive,
    I files cache ->
    I (fold_left (fun files entry => <[path_join [target; entry.1] := entry.2]> files)
                 (tar_files (tar out n archive)) files) cache.

(** An invariant that survives the writes of the acquisition of
    [getChromiumSysroot] before the marker is written. *)
Record downloadProof (out : Outside) (I : Inv) (sysroot tarball : string) : Prop := {
  dp_insert : forall files cache content,
    I files cache -> I (<[tarball := content]> files) cache;
  dp_delete : forall files cache, I files cache -> I (delete tarball files) cache;
  dp_tar : survivesTar out I sysroot
}.

Ltac run_monad :=
  cbv [bind ret throw lift get emit tick set_fs do_fetch console_log console_error];
  cbn [fs clock trace requireCache fst snd].

End Sysroot.

(** ** Worlds to run the scripts in *)

Module Example.
Import Sysroot.

Definition okResponse (body : string) : Response :=
  {| response_ok := true; response_status := 200; response_arrayBuffer := Ok body |}.

Definition sysrootAsset : Asset :=
  {| asset_name := "x86_64-linux-gnu.tar.gz";
     asset_url := "https://api.github.com/repos/Microsoft/vscode-linux-build-agent/releases/assets/1" |}.

Definition bullseye_amd64 : SysrootDict :=
  {| Tarball := "debian_bullseye_amd64_sysroot.tar.xz";
     Sha1Sum := "sha1-of-tarball";
     SysrootDir := "debian_bullseye_amd64-sysroot" |}.

(** A world in which the first [failures] requests of [fetch] are refused,
    [tar] ends with [tarStatus], and everything else goes well. *)
Definition outside (failures : nat) (tarStatus : option Z) : Outside :=
  {| tmpdir := "/tmp";
     REPO_ROOT := "/repo";
     VSCODE_SYSROOT_DIR := None;
     fetch := fun n url =>
                if (n <? failures)%nat then Throw (TypeError "fetch failed")
                else if String.eqb url releaseUrl then Ok (okResponse "release")
                     else Ok (okResponse "archive");
     https_get := fun _ _ => ResponseEnd ["tar"; "ball"];
     curl := fun _ _ => ({| status := Some 0%Z; stdout := EmptyString; stderr := EmptyString |},
                         Some "manifest");
     tar := fun _ _ =>
              {| tar_status := tarStatus;
                 tar_files := match tarStatus with
                              | Some 0%Z => [("usr/lib/libc.so.6", "ELF")]
                              | _ => []
                              end |};
     sha1_hex := fun content => "sha1-of-" +:+ content;
     sha256_hex := fun content => "sha256-of-" +:+ content;
     JSON_parse_assets := fun _ => Ok [sysrootAsset];
     JSON_parse_sysroots := fun _ => Ok {[ "bullseye_amd64" := bullseye_amd64 ]};
     magenta := fun text => text;
     cyan := fun text => text |}.

Definition yarnrc : string :=
  "target " +:+ String dquote ("27.1.3" +:+ String dquote LF)
    +:+ "ms_build_id " +:+ String dquote ("25612240" +:+ String dquote LF).

(** A checkout without any sysroot yet. *)
Definition fresh : State :=
  {| fs := {[ "/repo/.yarnrc" := yarnrc;
              "/repo/build/checksums/vscode-sysroot.txt" :=
                "sha256-of-archive  x86_64-linux-gnu.tar.gz" +:+ LF ]};
     requireCache := ∅;
     clock := 0;
     trace := [] |}.

(** A world without a network: [curl] ends with status 6 and [fetch] is
    refused. *)
Definition offline : Outside :=
  {| tmpdir := "/tmp";
     REPO_ROOT := "/repo";
     VSCODE_SYSROOT_DIR := None;
     fetch := fun _ _ => Throw (TypeError "fetch failed");
     https_get := fun _ _ => RequestError [] "getaddrinfo ENOTFOUND";
     curl := fun _ _ => ({| status := Some 6%Z; stdout := EmptyString;
                            stderr := "curl: (6) Could not resolve host" |}, None);
     tar := fun _ _ => {| tar_status := Some 0%Z; tar_files := [] |};
     sha1_hex := fun content => "sha1-of-" +:+ content;
     sha256_hex := fun content => "sha256-of-" +:+ content;
     JSON_parse_assets := fun _ => Ok [sysrootAsset];
     JSON_parse_sysroots := fun _ => Ok {[ "bullseye_amd64" := bullseye_amd64 ]};
     magenta := fun text => text;
     cyan := fun text => text |}.

(** The same files and modules at the start of another call. *)
Definition again (s : State) : State :=
  {| fs := fs s; requireCache := requireCache s; clock := clock s; trace := [] |}.

Definition working : Outside := outside 0 (Some 0%Z).

(** The states after a first successful call of either provisioner. *)
Definition withVSCodeSysroot : State := snd (getVSCodeSysroot working amd64 fresh).
Definition withChromiumSysroot : State := snd (getChromiumSysroot working amd64 fresh).

Definition options : FetchOptions :=
  {| assetName := "x86_64-linux-gnu.tar.gz";
     checksumSha256 := Some "sha256-of-archive";
     dest := "/tmp/vscode-amd64-sysroot" |}.

(** The working world with [VSCODE_SYSROOT_DIR] set to the directory of the
    checksum file. *)
Definition amongChecksums : Outside :=
  {| tmpdir := tmpdir working;
     REPO_ROOT := REPO_ROOT working;
     VSCODE_SYSROOT_DIR := Some "/repo/build/checksums";
     fetch := fetch working;
     https_get := https_get working;
     curl := curl working;
     tar := tar working;
     sha1_hex := sha1_hex working;
     sha256_hex := sha256_hex working;
     JSON_parse_assets := JSON_parse_assets working;
     JSON_parse_sysroots := JSON_parse_sysroots working;
     magenta := magenta working;
     cyan := cyan working |}.


End Example.

Module ExampleBuild.
Import Reconciler.

(** A build whose [find] ends with [findStatus], whose extractors return
    [extracted] for every list of files, and whose reference list for
    [amd64] and [x86_64] is [baseline]. *)
Definition imports (findStatus : option Z) (extracted : list (list string))
           (baseline : list string) : Imports :=
  {| isDebianArchString := fun arch => existsb (String.eqb arch) ["amd64"; "armhf"; "arm64"];
     isRpmArchString := fun arch => existsb (String.eqb arch) ["x86_64"; "armv7hl"; "aarch64"];
     spawnSync := fun _ _ =>
       {| status := findStatus;
          stdout := "/build/resources/app/node_modules.asar.unpacked/pty.node" +:+ LF;
          stderr := "find: '/build/resources': No such file or directory" |};
     getChromiumSysroot := fun _ => Ok "/tmp/debian_bullseye_amd64-sysroot";
     getVSCodeSysroot := fun _ =>
       Ok "/tmp/vscode-amd64-sysroot/x86_64-linux-gnu/x86_64-linux-gnu/sysroot";
     debGeneratePackageDeps := fun _ _ _ => Ok extracted;
     rpmGeneratePackageDeps := fun _ => Ok extracted;
     debReferenceGeneratedDepsByArch := {[ "amd64" := baseline ]};
     rpmReferenceGeneratedDepsByArch := {[ "x86_64" := baseline ]};
     tunnelApplicationName := "code-tunnel" |}.

Definition baseline : list string := ["libc.so.6"; "libpthread.so.0"].

(** What the extractor prints for a binary that needs the two libraries
    of the baseline, a bundled one, and a new one. *)
Definition withNew : list (list string) :=
  [["libpthread.so.0"; " libc.so.6 "; "# comment"; "libffmpeg.so"];
   ["libc.so.6"; "libnew.so.1"; EmptyString]].

Definition unchanged : list (list string) :=
  [["libpthread.so.0"; " libc.so.6 "; "# comment"; "libffmpeg.so"];
   ["libc.so.6"; EmptyString]].

End ExampleBuild.

(** ** Texts by their characters *)

Module Text.

(** Every character of [s] passes [p]. *)
Fixpoint allChars (p : ascii -> bool) (s : string) : bool :=
  match s with
  | EmptyString => true
  | String c r => p c && allChars p r
  end.

Definition isLineFeed (c : ascii) : bool := Ascii.eqb c (ascii_of_N 10).

(** A text of white space only, a text without white space, and a text
    without a line feed. *)
Definition blank (s : string) : bool := allChars isWhiteSpace s.
Definition solid (s : string) : bool := allChars (fun c => negb (isWhiteSpace c)) s.
Definition oneLine (s : string) : bool := allChars (fun c => negb (isLineFeed c)) s.

(** A name of a file or of a directory: it is not empty, it is neither [.]
    nor [..], and it holds no slash. *)
Definition isName (s : string) : bool :=
  negb (String.eqb s EmptyString) && negb (String.eqb s ".") && negb (String.eqb s "..")
  && allChars (fun c => negb (Ascii.eqb c "/")) s.

(** A path in normal form: names separated by single slashes, after a
    leading slash or without one, and no slash at the end.  [path.join]
    appends names to such a path with a slash in between, and leaves it as
    it is otherwise. *)
Definition normal (p : string) : bool :=
  match split "/" p with
  | first :: names =>
      (isName first || (String.eqb first EmptyString && negb (length names =? 0)%nat))
      && forallb isName names
  | [] => false
  end.

(** An absolute path in normal form.  Two such paths name the same file
    only if they are equal, and one lies below the other only if it extends
    the other by a slash and more (symbolic links apart). *)
Definition resolved (p : string) : bool := startsWith p "/" && normal p.

End Text.

(** ** Further notions for the dependency reconciler *)

Module ReconcilerMore.
Import Reconciler Text.

(** The calls that only the Debian branch makes, and the one that only the
    RPM branch makes. *)
Definition isDebianStep (ev : Event) : bool :=
  match ev with
  | GetChromiumSysroot _ | GetVSCodeSysroot _ | DebGeneratePackageDeps _ _ _ => true
  | _ => false
  end.

Definition isRpmStep (ev : Event) : bool :=
  match ev with
  | RpmGeneratePackageDeps _ => true
  | _ => false
  end.

(** The entries that [mergePackageDeps] adds, in the order of the loops:
    trimmed, and kept by the test of line 103. *)
Definition keptEntries (inputDeps : list (list string)) : list string :=
  List.filter keptEntry (map trim (List.concat inputDeps)).

(** The values of [l] that adding them one by one appends to a set that
    holds [seen]. *)
Fixpoint newOf (seen l : list string) : list string :=
  match l with
  | [] => []
  | x :: l' =>
      if existsb (String.eqb x) seen then newOf seen l'
      else x :: newOf (seen ++ [x]) l'
  end.

End ReconcilerMore.

(** ** Further builds to run the reconciler in *)

Module ExampleBuildMore.
Import Reconciler.

(** A build without native modules: [find] prints nothing. *)
Definition quiet : Imports :=
  {| isDebianArchString := fun arch => existsb (String.eqb arch) ["amd64"; "armhf"; "arm64"];
     isRpmArchString := fun arch => existsb (String.eqb arch) ["x86_64"; "armv7hl"; "aarch64"];
     spawnSync := fun _ _ =>
       {| status := Some 0%Z; stdout := EmptyString; stderr := EmptyString |};
     getChromiumSysroot := fun _ => Ok "/tmp/debian_bullseye_amd64-sysroot";
     getVSCodeSysroot := fun _ =>
       Ok "/tmp/vscode-amd64-sysroot/x86_64-linux-gnu/x86_64-linux-gnu/sysroot";
     debGeneratePackageDeps := fun _ _ _ => Ok [];
     rpmGeneratePackageDeps := fun _ => Ok [];
     debReferenceGeneratedDepsByArch := ∅;
     rpmReferenceGeneratedDepsByArch := ∅;
     tunnelApplicationName := "code-tunnel" |}.

(** A build on a machine that cannot download the manifest of the Chromium
    sysroot. *)
Definition withoutChromium : Imports :=
  {| isDebianArchString := fun arch => existsb (String.eqb arch) ["amd64"; "armhf"; "arm64"];
     isRpmArchString := fun arch => existsb (String.eqb arch) ["x86_64"; "armv7hl"; "aarch64"];
     spawnSync := fun _ _ =>
       {| status := Some 0%Z;
          stdout := "/build/resources/app/node_modules.asar.unpacked/pty.node" +:+ LF;
          stderr := EmptyString |};
     getChromiumSysroot := fun _ =>
       Throw (Error ("Cannot retrieve sysroots.json. Stderr:" +:+ LF
                       +:+ "curl: (6) Could not resolve host"));
     getVSCodeSysroot := fun _ =>
       Ok "/tmp/vscode-amd64-sysroot/x86_64-linux-gnu/x86_64-linux-gnu/sysroot";
     debGeneratePackageDeps := fun _ _ _ => Ok [];
     rpmGeneratePackageDeps := fun _ => Ok [];
     debReferenceGeneratedDepsByArch := ∅;
     rpmReferenceGeneratedDepsByArch := ∅;
     tunnelApplicationName := "code-tunnel" |}.

End ExampleBuildMore.

(** ** Further notions for the sysroot provisioner *)

Module SysrootMore.
Import Sysroot Text.

(** *** [getSha], chunk by chunk *)

(** [Buffer.alloc(size)]: [size] zero bytes. *)
Fixpoint Buffer_alloc (size : nat) : string :=
  match size with
  | O => EmptyString
  | S size' => String zero (Buffer_alloc size')
  end.

(** [fs.readSync(fd, buffer, 0, buffer.length, position)] on a file that
    holds [content]: the number of bytes read, and the buffer afterwards,
    whose first bytes are the ones read. *)
Definition readSync (content buffer : string) (position : nat) : nat * string :=
  let chunk := String.substring position (String.length buffer) content in
  let bytesRead := String.length chunk in
  (bytesRead,
   chunk +:+ String.substring bytesRead (String.length buffer - bytesRead) buffer).

(** The loop of [getSha] and the last [hash.update]: [hashed] is the data
    given to the hash so far; the result is all the data given to it.  One
    unit of [fuel] pays for one call of [readSync]. *)
Fixpoint getShaLoop (fuel : nat) (content buffer : string) (position : nat)
         (hashed : string) : option string :=
  match fuel with
  | O => None
  | S fuel' =>
      let '(bytesRead, buffer') := readSync content buffer position in
      if (bytesRead =? String.length buffer)%nat
      then getShaLoop fuel' content buffer' (position + bytesRead) (hashed +:+ buffer')
      else Some (hashed +:+ String.substring 0 bytesRead buffer')
  end.

(** The data that [getSha] hashes of a file that holds [content], read
    through a buffer of [size] bytes. *)
Definition getShaDataWith (size fuel : nat) (content : string) : option string :=
  getShaLoop fuel content (Buffer_alloc size) 0 EmptyString.

(** The same with the buffer of the script, [Buffer.alloc(1024 * 1024)]. *)
Definition getShaData (fuel : nat) (content : string) : option string :=
  getShaDataWith (1024 * 1024) fuel content.

(** *** The checksum file *)

(** The second field of a line of the checksum file, the name of line 53. *)
Definition secondField (line : string) : option string :=
  match split_whitespace line with
  | _ :: name :: _ => Some name
  | _ => None
  end.

(** A text at which a field ends: the end of the line or white space. *)
Definition endsField (rest : string) : bool :=
  match rest with
  | EmptyString => true
  | String c _ => isWhiteSpace c
  end.

(** *** The download of [getChromiumSysroot] *)

Definition isRequestError (outcome : HttpsOutcome) : bool :=
  match outcome with
  | RequestError _ _ => true
  | ResponseEnd _ => false
  end.

Definition chunksOf (outcome : HttpsOutcome) : list string :=
  match outcome with
  | RequestError chunks _ | ResponseEnd chunks => chunks
  end.

(** The chunks one after the other, as [fs.appendFileSync] leaves them in
    the file. *)
Definition appended (chunks : list string) : string :=
  fold_right String.append EmptyString chunks.

(** What the download loop does to the outside world: it writes and extends
    a file, sends a request, or reports an error. *)
Definition isDownloadStep (ev : Event) : bool :=
  match ev with
  | WriteFileSync _ | AppendFileSync _ | HttpsGet _ | ConsoleError _ => true
  | _ => false
  end.

Definition isHttpsGet (ev : Event) : bool :=
  match ev with HttpsGet _ => true | _ => false end.

(** *** [.yarnrc] *)

(** A line of [.yarnrc] that sets [key] to [value]. *)
Definition yarnrcLine (key value : string) : string :=
  key +:+ String " " (String dquote EmptyString) +:+ value +:+ String dquote EmptyString.

(** A text without line feed and carriage return. *)
Definition plain (s : string) : bool :=
  allChars (fun c => negb (Ascii.eqb c (ascii_of_N 10)) && negb (Ascii.eqb c (ascii_of_N 13))) s.

(** *** The manifest *)

(** The address of the manifest of an Electron version. *)
Definition sysrootJSONUrl (electronVersion : string) : string :=
  "https://raw.githubusercontent.com/electron/electron/v" +:+ electronVersion
    +:+ "/script/sysroots.json".

End SysrootMore.

(** ** Further worlds to run the provisioner in *)

Module ExampleMore.
Import Sysroot.

(** An entry of the manifest whose SHA-1 is not the one of the tarball that
    the server sends. *)
Definition wrongSum : SysrootDict :=
  {| Tarball := "debian_bullseye_amd64_sysroot.tar.xz";
     Sha1Sum := "sha1-of-another-tarball";
     SysrootDir := "debian_bullseye_amd64-sysroot" |}.

(** The working world with [VSCODE_SYSROOT_DIR] set. *)
Definition sharedDirectory : Outside :=
  {| tmpdir := tmpdir Example.working;
     REPO_ROOT := REPO_ROOT Example.working;
     VSCODE_SYSROOT_DIR := Some "/cache/sysroot";
     fetch := fetch Example.working;
     https_get := https_get Example.working;
     curl := curl Example.working;
     tar := tar Example.working;
     sha1_hex := sha1_hex Example.working;
     sha256_hex := sha256_hex Example.working;
     JSON_parse_assets := JSON_parse_assets Example.working;
     JSON_parse_sysroots := JSON_parse_sysroots Example.working;
     magenta := magenta Example.working;
     cyan := cyan Example.working |}.

(** A checkout with the remains of an older sysroot and no marker. *)
Definition stale : State :=
  {| fs := <[ "/tmp/vscode-amd64-sysroot/old/lib/libold.so" := "ELF" ]> (fs Example.fresh);
     requireCache := ∅;
     clock := 0;
     trace := [] |}.

(** An installed sysroot with a valid marker, after the checksum file lost
    the line of the archive. *)
Definition unlisted : State :=
  {| fs := <[ "/repo/build/checksums/vscode-sysroot.txt" :=
                "sha256-of-another  aarch64-linux-gnu.tar.gz" +:+ LF ]>
             (fs Example.withVSCodeSysroot);
     requireCache := ∅;
     clock := 0;
     trace := [] |}.

(** A checkout whose [.yarnrc] sets the version only. *)
Definition withoutBuildId : State :=
  {| fs := {[ "/repo/.yarnrc" := "target " +:+ String dquote ("27.1.3" +:+ String dquote LF) ]};
     requireCache := ∅;
     clock := 0;
     trace := [] |}.

End ExampleMore.

(** ** The two scripts together *)

Module Linked.

(** The architecture of a Debian package by its name. *)
Definition debianArch (arch : string) : option Sysroot.DebianArchString :=
  if String.eqb arch "amd64" then Some Sysroot.amd64
  else if String.eqb arch "armhf" then Some Sysroot.armhf
  else if String.eqb arch "arm64" then Some Sysroot.arm64
  else None.

(** The provisioners that [dependencies-generator.js] imports are those of
    [install-sysroot.js]: in the world [out] and from the state [s],
    [getDependencies] calls [getChromiumSysroot] first and [getVSCodeSysroot]
    in the state that this call leaves. *)
Definition chromiumCall (out : Sysroot.Outside) (s : Sysroot.State)
           (arch : Sysroot.DebianArchString) : Result string * Sysroot.State :=
  Sysroot.getChromiumSysroot out arch s.

Definition vscodeCall (out : Sysroot.Outside) (s : Sysroot.State)
           (arch : Sysroot.DebianArchString) : Result string * Sysroot.State :=
  Sysroot.getVSCodeSysroot out arch (snd (chromiumCall out s arch)).


(** A build like [ExampleBuild.imports] whose provisioners are those of
    [install-sysroot.js], run in the world [out] from the state [s]. *)
Definition imports (out : Sysroot.Outside) (s : Sysroot.State) (findStatus : option Z)
           (extracted : list (list string)) (baseline : list string) : Reconciler.Imports :=
  {| Reconciler.isDebianArchString := fun arch => bool_decide (is_Some (debianArch arch));
     Reconciler.isRpmArchString :=
       Reconciler.isRpmArchString (ExampleBuild.imports findStatus extracted baseline);
     Reconciler.spawnSync :=
       Reconciler.spawnSync (ExampleBuild.imports findStatus extracted baseline);
     Reconciler.getChromiumSysroot := fun arch =>
       match debianArch arch with
       | Some a => fst (chromiumCall out s a)
       | None => Throw (TypeError "Cannot read properties of undefined (reading 'Tarball')")
       end;
     Reconciler.getVSCodeSysroot := fun arch =>
       match debianArch arch with
       | Some a => fst (vscodeCall out s a)
       | None => Throw (Error "Could not find checksum for undefined")
       end;
     Reconciler.debGeneratePackageDeps := fun _ _ _ => Ok extracted;
     Reconciler.rpmGeneratePackageDeps := fun _ => Ok extracted;
     Reconciler.debReferenceGeneratedDepsByArch := {[ "amd64" := baseline ]};
     Reconciler.rpmReferenceGeneratedDepsByArch := {[ "x86_64" := baseline ]};
     Reconciler.tunnelApplicationName := "code-tunnel" |}.

End Linked.

(** * Properties *)

(** ** Texts, quoting and order *)

Module JSFacts.

Lemma unquoteChar_quoteChar c r : unquoteChar (quoteChar c +:+ r) = Some (c, r).
Proof. destruct c as [[] [] [] [] [] [] [] []]; reflexivity. Qed.

Lemma unquoteChar_dquote r : unquoteChar (String dquote r) = None.
Proof. reflexivity. Qed.

Lemma append_assoc (a b c : string) : (a +:+ b) +:+ c = a +:+ (b +:+ c).
Proof.
  induction a as [|x a IH]; [reflexivity|].
  change (String x ((a +:+ b) +:+ c) = String x (a +:+ (b +:+ c))). by rewrite IH.
Qed.

Lemma quoteBody_inj s1 : forall s2 r1 r2,
  quoteBody s1 +:+ String dquote r1 = quoteBody s2 +:+ String dquote r2 ->
  s1 = s2 /\ r1 = r2.
Proof.
  induction s1 as [|c1 s1 IH]; intros [|c2 s2] r1 r2 H.
  - change (String dquote r1 = String dquote r2) in H. injection H as ->. done.
  - apply (f_equal unquoteChar) in H.
    change (quoteBody (String c2 s2)) with (quoteChar c2 +:+ quoteBody s2) in H.
    rewrite append_assoc, unquoteChar_quoteChar in H. discriminate.
  - apply (f_equal unquoteChar) in H.
    change (quoteBody (String c1 s1)) with (quoteChar c1 +:+ quoteBody s1) in H.
    rewrite append_assoc, unquoteChar_quoteChar in H. discriminate.
  - change (quoteBody (String c1 s1)) with (quoteChar c1 +:+ quoteBody s1) in H.
    change (quoteBody (String c2 s2)) with (quoteChar c2 +:+ quoteBody s2) in H.
    rewrite !append_assoc in H. apply (f_equal unquoteChar) in H.
    rewrite !unquoteChar_quoteChar in H. injection H as -> H.
    apply IH in H as [-> ->]. done.
Qed.

Lemma QuoteJSONString_inj x1 x2 r1 r2 :
  QuoteJSONString x1 +:+ r1 = QuoteJSONString x2 +:+ r2 -> x1 = x2 /\ r1 = r2.
Proof.
  unfold QuoteJSONString. intros H.
  change (String dquote ((quoteBody x1 +:+ String dquote EmptyString) +:+ r1)
          = String dquote ((quoteBody x2 +:+ String dquote EmptyString) +:+ r2)) in H.
  injection H as H. rewrite !append_assoc in H.
  by apply quoteBody_inj in H.
Qed.

Lemma join_cons x l :
  join "," (map QuoteJSONString (x :: l)) = QuoteJSONString x +:+ joinRest l.
Proof.
  destruct l; [|done]. unfold joinRest, join. simpl.
  generalize (QuoteJSONString x). intros s. induction s; [done|]. 
  change (String a s = String a (s +:+ EmptyString)). by f_equal.
Qed.

Lemma joinRest_inj l1 : forall l2 r1 r2,
  joinRest l1 +:+ String "]" r1 = joinRest l2 +:+ String "]" r2 -> l1 = l2.
Proof.
  induction l1 as [|x1 l1 IH]; intros [|x2 l2] r1 r2 H.
  - done.
  - unfold joinRest in H. rewrite join_cons in H. discriminate.
  - unfold joinRest in H. rewrite join_cons in H. discriminate.
  - unfold joinRest in H. rewrite !join_cons in H.
    change (String "," ((QuoteJSONString x1 +:+ joinRest l1) +:+ String "]" r1)
            = String "," ((QuoteJSONString x2 +:+ joinRest l2) +:+ String "]" r2)) in H.
    injection H as H. rewrite !append_assoc in H.
    apply (quoteBody_inj x1 x2 (joinRest l1 +:+ String "]" r1)
                         (joinRest l2 +:+ String "]" r2)) in H as [-> H].
    f_equal. eauto.
Qed.

Lemma JSON_stringify_inj l1 l2 : JSON_stringify l1 = JSON_stringify l2 -> l1 = l2.
Proof.
  unfold JSON_stringify. intros H.
  change (String "[" (join "," (map QuoteJSONString l1) +:+ "]")
          = String "[" (join "," (map QuoteJSONString l2) +:+ "]")) in H.
  injection H as H.
  destruct l1 as [|x1 l1], l2 as [|x2 l2].
  - done.
  - rewrite join_cons in H. discriminate.
  - rewrite join_cons in H. discriminate.
  - rewrite !join_cons, !append_assoc in H.
    apply QuoteJSONString_inj in H as [-> H]. f_equal.
    by apply joinRest_inj in H.
Qed.

Lemma startsWith_iff d b : startsWith d b = true <-> exists rest, d = b +:+ rest.
Proof.
  unfold startsWith. revert d. induction b as [|c b IH]; intros d.
  - destruct d; simpl; split; eauto.
  - destruct d as [|c' d]; simpl.
    + split; [done|]. intros [rest H]. discriminate.
    + destruct (ascii_dec c c') as [->|Hne].
      * rewrite IH. split; intros [rest H]; exists rest.
        -- by rewrite H.
        -- by injection H.
      * split; [done|]. intros [rest H]. injection H as H _. congruence.
Qed.

Lemma append_nil_r (d : string) : d +:+ EmptyString = d.
Proof.
  induction d as [|c d IH]; [done|].
  change (String c (d +:+ EmptyString) = String c d). by rewrite IH.
Qed.

Lemma occursIn_refl d : occursIn d d.
Proof.
  exists EmptyString, EmptyString.
  change (d = d +:+ EmptyString). by rewrite append_nil_r.
Qed.

Lemma occursIn_app_l d a text : occursIn d text -> occursIn d (a +:+ text).
Proof.
  intros (pre & post & ->). exists (a +:+ pre), post. by rewrite append_assoc.
Qed.

Lemma occursIn_app_r d a text : occursIn d text -> occursIn d (text +:+ a).
Proof.
  intros (pre & post & ->). exists pre, (post +:+ a). by rewrite !append_assoc.
Qed.

Lemma occursIn_join sep l d : d ∈ l -> occursIn d (join sep l).
Proof.
  unfold join. induction l as [|x l IH]; [by intros ?%elem_of_nil|].
  intros [->|H]%elem_of_cons.
  - destruct l; [apply occursIn_refl|]. cbn [String.concat].
    apply occursIn_app_r, occursIn_refl.
  - destruct l as [|y l]; [by apply elem_of_nil in H|].
    change (String.concat sep (x :: y :: l))
      with (x +:+ sep +:+ String.concat sep (y :: l)).
    by apply occursIn_app_l, occursIn_app_l, IH.
Qed.

Lemma countSlashes_append a b : countSlashes (a +:+ b) = countSlashes a + countSlashes b.
Proof.
  induction a as [|c a IH]; [done|].
  change (countSlashes (String c (a +:+ b)) = countSlashes (String c a) + countSlashes b).
  cbn [countSlashes]. rewrite IH. lia.
Qed.

End JSFacts.

(** ** The dependency reconciler *)

Module ReconcilerFacts.
Import Reconciler JSFacts.

Lemma existsb_eqb_elem (v : string) (s : list string) :
  existsb (String.eqb v) s = true <-> v ∈ s.
Proof.
  rewrite existsb_exists, list_elem_of_In. split.
  - intros (x & Hx & Heq). apply String.eqb_eq in Heq. by subst.
  - intros H. exists v. split; [done|]. apply String.eqb_refl.
Qed.

Lemma elem_of_Set_add s v x : x ∈ Set_add s v <-> x ∈ s \/ x = v.
Proof.
  unfold Set_add. destruct (existsb (String.eqb v) s) eqn:E.
  - apply existsb_eqb_elem in E. split; [auto|]. intros [H| ->]; done.
  - rewrite elem_of_app, list_elem_of_singleton. done.
Qed.

Lemma NoDup_Set_add s v : NoDup s -> NoDup (Set_add s v).
Proof.
  intros H. unfold Set_add. destruct (existsb (String.eqb v) s) eqn:E; [done|].
  apply NoDup_app. split_and!; [done| |apply NoDup_singleton].
  intros x Hx ->%list_elem_of_singleton.
  apply existsb_eqb_elem in Hx. congruence.
Qed.

Lemma kept_test d : keptEntry d = true <-> kept d.
Proof.
  unfold kept, keptEntry. rewrite andb_true_iff, !negb_true_iff, Nat.eqb_neq.
  destruct d; simpl; intuition congruence.
Qed.

Lemma elem_of_addDep requires dep x :
  x ∈ addDep requires dep <-> x ∈ requires \/ (x = trim dep /\ kept x).
Proof.
  unfold addDep. destruct (keptEntry _) eqn:E.
  - apply kept_test in E. rewrite elem_of_Set_add. split; intros [H|H]; auto.
    + subst. auto.
    + destruct H; auto.
  - split; [auto|]. intros [H|[-> H]]; [done|].
    apply kept_test in H. congruence.
Qed.

Lemma NoDup_addDep requires dep : NoDup requires -> NoDup (addDep requires dep).
Proof. unfold addDep. destruct (keptEntry _); auto using NoDup_Set_add. Qed.

Lemma elem_of_fold_addDep depSet : forall requires x,
  x ∈ fold_left addDep depSet requires
  <-> x ∈ requires \/ (kept x /\ exists dep, dep ∈ depSet /\ trim dep = x).
Proof.
  induction depSet as [|d depSet IH]; intros requires x; simpl.
  - split; [auto|]. intros [H|(_ & ? & H & _)]; [done|]. by apply elem_of_nil in H.
  - rewrite IH, elem_of_addDep. split.
    + intros [[H|[-> H]]|(H & dep & Hd & <-)]; auto.
      * right. split; [done|]. exists d. split; [left|done].
      * right. split; [done|]. exists dep. split; [by right|done].
    + intros [H|(H & dep & Hd & <-)]; auto.
      apply elem_of_cons in Hd as [->|Hd]; auto.
      right. split; [done|]. by exists dep.
Qed.

Lemma NoDup_fold_addDep depSet : forall requires,
  NoDup requires -> NoDup (fold_left addDep depSet requires).
Proof. induction depSet; simpl; auto using NoDup_addDep. Qed.

Lemma mergePackageDeps_unfold inputDeps :
  mergePackageDeps inputDeps
  = fold_left (fun requires depSet => fold_left addDep depSet requires) inputDeps [].
Proof. reflexivity. Qed.

Lemma elem_of_merge_from inputDeps : forall requires x,
  x ∈ fold_left (fun requires depSet => fold_left addDep depSet requires) inputDeps requires
  <-> x ∈ requires
      \/ (kept x /\ exists depSet dep, depSet ∈ inputDeps /\ dep ∈ depSet /\ trim dep = x).
Proof.
  induction inputDeps as [|ds inputDeps IH]; intros requires x; simpl.
  - split; [auto|]. intros [H|(_ & ? & ? & H & _)]; [done|]. by apply elem_of_nil in H.
  - rewrite IH, elem_of_fold_addDep. split.
    + intros [[H|(H & dep & Hd & <-)]|(H & depSet & dep & Hs & Hd & <-)]; auto.
      * right. split; [done|]. exists ds, dep. split_and!; [left|done..].
      * right. split; [done|]. exists depSet, dep. split_and!; [by right|done..].
    + intros [H|(H & depSet & dep & Hs & Hd & <-)]; auto.
      apply elem_of_cons in Hs as [->|Hs].
      * left. right. split; [done|]. by exists dep.
      * right. split; [done|]. by exists depSet, dep.
Qed.

Lemma elem_of_mergePackageDeps inputDeps x :
  x ∈ mergePackageDeps inputDeps
  <-> kept x /\ exists depSet dep, depSet ∈ inputDeps /\ dep ∈ depSet /\ trim dep = x.
Proof.
  rewrite mergePackageDeps_unfold, elem_of_merge_from. split; [|auto].
  intros [H|H]; [|done]. by apply elem_of_nil in H.
Qed.

Lemma NoDup_mergePackageDeps inputDeps : NoDup (mergePackageDeps inputDeps).
Proof.
  rewrite mergePackageDeps_unfold. generalize (NoDup_nil_2 (A:=string)).
  generalize (@nil string). induction inputDeps; simpl; auto using NoDup_fold_addDep.
Qed.

Lemma elem_of_Set_from l x : x ∈ Set_from l <-> x ∈ l.
Proof.
  unfold Set_from.
  assert (forall acc, x ∈ fold_left Set_add l acc <-> x ∈ acc \/ x ∈ l) as H.
  { induction l as [|y l IH]; intros acc; simpl.
    - rewrite elem_of_nil. tauto.
    - rewrite IH, elem_of_Set_add, elem_of_cons. tauto. }
  rewrite H, elem_of_nil. tauto.
Qed.

Lemma NoDup_Set_from l : NoDup (Set_from l).
Proof.
  unfold Set_from. generalize (NoDup_nil_2 (A:=string)). generalize (@nil string).
  induction l; simpl; auto using NoDup_Set_add.
Qed.

Lemma bind_ret_l {A B} (a : A) (k : A -> M B) : bind (ret a) k = k a.
Proof. unfold bind, ret. by destruct (k a). Qed.

Lemma bind_throw_l {A B} (e : Exception) (k : A -> M B) : bind (throw e) k = throw e.
Proof. reflexivity. Qed.

Lemma bind_emit {B} (ev : Event) (k : unit -> M B) :
  bind (emit ev) k = (ev :: fst (k tt), snd (k tt)).
Proof. unfold bind, emit. by destruct (k tt). Qed.

Lemma bind_call_ok {A B} (ev : Event) (a : A) (k : A -> M B) :
  bind (call ev (Ok a)) k = (ev :: fst (k a), snd (k a)).
Proof. unfold bind, call. by destruct (k a). Qed.

Lemma bind_call_throw {A B} (ev : Event) (e : Exception) (k : A -> M B) :
  bind (call ev (Throw e)) k = ([ev], Throw e).
Proof. reflexivity. Qed.

Lemma bind_pair_ok {A B} (t : list Event) (a : A) (k : A -> M B) :
  bind (t, Ok a) k = (t ++ fst (k a), snd (k a)).
Proof. unfold bind. by destruct (k a). Qed.

(** C8.  For every architecture that the validator of the package type
    rejects, [getDependencies] throws the invalid-architecture error of that
    package type, and it has done nothing before: no process was started, no
    provisioner and no extractor was called. *)
Theorem invalid_arch_fails_before_any_access
  (env : Imports) (failBuild : bool) (packageType : PackageType)
  (buildDir applicationName arch : string) :
  validArch env packageType arch = false ->
  getDependenciesWith env failBuild packageType buildDir applicationName arch
  = ([], Throw (Error (invalidArchMessage packageType arch))).
Proof.
  intros H. unfold getDependenciesWith.
  destruct packageType; cbn [validArch PackageType_eqb andb] in *; rewrite H;
    cbn [negb]; by rewrite ?bind_ret_l.
Qed.

Lemma getDependenciesWith_valid env failBuild packageType buildDir applicationName arch :
  validArch env packageType arch = true ->
  getDependenciesWith env failBuild packageType buildDir applicationName arch
  = bind (emit (SpawnSync "find" (findArgs buildDir)))
      (fun _ =>
         if truthy_status (status (findResultOf env buildDir)) then
           bind (emit (ConsoleError "Error finding files:"))
             (fun _ => bind (emit (ConsoleError (stderr (findResultOf env buildDir))))
                         (fun _ => ret []))
         else
           bind (generateMerged env packageType (vscodeFilesOf env buildDir)
                   (runtimeFilesOf buildDir applicationName) arch)
             (fun mergedDependencies =>
                checkAgainstReference env failBuild packageType arch
                  (excludeAndSort bundledDeps mergedDependencies))).
Proof.
  intros Hv. unfold getDependenciesWith.
  destruct packageType; cbn [validArch PackageType_eqb andb] in *; rewrite Hv;
    cbn [negb]; by rewrite !bind_ret_l.
Qed.


Lemma getDependenciesWith_main env failBuild packageType buildDir applicationName arch :
  validArch env packageType arch = true ->
  truthy_status (status (findResultOf env buildDir)) = false ->
  getDependenciesWith env failBuild packageType buildDir applicationName arch
  = bind (emit (SpawnSync "find" (findArgs buildDir)))
      (fun _ => bind (generateMerged env packageType (vscodeFilesOf env buildDir)
                        (runtimeFilesOf buildDir applicationName) arch)
         (fun mergedDependencies =>
            checkAgainstReference env failBuild packageType arch
              (excludeAndSort bundledDeps mergedDependencies))).
Proof.
  intros Hv Hf. rewrite getDependenciesWith_valid by done. by rewrite Hf.
Qed.

Lemma elem_of_sort l x : x ∈ sort l <-> x ∈ l.
Proof. unfold sort. by rewrite merge_sort_Permutation. Qed.

Lemma NoDup_sort l : NoDup l -> NoDup (sort l).
Proof. unfold sort. by rewrite merge_sort_Permutation. Qed.

Lemma StronglySorted_sort l : StronglySorted String.le (sort l).
Proof. unfold sort. apply StronglySorted_merge_sort; apply _. Qed.

Lemma notBundledIn_true bundled d :
  notBundledIn bundled d = true <-> forall b, b ∈ bundled -> startsWith d b = false.
Proof.
  unfold notBundledIn. rewrite negb_true_iff, <- not_true_iff_false, existsb_exists.
  split.
  - intros H b Hb. apply not_true_iff_false. intros Hs. apply H. exists b.
    by rewrite <- list_elem_of_In.
  - intros H (b & Hb & Hs). apply list_elem_of_In in Hb. apply H in Hb. congruence.
Qed.

Lemma elem_of_excludeAndSort bundled merged d :
  d ∈ excludeAndSort bundled merged
  <-> d ∈ merged /\ forall b, b ∈ bundled -> startsWith d b = false.
Proof.
  unfold excludeAndSort.
  rewrite elem_of_sort, !list_elem_of_In, filter_In, notBundledIn_true. done.
Qed.

Lemma NoDup_excludeAndSort bundled merged :
  NoDup merged -> NoDup (excludeAndSort bundled merged).
Proof.
  intros H. apply NoDup_sort, NoDup_ListNoDup, List.NoDup_filter, NoDup_ListNoDup, H.
Qed.

Lemma entriesOf_app o1 o2 d : entriesOf (o1 ++ o2) d <-> entriesOf o1 d \/ entriesOf o2 d.
Proof.
  unfold entriesOf. split.
  - intros (ds & dep & H & ?). apply elem_of_app in H as [H|H]; [left|right]; eauto.
  - intros [(ds & dep & H & ?)|(ds & dep & H & ?)]; exists ds, dep;
      rewrite elem_of_app; auto.
Qed.

Lemma describes_unique bundled outputs l1 l2 :
  describes bundled outputs l1 -> describes bundled outputs l2 -> l1 = l2.
Proof.
  intros (S1 & N1 & M1) (S2 & N2 & M2).
  apply (StronglySorted_unique String.le); [done..|].
  apply NoDup_Permutation; [done..|]. intros d. by rewrite M1, M2.
Qed.

Lemma describes_excludeAndSort bundled outputs merged :
  NoDup merged ->
  (forall d, d ∈ merged <-> entriesOf outputs d /\ kept d) ->
  describes bundled outputs (excludeAndSort bundled merged).
Proof.
  intros Hn Hm. split_and!.
  - apply StronglySorted_sort.
  - by apply NoDup_excludeAndSort.
  - intros d. rewrite elem_of_excludeAndSort, Hm. tauto.
Qed.

Lemma generateMerged_inv env packageType buildDir applicationName arch t merged :
  generateMerged env packageType (vscodeFilesOf env buildDir)
    (runtimeFilesOf buildDir applicationName) arch = (t, Ok merged) ->
  exists outputs,
    extractedBy env packageType buildDir applicationName arch outputs
    /\ NoDup merged
    /\ forall d, d ∈ merged <-> entriesOf outputs d /\ kept d.
Proof.
  unfold generateMerged. destruct packageType; cbv [PackageType_eqb bind call ret].
  - destruct (getChromiumSysroot env arch) as [cs|e] eqn:E1; [|done].
    destruct (getVSCodeSysroot env arch) as [vs|e] eqn:E2; [|done].
    destruct (debGeneratePackageDeps env (vscodeFilesOf env buildDir) arch vs)
      as [v|e] eqn:E3; [|done].
    destruct (debGeneratePackageDeps env (runtimeFilesOf buildDir applicationName) arch cs)
      as [r|e] eqn:E4; [|done].
    intros [= <- <-]. exists (v ++ r). split_and!.
    + by exists cs, vs, v, r.
    + apply NoDup_Set_from.
    + intros d. rewrite elem_of_Set_from, elem_of_app, !elem_of_mergePackageDeps,
        entriesOf_app. unfold entriesOf. tauto.
  - destruct (rpmGeneratePackageDeps env _) as [o|e] eqn:E; [|done].
    intros [= <- <-]. exists o. split_and!; [done|apply NoDup_mergePackageDeps|].
    intros d. rewrite elem_of_mergePackageDeps. unfold entriesOf. tauto.
Qed.

Lemma generateMerged_extracted env packageType buildDir applicationName arch outputs :
  extractedBy env packageType buildDir applicationName arch outputs ->
  exists t merged,
    generateMerged env packageType (vscodeFilesOf env buildDir)
      (runtimeFilesOf buildDir applicationName) arch = (t, Ok merged).
Proof.
  unfold generateMerged, extractedBy.
  destruct packageType; cbv [PackageType_eqb bind call ret].
  - intros (cs & vs & v & r & -> & -> & -> & -> & _). eauto.
  - intros ->. eauto.
Qed.

Lemma checkAgainstReference_same env failBuild packageType arch sorted :
  referenceFor env packageType arch = Some sorted ->
  checkAgainstReference env failBuild packageType arch sorted = ([], Ok sorted).
Proof.
  intros H. unfold checkAgainstReference.
  replace (if PackageType_eqb packageType deb then _ else _)
    with (referenceFor env packageType arch) by by destruct packageType.
  rewrite H. unfold depsChanged. cbn [JSON_stringify_opt option_map].
  rewrite bool_decide_eq_true_2 by done. cbn [negb]. by rewrite bind_ret_l.
Qed.

Lemma depsChanged_false_iff sorted baseline :
  depsChanged sorted (Some baseline) = false <-> sorted = baseline.
Proof.
  unfold depsChanged. cbn [JSON_stringify_opt option_map].
  rewrite negb_false_iff, bool_decide_eq_true. split.
  - intros H. apply JSON_stringify_inj. congruence.
  - by intros ->.
Qed.

Lemma depsChanged_true_iff sorted baseline :
  depsChanged sorted (Some baseline) = true <-> sorted <> baseline.
Proof.
  rewrite <- depsChanged_false_iff. destruct (depsChanged _ _); split; congruence.
Qed.

Lemma checkAgainstReference_differs env failBuild packageType arch sorted baseline :
  referenceFor env packageType arch = Some baseline ->
  sorted <> baseline ->
  checkAgainstReference env failBuild packageType arch sorted
  = if failBuild then ([], Throw (Error (failMessage baseline sorted)))
    else ([ConsoleWarn (failMessage baseline sorted)], Ok sorted).
Proof.
  intros H Hne. unfold checkAgainstReference.
  replace (if PackageType_eqb packageType deb then _ else _)
    with (referenceFor env packageType arch) by by destruct packageType.
  rewrite H. apply depsChanged_true_iff in Hne. rewrite Hne.
  destruct failBuild; reflexivity.
Qed.

Lemma failMessage_lists_both baseline sorted d :
  d ∈ baseline ++ sorted -> occursIn d (failMessage baseline sorted).
Proof.
  unfold failMessage. intros [H|H]%elem_of_app.
  - do 4 apply occursIn_app_l. by apply occursIn_app_r, occursIn_join.
  - do 8 apply occursIn_app_l. by apply occursIn_join.
Qed.

Lemma getDependenciesWith_compared
  env failBuild packageType buildDir applicationName arch t merged :
  validArch env packageType arch = true ->
  truthy_status (status (findResultOf env buildDir)) = false ->
  generateMerged env packageType (vscodeFilesOf env buildDir)
    (runtimeFilesOf buildDir applicationName) arch = (t, Ok merged) ->
  getDependenciesWith env failBuild packageType buildDir applicationName arch
  = ((SpawnSync "find" (findArgs buildDir) :: t)
       ++ fst (checkAgainstReference env failBuild packageType arch
                 (excludeAndSort bundledDeps merged)),
     snd (checkAgainstReference env failBuild packageType arch
            (excludeAndSort bundledDeps merged))).
Proof.
  intros Hv Hf Hm. rewrite getDependenciesWith_main by done.
  rewrite bind_emit, Hm, bind_pair_ok. reflexivity.
Qed.

Lemma getDependenciesWith_rethrows
  env failBuild packageType buildDir applicationName arch t e :
  validArch env packageType arch = true ->
  truthy_status (status (findResultOf env buildDir)) = false ->
  generateMerged env packageType (vscodeFilesOf env buildDir)
    (runtimeFilesOf buildDir applicationName) arch = (t, Throw e) ->
  getDependenciesWith env failBuild packageType buildDir applicationName arch
  = (SpawnSync "find" (findArgs buildDir) :: t, Throw e).
Proof.
  intros Hv Hf Hm. rewrite getDependenciesWith_main by done.
  by rewrite bind_emit, Hm.
Qed.

Lemma app_singleton_neq {A} (l : list A) (x : A) : l ++ [x] <> l.
Proof.
  intros H. apply (f_equal length) in H. rewrite length_app in H. cbn in H. lia.
Qed.

Lemma notBundled_iff (bundled : list string) (d : string) :
  (forall b, b ∈ bundled -> startsWith d b = false)
  <-> ~ exists b rest, b ∈ bundled /\ d = b +:+ rest.
Proof.
  split.
  - intros H (b & rest & Hb & Hd). apply H in Hb.
    assert (startsWith d b = true) by (apply startsWith_iff; eauto). congruence.
  - intros H b Hb. apply not_true_iff_false. intros [rest Hs]%startsWith_iff.
    apply H. eauto.
Qed.

Lemma checkAgainstReference_Ok_inv env failBuild packageType arch sorted t l :
  checkAgainstReference env failBuild packageType arch sorted = (t, Ok l) -> l = sorted.
Proof.
  unfold checkAgainstReference. cbv zeta.
  destruct (depsChanged _ _); [|rewrite bind_ret_l; by intros [= _ <-]].
  destruct (if PackageType_eqb packageType deb then _ else _); [|done].
  destruct failBuild; [done|]. by intros [= _ <-].
Qed.

(** C3.  When the computed sorted list differs from the baseline, the
    message lists both (every entry of either occurs in it); with the build
    flag set, as it is in the script, the call throws an error with that
    message, and with the flag unset it logs the message as a warning and
    returns the whole computed sorted list.  When the two are equal the call
    returns the sorted list and neither throws nor warns. *)
Theorem drift_raises_or_warns
  (env : Imports) (packageType : PackageType) (buildDir applicationName arch : string)
  (t : list Event) (merged baseline : list string) :
  validArch env packageType arch = true ->
  truthy_status (status (findResultOf env buildDir)) = false ->
  generateMerged env packageType (vscodeFilesOf env buildDir)
    (runtimeFilesOf buildDir applicationName) arch = (t, Ok merged) ->
  referenceFor env packageType arch = Some baseline ->
  let sorted := excludeAndSort bundledDeps merged in
  let before := SpawnSync "find" (findArgs buildDir) :: t in
  (sorted <> baseline ->
   (forall d, d ∈ baseline ++ sorted -> occursIn d (failMessage baseline sorted))
   /\ getDependencies env packageType buildDir applicationName arch
      = (before, Throw (Error (failMessage baseline sorted)))
   /\ getDependenciesWith env true packageType buildDir applicationName arch
      = (before, Throw (Error (failMessage baseline sorted)))
   /\ getDependenciesWith env false packageType buildDir applicationName arch
      = (before ++ [ConsoleWarn (failMessage baseline sorted)], Ok sorted))
  /\ (sorted = baseline ->
      forall failBuild,
        getDependenciesWith env failBuild packageType buildDir applicationName arch
        = (before, Ok sorted)).
Proof.
  intros Hv Hf Hm Hr sorted before. split.
  - intros Hne. split; [apply failMessage_lists_both|].
    unfold getDependencies, FAIL_BUILD_FOR_NEW_DEPENDENCIES.
    rewrite !(getDependenciesWith_compared _ _ _ _ _ _ t merged) by done.
    rewrite !(checkAgainstReference_differs _ _ _ _ _ baseline) by done.
    cbn [fst snd]. by rewrite app_nil_r.
  - intros He failBuild.
    rewrite (getDependenciesWith_compared _ _ _ _ _ _ t merged) by done.
    rewrite checkAgainstReference_same by (by rewrite Hr, <- He).
    cbn [fst snd]. by rewrite app_nil_r.
Qed.


(** C7.  Whatever the extractors return, a list that [getDependencies]
    returns after a successful [find] is the one list that is ascending,
    has no entry twice, and holds exactly the trimmed entries of the
    dependency sets that are not empty, do not start with a hash sign and
    start with none of the bundled names; and such a list is returned
    whenever the comparison lets the call return.  Merging the sets [libA]
    and [libA; libB] gives [libA; libB]. *)
Theorem returned_list_is_merged_filtered_sorted
  (env : Imports) (packageType : PackageType) (buildDir applicationName arch : string) :
  validArch env packageType arch = true ->
  truthy_status (status (findResultOf env buildDir)) = false ->
  (forall failBuild t l,
      getDependenciesWith env failBuild packageType buildDir applicationName arch = (t, Ok l) ->
      exists outputs,
        extractedBy env packageType buildDir applicationName arch outputs
        /\ describes bundledDeps outputs l)
  /\ (forall outputs baseline,
         extractedBy env packageType buildDir applicationName arch outputs ->
         referenceFor env packageType arch = Some baseline ->
         exists l,
           describes bundledDeps outputs l
           /\ (forall l', describes bundledDeps outputs l' -> l' = l)
           /\ snd (getDependenciesWith env false packageType buildDir applicationName arch)
              = Ok l
           /\ (l = baseline ->
               snd (getDependencies env packageType buildDir applicationName arch) = Ok l))
  /\ excludeAndSort bundledDeps (mergePackageDeps [["libA"]; ["libA"; "libB"]])
     = ["libA"; "libB"].
Proof.
  intros Hv Hf. split_and!.
  - intros failBuild t l. rewrite getDependenciesWith_main, bind_emit by done.
    destruct (generateMerged env packageType _ _ arch) as [t' [merged|e]] eqn:Hm;
      [|by rewrite bind_throw_l || done].
    apply generateMerged_inv in Hm as (outputs & He & Hn & Hm).
    rewrite bind_pair_ok. intros [= _ Hl]. exists outputs. split; [done|].
    assert (l = excludeAndSort bundledDeps merged) as ->.
    { revert Hl. unfold checkAgainstReference.
      destruct (depsChanged _ _); [|rewrite bind_ret_l; cbn; congruence].
      destruct (if PackageType_eqb packageType deb then _ else _); [|done].
      destruct failBuild; cbn; congruence. }
    by apply describes_excludeAndSort.
  - intros outputs baseline He Hr.
    destruct (generateMerged_extracted _ _ _ _ _ _ He) as (t & merged & Hm).
    destruct (generateMerged_inv _ _ _ _ _ _ _ Hm) as (outputs' & He' & Hn & Hm').
    assert (outputs' = outputs) as ->.
    { destruct packageType; cbn in He, He'.
      - destruct He as (? & ? & ? & ? & ? & ? & ? & ? & ->).
        destruct He' as (? & ? & ? & ? & ? & ? & ? & ? & ->). congruence.
      - congruence. }
    pose proof (describes_excludeAndSort bundledDeps _ _ Hn Hm') as Hd.
    exists (excludeAndSort bundledDeps merged). split_and!; [done| | |].
    + intros l' Hl'. by apply (describes_unique bundledDeps outputs).
    + rewrite (getDependenciesWith_compared _ _ _ _ _ _ t merged) by done. cbn [snd].
      destruct (decide (excludeAndSort bundledDeps merged = baseline)) as [E|E].
      * by rewrite checkAgainstReference_same by congruence.
      * by rewrite (checkAgainstReference_differs _ _ _ _ _ baseline).
    + intros E. unfold getDependencies.
      rewrite (getDependenciesWith_compared _ _ _ _ _ _ t merged) by done. cbn [snd].
      by rewrite checkAgainstReference_same by congruence.
  - vm_compute. reflexivity.
Qed.

(** C6.  The filter of [getDependencies] removes exactly the dependencies
    that start with one of the bundled names: a list that a call returns
    after the extraction holds a dependency exactly when the merged set of
    that call holds it and it starts with no bundled name, and the call with
    the build flag unset returns such a list whenever the architecture has a
    baseline.  For the filter on its own, with the bundled name [libfoo.so]
    the dependency [libfoo.so.2] is removed and [notlibfoo.so] is kept. *)
Theorem bundled_filter_is_prefix_based
  (env : Imports) (packageType : PackageType) (buildDir applicationName arch : string)
  (t : list Event) (merged : list string) :
  validArch env packageType arch = true ->
  truthy_status (status (findResultOf env buildDir)) = false ->
  generateMerged env packageType (vscodeFilesOf env buildDir)
    (runtimeFilesOf buildDir applicationName) arch = (t, Ok merged) ->
  (forall failBuild t' l,
      getDependenciesWith env failBuild packageType buildDir applicationName arch = (t', Ok l) ->
      forall d, d ∈ l <-> d ∈ merged /\ ~ exists b rest, b ∈ bundledDeps /\ d = b +:+ rest)
  /\ (forall baseline,
         referenceFor env packageType arch = Some baseline ->
         exists t' l,
           getDependenciesWith env false packageType buildDir applicationName arch
           = (t', Ok l))
  /\ (forall (bundled deps : list string) (d : string),
         d ∈ List.filter (notBundledIn bundled) deps
         <-> d ∈ deps /\ ~ exists b rest, b ∈ bundled /\ d = b +:+ rest)
  /\ List.filter (notBundledIn ["libfoo.so"]) ["libfoo.so.2"; "notlibfoo.so"]
     = ["notlibfoo.so"].
Proof.
  intros Hv Hf Hm. split_and!.
  - intros failBuild t' l.
    rewrite (getDependenciesWith_compared _ _ _ _ _ _ t merged) by done.
    intros H d.
    assert (l = excludeAndSort bundledDeps merged) as ->.
    { apply (checkAgainstReference_Ok_inv env failBuild packageType arch _
               (fst (checkAgainstReference env failBuild packageType arch
                       (excludeAndSort bundledDeps merged)))).
      rewrite (surjective_pairing (checkAgainstReference _ _ _ _ _)). cbn [fst].
      f_equal. congruence. }
    by rewrite elem_of_excludeAndSort, notBundled_iff.
  - intros baseline Hr.
    rewrite (getDependenciesWith_compared _ _ _ _ _ _ t merged) by done.
    destruct (decide (excludeAndSort bundledDeps merged = baseline)) as [E|E].
    + rewrite checkAgainstReference_same by congruence. eauto.
    + rewrite (checkAgainstReference_differs _ _ _ _ _ baseline) by done. eauto.
  - intros bundled deps d.
    rewrite !list_elem_of_In, filter_In, notBundledIn_true, notBundled_iff. done.
  - vm_compute. reflexivity.
Qed.

(** C2.  The comparison that [getDependencies] makes with the baseline is an
    equality of sequences: for every architecture with a baseline, a call
    whose extraction succeeded returns without a report exactly when the
    computed sorted list and the baseline are the same list, and otherwise
    the call of the script throws the error of a changed list, also when the
    two lists hold the same entries.  For the comparison on its own, a
    baseline [libA; libB] against a computed [libB; libA] is reported as a
    change although both hold the same entries. *)
Theorem drift_comparison_is_sequence_equality
  (env : Imports) (packageType : PackageType) (buildDir applicationName arch : string)
  (t : list Event) (merged baseline : list string) :
  validArch env packageType arch = true ->
  truthy_status (status (findResultOf env buildDir)) = false ->
  generateMerged env packageType (vscodeFilesOf env buildDir)
    (runtimeFilesOf buildDir applicationName) arch = (t, Ok merged) ->
  referenceFor env packageType arch = Some baseline ->
  let sorted := excludeAndSort bundledDeps merged in
  let before := SpawnSync "find" (findArgs buildDir) :: t in
  (forall failBuild,
      getDependenciesWith env failBuild packageType buildDir applicationName arch
      = (before, Ok sorted)
      <-> sorted = baseline)
  /\ (sorted <> baseline ->
      (forall d : string, d ∈ sorted <-> d ∈ baseline) ->
      getDependencies env packageType buildDir applicationName arch
      = (before, Throw (Error (failMessage baseline sorted))))
  /\ depsChanged ["libB"; "libA"] (Some ["libA"; "libB"]) = true
  /\ (forall d : string, d ∈ ["libB"; "libA"] <-> d ∈ ["libA"; "libB"]).
Proof.
  intros Hv Hf Hm Hr sorted before. split_and!.
  - intros failBuild.
    rewrite (getDependenciesWith_compared _ _ _ _ _ _ t merged) by done.
    fold sorted. fold before. split.
    + intros H. destruct (decide (sorted = baseline)) as [|Hne]; [done|].
      rewrite (checkAgainstReference_differs _ _ _ _ _ baseline) in H by done.
      destruct failBuild; cbn [fst snd] in H; [discriminate|].
      injection H as H. by apply app_singleton_neq in H.
    + intros E. rewrite checkAgainstReference_same by (by rewrite Hr, <- E).
      cbn [fst snd]. by rewrite app_nil_r.
  - intros Hne _. unfold getDependencies, FAIL_BUILD_FOR_NEW_DEPENDENCIES.
    rewrite (getDependenciesWith_compared _ _ _ _ _ _ t merged) by done.
    fold sorted. fold before.
    rewrite (checkAgainstReference_differs _ _ _ _ _ baseline) by done.
    cbn [fst snd]. by rewrite app_nil_r.
  - apply depsChanged_true_iff. discriminate.
  - intros d. rewrite !elem_of_cons, !elem_of_nil. tauto.
Qed.

Lemma invalid_arch_fails_before_any_access_witness :
  getDependencies (ExampleBuild.imports (Some 0%Z) ExampleBuild.unchanged ExampleBuild.baseline)
    deb "/build" "code" "x86_64"
  = ([], Throw (Error "Invalid Debian arch string x86_64")).
Proof.
  apply (invalid_arch_fails_before_any_access
           (ExampleBuild.imports (Some 0%Z) ExampleBuild.unchanged ExampleBuild.baseline)
           true deb "/build" "code" "x86_64").
  vm_compute. reflexivity.
Defined.

Lemma drift_raises_or_warns_witness :
  snd (getDependencies
         (ExampleBuild.imports (Some 0%Z) ExampleBuild.withNew ExampleBuild.baseline)
         deb "/build" "code" "amd64")
  = Throw (Error (failMessage ExampleBuild.baseline
                    ["libc.so.6"; "libnew.so.1"; "libpthread.so.0"]))
  /\ snd (getDependenciesWith
            (ExampleBuild.imports (Some 0%Z) ExampleBuild.withNew ExampleBuild.baseline)
            false deb "/build" "code" "amd64")
     = Ok ["libc.so.6"; "libnew.so.1"; "libpthread.so.0"]
  /\ snd (getDependencies
            (ExampleBuild.imports (Some 0%Z) ExampleBuild.unchanged ExampleBuild.baseline)
            rpm "/build" "code" "x86_64")
     = Ok ExampleBuild.baseline.
Proof.
  split_and!.
  - destruct (drift_raises_or_warns
                (ExampleBuild.imports (Some 0%Z) ExampleBuild.withNew ExampleBuild.baseline)
                deb "/build" "code" "amd64"
                (fst (generateMerged
                        (ExampleBuild.imports (Some 0%Z) ExampleBuild.withNew
                                              ExampleBuild.baseline)
                        deb
                        (vscodeFilesOf (ExampleBuild.imports (Some 0%Z) ExampleBuild.withNew
                                                             ExampleBuild.baseline) "/build")
                        (runtimeFilesOf "/build" "code") "amd64"))
                ["libpthread.so.0"; "libc.so.6"; "libffmpeg.so"; "libnew.so.1"]
                ExampleBuild.baseline) as [H _]; [vm_compute; reflexivity..|].
    destruct H as (_ & -> & _); [vm_compute; discriminate|reflexivity].
  - destruct (drift_raises_or_warns
                (ExampleBuild.imports (Some 0%Z) ExampleBuild.withNew ExampleBuild.baseline)
                deb "/build" "code" "amd64"
                (fst (generateMerged
                        (ExampleBuild.imports (Some 0%Z) ExampleBuild.withNew
                                              ExampleBuild.baseline)
                        deb
                        (vscodeFilesOf (ExampleBuild.imports (Some 0%Z) ExampleBuild.withNew
                                                             ExampleBuild.baseline) "/build")
                        (runtimeFilesOf "/build" "code") "amd64"))
                ["libpthread.so.0"; "libc.so.6"; "libffmpeg.so"; "libnew.so.1"]
                ExampleBuild.baseline) as [H _]; [vm_compute; reflexivity..|].
    destruct H as (_ & _ & _ & ->); [vm_compute; discriminate|reflexivity].
  - destruct (drift_raises_or_warns
                (ExampleBuild.imports (Some 0%Z) ExampleBuild.unchanged ExampleBuild.baseline)
                rpm "/build" "code" "x86_64"
                (fst (generateMerged
                        (ExampleBuild.imports (Some 0%Z) ExampleBuild.unchanged
                                              ExampleBuild.baseline)
                        rpm
                        (vscodeFilesOf (ExampleBuild.imports (Some 0%Z) ExampleBuild.unchanged
                                                             ExampleBuild.baseline) "/build")
                        (runtimeFilesOf "/build" "code") "x86_64"))
                ["libpthread.so.0"; "libc.so.6"; "libffmpeg.so"]
                ExampleBuild.baseline) as [_ H]; [vm_compute; reflexivity..|].
    unfold getDependencies. rewrite H; [reflexivity|vm_compute; reflexivity].
Defined.



Lemma returned_list_is_merged_filtered_sorted_witness :
  exists outputs,
    extractedBy (ExampleBuild.imports (Some 0%Z) ExampleBuild.unchanged ExampleBuild.baseline)
      rpm "/build" "code" "x86_64" outputs
    /\ describes bundledDeps outputs ["libc.so.6"; "libpthread.so.0"].
Proof.
  destruct (returned_list_is_merged_filtered_sorted
              (ExampleBuild.imports (Some 0%Z) ExampleBuild.unchanged ExampleBuild.baseline)
              rpm "/build" "code" "x86_64") as (H & _); [vm_compute; reflexivity..|].
  apply (H true (fst (getDependencies
                        (ExampleBuild.imports (Some 0%Z) ExampleBuild.unchanged
                                              ExampleBuild.baseline)
                        rpm "/build" "code" "x86_64"))).
  vm_compute. reflexivity.
Defined.

Lemma bundled_filter_is_prefix_based_witness :
  ("libffmpeg.so.5" ∈ ["libc.so.6"; "notlibffmpeg.so"]
   <-> "libffmpeg.so.5" ∈ ["libffmpeg.so.5"; "notlibffmpeg.so"; "libc.so.6"]
       /\ ~ exists b rest, b ∈ bundledDeps /\ "libffmpeg.so.5" = b +:+ rest)
  /\ ("notlibffmpeg.so" ∈ ["libc.so.6"; "notlibffmpeg.so"]
      <-> "notlibffmpeg.so" ∈ ["libffmpeg.so.5"; "notlibffmpeg.so"; "libc.so.6"]
          /\ ~ exists b rest, b ∈ bundledDeps /\ "notlibffmpeg.so" = b +:+ rest).
Proof.
  destruct (bundled_filter_is_prefix_based
              (ExampleBuild.imports (Some 0%Z)
                 [["libffmpeg.so.5"; "notlibffmpeg.so"; "libc.so.6"]] ExampleBuild.baseline)
              rpm "/build" "code" "x86_64"
              (fst (generateMerged
                      (ExampleBuild.imports (Some 0%Z)
                         [["libffmpeg.so.5"; "notlibffmpeg.so"; "libc.so.6"]]
                         ExampleBuild.baseline)
                      rpm
                      (vscodeFilesOf (ExampleBuild.imports (Some 0%Z)
                                        [["libffmpeg.so.5"; "notlibffmpeg.so"; "libc.so.6"]]
                                        ExampleBuild.baseline) "/build")
                      (runtimeFilesOf "/build" "code") "x86_64"))
              ["libffmpeg.so.5"; "notlibffmpeg.so"; "libc.so.6"]) as (H & _);
    [vm_compute; reflexivity..|].
  split.
  - apply (H false
             (fst (getDependenciesWith
                     (ExampleBuild.imports (Some 0%Z)
                        [["libffmpeg.so.5"; "notlibffmpeg.so"; "libc.so.6"]]
                        ExampleBuild.baseline)
                     false rpm "/build" "code" "x86_64"))).
    vm_compute. reflexivity.
  - apply (H false
             (fst (getDependenciesWith
                     (ExampleBuild.imports (Some 0%Z)
                        [["libffmpeg.so.5"; "notlibffmpeg.so"; "libc.so.6"]]
                        ExampleBuild.baseline)
                     false rpm "/build" "code" "x86_64"))).
    vm_compute. reflexivity.
Defined.

Lemma drift_comparison_is_sequence_equality_witness :
  snd (getDependencies
         (ExampleBuild.imports (Some 0%Z) ExampleBuild.unchanged
            ["libpthread.so.0"; "libc.so.6"])
         deb "/build" "code" "amd64")
  = Throw (Error (failMessage ["libpthread.so.0"; "libc.so.6"]
                    ["libc.so.6"; "libpthread.so.0"]))
  /\ snd (getDependencies
            (ExampleBuild.imports (Some 0%Z) ExampleBuild.unchanged
               ["libc.so.6"; "libpthread.so.0"])
            deb "/build" "code" "amd64")
     = Ok ["libc.so.6"; "libpthread.so.0"].
Proof.
  split.
  - destruct (drift_comparison_is_sequence_equality
                (ExampleBuild.imports (Some 0%Z) ExampleBuild.unchanged
                   ["libpthread.so.0"; "libc.so.6"])
                deb "/build" "code" "amd64"
                (fst (generateMerged
                        (ExampleBuild.imports (Some 0%Z) ExampleBuild.unchanged
                           ["libpthread.so.0"; "libc.so.6"])
                        deb
                        (vscodeFilesOf (ExampleBuild.imports (Some 0%Z) ExampleBuild.unchanged
                                          ["libpthread.so.0"; "libc.so.6"]) "/build")
                        (runtimeFilesOf "/build" "code") "amd64"))
                ["libpthread.so.0"; "libc.so.6"; "libffmpeg.so"]
                ["libpthread.so.0"; "libc.so.6"]) as (_ & H & _);
      [vm_compute; reflexivity..|].
    rewrite H; [reflexivity|vm_compute; discriminate|].
    intros d.
    replace (excludeAndSort bundledDeps ["libpthread.so.0"; "libc.so.6"; "libffmpeg.so"])
      with ["libc.so.6"; "libpthread.so.0"] by (vm_compute; reflexivity).
    rewrite !elem_of_cons, !elem_of_nil. tauto.
  - destruct (drift_comparison_is_sequence_equality
                (ExampleBuild.imports (Some 0%Z) ExampleBuild.unchanged
                   ["libc.so.6"; "libpthread.so.0"])
                deb "/build" "code" "amd64"
                (fst (generateMerged
                        (ExampleBuild.imports (Some 0%Z) ExampleBuild.unchanged
                           ["libc.so.6"; "libpthread.so.0"])
                        deb
                        (vscodeFilesOf (ExampleBuild.imports (Some 0%Z) ExampleBuild.unchanged
                                          ["libc.so.6"; "libpthread.so.0"]) "/build")
                        (runtimeFilesOf "/build" "code") "amd64"))
                ["libpthread.so.0"; "libc.so.6"; "libffmpeg.so"]
                ["libc.so.6"; "libpthread.so.0"]) as (H & _);
      [vm_compute; reflexivity..|].
    unfold getDependencies. destruct (H FAIL_BUILD_FOR_NEW_DEPENDENCIES) as [_ ->];
      [vm_compute; reflexivity|reflexivity].
Defined.

End ReconcilerFacts.

(** ** The sysroot provisioner *)

Module SysrootFacts.
Import Sysroot JSFacts.

Section FetchUrl.
Variable out : Outside.
Variable options : FetchOptions.
Variable retryDelay : Z.

Lemma fetchUrl_unfold retries s :
  fetchUrl out options retries retryDelay s
  = match fetchAttempt out options s with
    | (Ok tt, s') => (Ok tt, s')
    | (Throw e, s') =>
        match retries with
        | S retries' => fetchUrl out options retries' retryDelay (beforeRetry e retryDelay s')
        | O => (Throw e, s')
        end
    end.
Proof. by destruct retries. Qed.

Lemma fetchUrl_retry retries s :
  attemptFails out options s ->
  fetchUrl out options (S retries) retryDelay s
  = fetchUrl out options retries retryDelay (afterFailure out options retryDelay s).
Proof.
  unfold attemptFails, afterFailure. rewrite fetchUrl_unfold.
  by destruct (fetchAttempt out options s) as [[[]|e] s'].
Qed.

Lemma fetchUrl_success retries s :
  ~ attemptFails out options s ->
  fetchUrl out options retries retryDelay s = fetchAttempt out options s.
Proof.
  unfold attemptFails. rewrite fetchUrl_unfold.
  by destruct (fetchAttempt out options s) as [[[]|e] s'].
Qed.

Lemma fetchUrl_last s :
  fetchUrl out options 0 retryDelay s = fetchAttempt out options s.
Proof.
  rewrite fetchUrl_unfold. by destruct (fetchAttempt out options s) as [[[]|e] s'].
Qed.

(** After [k] failures the function goes on with [retries - k] retries. *)
Lemma fetchUrl_after_failures k : forall retries s,
  k <= retries ->
  (forall j, j < k -> attemptFails out options (stateBefore out options retryDelay j s)) ->
  fetchUrl out options retries retryDelay s
  = fetchUrl out options (retries - k) retryDelay (stateBefore out options retryDelay k s).
Proof.
  induction k as [|k IH]; intros retries s Hk Hf.
  - by rewrite Nat.sub_0_r.
  - destruct retries as [|retries]; [lia|].
    rewrite fetchUrl_retry by (apply (Hf 0); lia).
    rewrite IH; [done|lia|]. intros j Hj. apply (Hf (S j)). lia.
Qed.

Lemma fetchUrl_first_success retries k s :
  k <= retries ->
  (forall j, j < k -> attemptFails out options (stateBefore out options retryDelay j s)) ->
  ~ attemptFails out options (stateBefore out options retryDelay k s) ->
  fetchUrl out options retries retryDelay s
  = fetchAttempt out options (stateBefore out options retryDelay k s).
Proof.
  intros Hk Hf Hs. rewrite (fetchUrl_after_failures k) by done.
  by apply fetchUrl_success.
Qed.

Lemma fetchUrl_exhausted retries s :
  (forall j, j <= retries ->
             attemptFails out options (stateBefore out options retryDelay j s)) ->
  fetchUrl out options retries retryDelay s
  = fetchAttempt out options (stateBefore out options retryDelay retries s).
Proof.
  intros Hf. rewrite (fetchUrl_after_failures retries); [|done|].
  - rewrite Nat.sub_diag. apply fetchUrl_last.
  - intros j Hj. apply Hf. lia.
Qed.

Lemma trace_beforeRetry e s :
  trace (beforeRetry e retryDelay s)
  = trace s ++ [ConsoleLog ("Fetching failed: " +:+ Exception_toString e); Delay retryDelay].
Proof. cbn. by rewrite <- app_assoc. Qed.

End FetchUrl.

Section Attempt.
Variable out : Outside.
Variable options : FetchOptions.

Lemma attempt_network_error s e :
  fetch out (clock s) releaseUrl = Throw e ->
  fst (fetchAttempt out options s) = Throw e.
Proof. intros H. unfold fetchAttempt. run_monad. by rewrite H. Qed.

Lemma attempt_bad_status s response :
  fetch out (clock s) releaseUrl = Ok response ->
  okStatus response = false ->
  fst (fetchAttempt out options s)
  = Throw (Error ("Request " +:+ magenta out "https://api.github.com"
                    +:+ " failed with status code: "
                    +:+ Number_toString (response_status response))).
Proof. intros H1 H2. unfold fetchAttempt. run_monad. by rewrite H1, H2. Qed.

Lemma attempt_missing_asset s response contents assets :
  fetch out (clock s) releaseUrl = Ok response ->
  okStatus response = true ->
  response_arrayBuffer response = Ok contents ->
  JSON_parse_assets out contents = Ok assets ->
  find (fun a => String.eqb (asset_name a) (assetName options)) assets = None ->
  fst (fetchAttempt out options s)
  = Throw (Error ("Could not find asset in release of Microsoft/vscode-linux-build-agent @ "
                    +:+ version)).
Proof.
  intros H1 H2 H3 H4 H5. unfold fetchAttempt. run_monad.
  by rewrite H1, H2, H3, H4, H5.
Qed.

Lemma attempt_checksum_mismatch s response contents assets asset
      assetResponse assetContents expected :
  fetch out (clock s) releaseUrl = Ok response ->
  okStatus response = true ->
  response_arrayBuffer response = Ok contents ->
  JSON_parse_assets out contents = Ok assets ->
  find (fun a => String.eqb (asset_name a) (assetName options)) assets = Some asset ->
  fetch out (S (clock s)) (asset_url asset) = Ok assetResponse ->
  okStatus assetResponse = true ->
  response_arrayBuffer assetResponse = Ok assetContents ->
  checksumSha256 options = Some expected ->
  expected <> EmptyString ->
  sha256_hex out assetContents <> expected ->
  fst (fetchAttempt out options s)
  = Throw (Error ("Checksum mismatch for " +:+ cyan out (asset_url asset)
                    +:+ " (expected " +:+ expected +:+ ", actual "
                    +:+ sha256_hex out assetContents +:+ "))")).
Proof.
  intros H1 H2 H3 H4 H5 H6 H7 H8 H9 H10 H11. unfold fetchAttempt. run_monad.
  rewrite H1, H2, H3, H4, H5. run_monad. rewrite H6, H7, H8, H9.
  destruct expected; [done|]. cbn [truthy_string].
  apply String.eqb_neq in H11. by rewrite H11.
Qed.

End Attempt.

Section Preserves.
Context (I : Inv).

Lemma preserves_ret {A} (a : A) : preserves I (ret a).
Proof. by intros s. Qed.
Lemma preserves_throw {A} e : preserves I (throw (A:=A) e).
Proof. by intros s. Qed.
Lemma preserves_lift {A} (r : Result A) : preserves I (lift r).
Proof. by intros s. Qed.
Lemma preserves_get {A} (f : State -> A) : preserves I (get f).
Proof. by intros s. Qed.
Lemma preserves_emit ev : preserves I (emit ev).
Proof. by intros s. Qed.
Lemma preserves_tick : preserves I tick.
Proof. by intros s. Qed.

Lemma preserves_bind {A B} (m : M A) (k : A -> M B) :
  preserves I m -> (forall a, preserves I (k a)) -> preserves I (bind m k).
Proof.
  intros Hm Hk s Hs. unfold bind. specialize (Hm s Hs).
  destruct (m s) as [[a|e] s1]; cbn in *; [by apply Hk|done].
Qed.

Lemma preserves_set_fs f :
  (forall files cache, I files cache -> I (f files) cache) -> preserves I (set_fs f).
Proof. intros H s Hs. by apply H. Qed.

Lemma preserves_existsSync p : preserves I (existsSync p).
Proof. apply preserves_get. Qed.

Lemma preserves_readFileSync p : preserves I (readFileSync p).
Proof. intros s Hs. unfold readFileSync. by destruct (fs s !! p). Qed.

Lemma preserves_if {A} (b : bool) (m1 m2 : M A) :
  preserves I m1 -> preserves I m2 -> preserves I (if b then m1 else m2).
Proof. by destruct b. Qed.

End Preserves.

Ltac preserves_step :=
  first
    [ apply preserves_bind; [|intros ?]
    | apply preserves_if
    | apply preserves_ret | apply preserves_throw | apply preserves_lift
    | apply preserves_get | apply preserves_emit | apply preserves_tick
    | apply preserves_existsSync | apply preserves_readFileSync ].

Lemma isInside_path_join dir name : isInside dir (path_join [dir; name]) = true.
Proof.
  unfold isInside. apply startsWith_iff. exists name.
  unfold path_join, join. cbn [String.concat]. by rewrite append_assoc.
Qed.

Lemma bind_Ok_inv {A B} (m : M A) (k : A -> M B) s b s' :
  bind m k s = (Ok b, s') ->
  exists a s1, m s = (Ok a, s1) /\ k a s1 = (Ok b, s').
Proof.
  unfold bind. destruct (m s) as [[a|e] s1]; [eauto|discriminate].
Qed.

Lemma bind_Throw_inv {A B} (m : M A) (k : A -> M B) s e s' :
  bind m k s = (Throw e, s') ->
  m s = (Throw e, s') \/ exists a s1, m s = (Ok a, s1) /\ k a s1 = (Throw e, s').
Proof.
  unfold bind. destruct (m s) as [[a|e1] s1]; [eauto|]. intros [= -> ->]. by left.
Qed.

Lemma bind_run {A B} (m : M A) (k : A -> M B) s a s1 :
  m s = (Ok a, s1) -> bind m k s = k a s1.
Proof. unfold bind. by intros ->. Qed.

Lemma bind_run_throw {A B} (m : M A) (k : A -> M B) s e s1 :
  m s = (Throw e, s1) -> bind m k s = (Throw e, s1).
Proof. unfold bind. by intros ->. Qed.

Lemma readOnly_bind {A B} (m : M A) (k : A -> M B) :
  readOnly m -> (forall a, readOnly (k a)) -> readOnly (bind m k).
Proof.
  intros Hm Hk s. unfold bind. specialize (Hm s).
  destruct (m s) as [[a|e] s1]; cbn in *; subst; [apply Hk|done].
Qed.

Lemma bind_readOnly {A B} (m : M A) (k : A -> M B) s :
  readOnly m ->
  bind m k s = match fst (m s) with
               | Ok a => k a s
               | Throw e => (Throw e, s)
               end.
Proof.
  intros H. specialize (H s). unfold bind.
  destruct (m s) as [[a|e] s1]; cbn in *; by subst.
Qed.

Lemma readOnly_preserves {A} (I : Inv) (m : M A) : readOnly m -> preserves I m.
Proof. intros H s Hs. by rewrite H. Qed.

Lemma readOnly_readFileSync p : readOnly (readFileSync p).
Proof. intros s. unfold readFileSync. by destruct (fs s !! p). Qed.

Lemma readOnly_stampMatches stamp expected : readOnly (stampMatches stamp expected).
Proof.
  apply readOnly_bind; [done|]. intros [|]; [|done].
  apply readOnly_bind; [apply readOnly_readFileSync|done].
Qed.

Lemma readOnly_getVSCodeSysrootChecksum out expectedName :
  readOnly (getVSCodeSysrootChecksum out expectedName).
Proof. apply readOnly_bind; [apply readOnly_readFileSync|done]. Qed.

Lemma readOnly_getElectronVersion out : readOnly (getElectronVersion out).
Proof.
  apply readOnly_bind; [apply readOnly_readFileSync|]. intros yarnrc.
  apply readOnly_bind; [done|]. intros ?. apply readOnly_bind; done.
Qed.

Lemma stampMatches_true stamp expected s :
  fst (stampMatches stamp expected s) = Ok true <-> fs s !! stamp = Some expected.
Proof.
  unfold stampMatches, existsSync, readFileSync. run_monad.
  destruct (fs s !! stamp) as [content|] eqn:E.
  - rewrite bool_decide_eq_true_2 by eauto. rewrite E. cbn. split.
    + intros [= H]. apply String.eqb_eq in H. by subst.
    + intros [= ->]. by rewrite String.eqb_refl.
  - rewrite bool_decide_eq_false_2 by (by intros [? ?]). cbn. split; discriminate.
Qed.

Lemma stampMatches_total stamp expected s :
  exists valid, stampMatches stamp expected s = (Ok valid, s).
Proof.
  unfold stampMatches, existsSync, readFileSync. run_monad.
  destruct (fs s !! stamp) as [content|] eqn:E.
  - rewrite bool_decide_eq_true_2 by eauto. rewrite E. cbn. eauto.
  - rewrite bool_decide_eq_false_2 by (by intros [? ?]). cbn. eauto.
Qed.

Section PreservesOps.
Context (out : Outside) (I : Inv) (dir : string) (W : writeProof I dir).

Lemma preserves_writeFileSync p content :
  isInside dir p = true -> preserves I (writeFileSync p content).
Proof.
  intros Hp. unfold writeFileSync. repeat preserves_step.
  apply preserves_set_fs. intros. by apply (wp_insert I dir W).
Qed.

Lemma preserves_appendFileSync p chunk :
  isInside dir p = true -> preserves I (appendFileSync p chunk).
Proof.
  intros Hp. unfold appendFileSync. repeat preserves_step.
  apply preserves_set_fs. intros. by apply (wp_insert I dir W).
Qed.

Lemma preserves_rmSync p : isInside dir p = true -> preserves I (rmSync p).
Proof.
  intros Hp. unfold rmSync. repeat preserves_step.
  apply preserves_set_fs. intros. by apply (wp_delete I dir W).
Qed.

Lemma preserves_rmSync_recursive_force : preserves I (rmSync_recursive_force dir).
Proof.
  unfold rmSync_recursive_force. repeat preserves_step.
  apply preserves_set_fs. intros. by apply (wp_clear I dir W).
Qed.

Lemma tar_writes_inside files cache (entries : list (string * string)) :
  I files cache ->
  I (fold_left (fun files entry => <[path_join [dir; entry.1] := entry.2]> files)
               entries files) cache.
Proof.
  revert files. induction entries as [|entry entries IH]; intros files H; [done|].
  cbn [fold_left]. apply IH, (wp_insert I dir W); [apply isInside_path_join|done].
Qed.

End PreservesOps.

Section PreservesFetch.
Context (out : Outside) (I : Inv).

Lemma preserves_do_fetch url : preserves I (do_fetch out url).
Proof. unfold do_fetch. repeat preserves_step. Qed.

Lemma preserves_run_tar ev archive target :
  survivesTar out I target -> preserves I (run_tar out ev archive target).
Proof.
  intros H. unfold run_tar. repeat preserves_step.
  intros s Hs. by apply H.
Qed.

Lemma preserves_execSync_tar target assetContents :
  survivesTar out I target -> preserves I (execSync_tar out target assetContents).
Proof.
  intros H. unfold execSync_tar. preserves_step; [by apply preserves_run_tar|].
  repeat preserves_step.
Qed.

Lemma preserves_fetchAttempt options :
  survivesTar out I (dest options) -> preserves I (fetchAttempt out options).
Proof.
  intros H. unfold fetchAttempt, console_log.
  preserves_step; [apply preserves_do_fetch|]. preserves_step; [|preserves_step].
  do 3 (preserves_step; [preserves_step|]).
  destruct (find _ _); [|preserves_step].
  preserves_step; [preserves_step|]. preserves_step; [apply preserves_do_fetch|].
  preserves_step; [|preserves_step].
  do 2 (preserves_step; [preserves_step|]).
  preserves_step.
  { destruct (checksumSha256 options); repeat preserves_step. }
  preserves_step; [preserves_step|].
  preserves_step; [by apply preserves_execSync_tar|preserves_step].
Qed.

Lemma holds_beforeRetry e retryDelay s : holds I s -> holds I (beforeRetry e retryDelay s).
Proof. done. Qed.

Lemma preserves_fetchUrl options retries retryDelay :
  survivesTar out I (dest options) ->
  preserves I (fetchUrl out options retries retryDelay).
Proof.
  intros H. induction retries as [|retries IH]; intros s Hs;
    rewrite fetchUrl_unfold;
    pose proof (preserves_fetchAttempt options H s Hs) as Ha;
    destruct (fetchAttempt out options s) as [[[]|e] s1]; cbn in Ha |- *; try done.
  by apply IH, holds_beforeRetry.
Qed.

End PreservesFetch.

Lemma writeProof_lookup dir p v :
  p <> dir -> isInside dir p = false ->
  writeProof (fun files _ => files !! p = v) dir.
Proof.
  intros Hne Hout. split.
  - intros files cache q content Hq H. rewrite lookup_insert_ne; [done|congruence].
  - intros files cache q Hq H. rewrite lookup_delete_ne; [done|congruence].
  - intros files cache H. destruct v as [content|].
    + apply map_lookup_filter_Some. split; [done|]. cbn [fst].
      apply String.eqb_neq in Hne. by rewrite Hne, Hout.
    + apply map_lookup_filter_None. by left.
Qed.

Lemma writeProof_cache dir loc v :
  writeProof (fun _ cache => cache !! loc = v) dir.
Proof. by split. Qed.

Lemma cleared_inside dir p (files : gmap string string) :
  isInside dir p = true ->
  filter (fun entry => negb (String.eqb entry.1 dir || isInside dir entry.1) = true)
         files !! p = None.
Proof.
  intros H. apply map_lookup_filter_None. right. intros content _. cbn [fst].
  rewrite H, orb_true_r. discriminate.
Qed.

Section VSCode.
Context (out : Outside) (arch : DebianArchString).

Lemma checksum_depends_on_file expectedName s s' :
  fs s' !! checksumsPath out = fs s !! checksumsPath out ->
  fst (getVSCodeSysrootChecksum out expectedName s')
  = fst (getVSCodeSysrootChecksum out expectedName s).
Proof.
  intros H. unfold getVSCodeSysrootChecksum, readFileSync. run_monad.
  rewrite H. by destruct (fs s !! checksumsPath out).
Qed.

Lemma getVSCodeSysroot_unfold s :
  getVSCodeSysroot out arch s
  = match fst (getVSCodeSysrootChecksum out (expectedNameOf arch) s) with
    | Throw e => (Throw e, s)
    | Ok checksumSha256 =>
        if negb (truthy_string checksumSha256) then
          (Throw (Error ("Could not find checksum for " +:+ expectedNameOf arch)), s)
        else if bool_decide (fs s !! vscodeStamp out arch = Some (expectedNameOf arch))
        then (Ok (vscodeResult out arch), s)
        else
          bind (console_log ("Installing " +:+ arch_toString arch +:+ " root image: "
                               +:+ vscodeSysrootDir out arch))
            (fun _ => bind (rmSync_recursive_force (vscodeSysrootDir out arch))
               (fun _ => bind (mkdirSync (vscodeSysrootDir out arch))
                  (fun _ => bind (fetchUrl_default out
                                    {| checksumSha256 := checksumSha256;
                                       assetName := expectedNameOf arch;
                                       dest := vscodeSysrootDir out arch |})
                     (fun _ => bind (writeFileSync (vscodeStamp out arch)
                                       (expectedNameOf arch))
                        (fun _ => ret (vscodeResult out arch)))))) s
    end.
Proof.
  unfold getVSCodeSysroot. cbv zeta.
  rewrite bind_readOnly by apply readOnly_getVSCodeSysrootChecksum.
  destruct (fst (getVSCodeSysrootChecksum out (expectedNameOf arch) s)) as [c|e]; [|done].
  destruct (negb (truthy_string c)); [done|].
  rewrite bind_readOnly by apply readOnly_stampMatches.
  pose proof (stampMatches_true (vscodeStamp out arch) (expectedNameOf arch) s) as Ht.
  destruct (stampMatches_total (vscodeStamp out arch) (expectedNameOf arch) s)
    as [valid Hv].
  rewrite Hv in Ht |- *. cbn [fst] in Ht |- *. destruct valid.
  - rewrite bool_decide_eq_true_2; [done|]. by apply Ht.
  - rewrite bool_decide_eq_false_2; [done|]. intros H. apply Ht in H. discriminate.
Qed.

Lemma getVSCodeSysroot_cache_hit s checksum :
  fst (getVSCodeSysrootChecksum out (expectedNameOf arch) s) = Ok checksum ->
  truthy_string checksum = true ->
  fs s !! vscodeStamp out arch = Some (expectedNameOf arch) ->
  getVSCodeSysroot out arch s = (Ok (vscodeResult out arch), s).
Proof.
  intros Hc Ht Hs. rewrite getVSCodeSysroot_unfold, Hc, Ht. cbn [negb].
  by rewrite bool_decide_eq_true_2.
Qed.

Lemma vscodeStamp_inside : isInside (vscodeSysrootDir out arch) (vscodeStamp out arch) = true.
Proof. apply isInside_path_join. Qed.

(** What a successful call leaves behind. *)
Lemma getVSCodeSysroot_Ok_inv s p s' :
  getVSCodeSysroot out arch s = (Ok p, s') ->
  p = vscodeResult out arch
  /\ fs s' !! vscodeStamp out arch = Some (expectedNameOf arch)
  /\ (exists checksum,
         fst (getVSCodeSysrootChecksum out (expectedNameOf arch) s) = Ok checksum
         /\ truthy_string checksum = true)
  /\ forall I, writeProof I (vscodeSysrootDir out arch) -> holds I s -> holds I s'.
Proof.
  rewrite getVSCodeSysroot_unfold.
  destruct (fst (getVSCodeSysrootChecksum out (expectedNameOf arch) s)) as [c|e];
    [|discriminate].
  destruct (truthy_string c) eqn:Ht; cbn [negb]; [|discriminate].
  case_bool_decide as Hs.
  - intros [= <- <-]. split_and!; eauto.
  - intros H.
    apply bind_Ok_inv in H as ([] & s1 & H1 & H).
    apply bind_Ok_inv in H as ([] & s2 & H2 & H).
    apply bind_Ok_inv in H as ([] & s3 & H3 & H).
    apply bind_Ok_inv in H as ([] & s4 & H4 & H).
    apply bind_Ok_inv in H as ([] & s5 & H5 & H).
    injection H as <- <-. split_and!; [done| |eauto|].
    + unfold writeFileSync in H5. revert H5. run_monad. intros [= <-]. cbn.
      apply lookup_insert_eq.
    + intros I W Hi.
      assert (holds I s1) as Hi1.
      { replace s1 with (snd (console_log ("Installing " +:+ arch_toString arch
                   +:+ " root image: " +:+ vscodeSysrootDir out arch) s)) by by rewrite H1.
        done. }
      assert (holds I s2) as Hi2.
      { replace s2 with (snd (rmSync_recursive_force (vscodeSysrootDir out arch) s1))
          by by rewrite H2.
        by apply (preserves_rmSync_recursive_force I _ W). }
      assert (holds I s3) as Hi3.
      { replace s3 with (snd (mkdirSync (vscodeSysrootDir out arch) s2)) by by rewrite H3.
        done. }
      assert (holds I s4) as Hi4.
      { replace s4 with (snd (fetchUrl_default out
                                {| checksumSha256 := c; assetName := expectedNameOf arch;
                                   dest := vscodeSysrootDir out arch |} s3))
          by by rewrite H4.
        apply preserves_fetchUrl; [|done].
        intros files cache n archive Hf. by apply (tar_writes_inside I _ W). }
      replace s5 with (snd (writeFileSync (vscodeStamp out arch) (expectedNameOf arch) s4))
        by by rewrite H5.
      apply (preserves_writeFileSync I _ W); [apply vscodeStamp_inside|done].
Qed.

End VSCode.

Section VSCodeAgain.
Context (out : Outside) (arch : DebianArchString).

(** Two calls in a row: the second one reads the checksum file and the
    marker, and nothing else. *)
Lemma getVSCodeSysroot_again s p s' :
  checksumsPath out <> vscodeSysrootDir out arch ->
  isInside (vscodeSysrootDir out arch) (checksumsPath out) = false ->
  getVSCodeSysroot out arch s = (Ok p, s') ->
  getVSCodeSysroot out arch s' = (Ok p, s').
Proof.
  intros Hne Hout H.
  apply getVSCodeSysroot_Ok_inv in H as (-> & Hs & (c & Hc & Ht) & Hi).
  apply (getVSCodeSysroot_cache_hit out arch s' c); [|done..].
  rewrite <- Hc. apply checksum_depends_on_file.
  apply (Hi (fun files _ => files !! checksumsPath out = fs s !! checksumsPath out));
    [by apply writeProof_lookup|done].
Qed.

End VSCodeAgain.

Section Chromium.
Context (out : Outside).

Lemma stamp_is_not_the_manifest sysrootDict :
  chromiumStamp out sysrootDict <> sysrootDictLocation out.
Proof.
  unfold chromiumStamp, chromiumSysrootDir, sysrootDictLocation, path_join, join.
  cbn [String.concat]. rewrite !append_assoc. intros H.
  apply (inj (String.app (tmpdir out))) in H.
  apply (f_equal countSlashes) in H. rewrite !countSlashes_append in H.
  cbn in H. lia.
Qed.

Lemma chromiumStamp_inside sysrootDict :
  isInside (chromiumSysrootDir out sysrootDict) (chromiumStamp out sysrootDict) = true.
Proof. apply isInside_path_join. Qed.

Lemma spawnSync_curl_run url location s :
  spawnSync_curl out url location s
  = (Ok (fst (curl out (clock s) url)),
     {| fs := match snd (curl out (clock s) url) with
              | Some text => <[location := text]> (fs s)
              | None => fs s
              end;
        requireCache := requireCache s;
        clock := S (clock s);
        trace := trace s ++ [SpawnSync "curl" [url; "-o"; location]] |}).
Proof.
  unfold spawnSync_curl. run_monad.
  by destruct (curl out (clock s) url) as [result [text|]].
Qed.

(** What a successful load of the manifest did: one run of [curl], which
    wrote at most the manifest file, and the manifest is in the cache of
    [require] from then on. *)
Lemma loadSysrootInfo_Ok_inv s sysrootInfo s1 :
  loadSysrootInfo out s = (Ok sysrootInfo, s1) ->
  (exists electron,
      fst (getElectronVersion out s) = Ok electron
      /\ trace s1 = trace s ++ [curlEvent out electron.1])
  /\ clock s1 = S (clock s)
  /\ requireCache s1 !! sysrootDictLocation out = Some sysrootInfo
  /\ (forall cached, requireCache s !! sysrootDictLocation out = Some cached ->
                     sysrootInfo = cached)
  /\ (forall p, p <> sysrootDictLocation out -> fs s1 !! p = fs s !! p).
Proof.
  unfold loadSysrootInfo.
  rewrite bind_readOnly by apply readOnly_getElectronVersion.
  destruct (fst (getElectronVersion out s)) as [electron|e]; [|discriminate].
  cbv zeta. rewrite (bind_run _ _ _ _ _ (spawnSync_curl_run _ _ s)).
  destruct (status_not_zero _); [discriminate|].
  set (s0 := {| fs := _; requireCache := _; clock := _; trace := _ |}).
  assert (forall p, p <> sysrootDictLocation out -> fs s0 !! p = fs s !! p) as Hfs.
  { intros p Hp. unfold s0. cbn [fs].
    destruct (snd (curl out _ _)); [|done]. by rewrite lookup_insert_ne. }
  unfold require. change (requireCache s0) with (requireCache s).
  destruct (requireCache s !! sysrootDictLocation out) as [cached|] eqn:Hc.
  - intros [= <- <-]. split_and!; eauto. intros ? [= <-]. done.
  - destruct (fs s0 !! sysrootDictLocation out) as [text|]; [|discriminate].
    destruct (JSON_parse_sysroots out text) as [module|e]; [|discriminate].
    intros [= <- <-]. cbn [requireCache clock trace fs]. split_and!; eauto.
    + apply lookup_insert_eq.
    + discriminate.
Qed.

Context (arch : DebianArchString).

Lemma getChromiumSysroot_cache_hit s sysrootInfo s1 sysrootDict :
  loadSysrootInfo out s = (Ok sysrootInfo, s1) ->
  sysrootInfo !! sysrootArchOf arch = Some sysrootDict ->
  fs s1 !! chromiumStamp out sysrootDict = Some (chromiumUrl sysrootDict) ->
  getChromiumSysroot out arch s = (Ok (chromiumSysrootDir out sysrootDict), s1).
Proof.
  intros Hl Hd Hs. unfold getChromiumSysroot.
  rewrite (bind_run _ _ _ _ _ Hl), Hd. cbv zeta.
  rewrite bind_readOnly by apply readOnly_stampMatches.
  apply stampMatches_true in Hs. by rewrite Hs.
Qed.

End Chromium.

Lemma guarded_preserves {A} (I : Inv) (m : M A) : preserves I m -> guarded I m.
Proof. intros H s Hs _. by apply H. Qed.

Lemma guarded_bind {A B} (I : Inv) (m : M A) (k : A -> M B) :
  preserves I m -> (forall a, guarded I (k a)) -> guarded I (bind m k).
Proof.
  intros Hm Hk s Hs. unfold bind. specialize (Hm s Hs).
  destruct (m s) as [[a|e] s1]; cbn in *; [by apply Hk|done].
Qed.

Lemma guarded_if {A} (I : Inv) (b : bool) (m1 m2 : M A) :
  guarded I m1 -> guarded I m2 -> guarded I (if b then m1 else m2).
Proof. by destruct b. Qed.

Lemma guarded_returns {A} (I : Inv) (m : M A) :
  (forall s, isOk (fst (m s)) = true) -> guarded I m.
Proof. intros H s _ Hf. rewrite H in Hf. discriminate. Qed.

Section Install.
Context (out : Outside) (I : Inv) (sysroot tarball : string).
Context (D : downloadProof out I sysroot tarball).

Lemma preserves_tarball_write content : preserves I (writeFileSync tarball content).
Proof.
  unfold writeFileSync. repeat preserves_step. apply preserves_set_fs.
  intros. by apply (dp_insert out I sysroot tarball D).
Qed.

Lemma preserves_tarball_append chunk : preserves I (appendFileSync tarball chunk).
Proof.
  unfold appendFileSync. repeat preserves_step. apply preserves_set_fs.
  intros. by apply (dp_insert out I sysroot tarball D).
Qed.

Lemma preserves_tarball_rm : preserves I (rmSync tarball).
Proof.
  unfold rmSync. repeat preserves_step. apply preserves_set_fs.
  intros. by apply (dp_delete out I sysroot tarball D).
Qed.

Lemma preserves_chunks chunks :
  preserves I (fold_right (fun chunk rest => bind (appendFileSync tarball chunk)
                                               (fun _ => rest)) (ret tt) chunks).
Proof.
  induction chunks as [|chunk chunks IH]; cbn [fold_right]; [apply preserves_ret|].
  apply preserves_bind; [apply preserves_tarball_append|done].
Qed.

Lemma preserves_httpsAttempt url : preserves I (httpsAttempt out url tarball).
Proof.
  unfold httpsAttempt, console_error. do 2 (preserves_step; [preserves_step|]).
  destruct (https_get out _ url).
  - preserves_step; [apply preserves_chunks|preserves_step].
  - preserves_step; [apply preserves_chunks|]. repeat preserves_step.
Qed.

Lemma preserves_downloadLoop left url : preserves I (downloadLoop out left url tarball).
Proof.
  induction left as [|left IH]; cbn [downloadLoop]; [apply preserves_ret|].
  preserves_step; [apply preserves_tarball_write|].
  preserves_step; [apply preserves_httpsAttempt|].
  by preserves_step; [preserves_step|].
Qed.

Lemma preserves_getSha : preserves I (getSha out tarball).
Proof. unfold getSha. repeat preserves_step. Qed.

End Install.

Lemma writeProof_downloadProof out I sysroot name :
  writeProof I sysroot -> downloadProof out I sysroot (path_join [sysroot; name]).
Proof.
  intros W. split.
  - intros. apply (wp_insert I sysroot W); [apply isInside_path_join|done].
  - intros. apply (wp_delete I sysroot W); [apply isInside_path_join|done].
  - intros files cache n archive H. by apply (tar_writes_inside I sysroot W).
Qed.

Lemma guarded_elim {A} (I : Inv) (m : M A) s e s' :
  guarded I m -> holds I s -> m s = (Throw e, s') -> holds I s'.
Proof. intros G Hs H. specialize (G s Hs). rewrite H in G. by apply G. Qed.

Lemma preserves_elim {A} (I : Inv) (m : M A) s r s' :
  preserves I m -> holds I s -> m s = (r, s') -> holds I s'.
Proof. intros G Hs H. specialize (G s Hs). by rewrite H in G. Qed.

Lemma bind_emit_run {B} ev (k : unit -> M B) s :
  bind (emit ev) k s = k tt (snd (emit ev s)).
Proof. reflexivity. Qed.

Lemma bind_clear_run {B} dir (k : unit -> M B) s :
  bind (rmSync_recursive_force dir) k s = k tt (snd (rmSync_recursive_force dir s)).
Proof. reflexivity. Qed.

Section InstallChromium.
Context (out : Outside) (arch : DebianArchString) (sysrootDict : SysrootDict).

(** Whatever holds once the directory is cleared, and survives the download
    and the unpacking, holds when the acquisition throws. *)
Lemma installChromiumSysroot_throws (I : Inv) s e s' :
  downloadProof out I (chromiumSysrootDir out sysrootDict) (chromiumTarball out sysrootDict) ->
  (forall files cache,
      I (filter (fun entry => negb (String.eqb entry.1 (chromiumSysrootDir out sysrootDict) || isInside (chromiumSysrootDir out sysrootDict) entry.1)
                              = true) files) cache) ->
  installChromiumSysroot out arch sysrootDict s = (Throw e, s') ->
  holds I s'.
Proof.
  intros D Hc H. unfold installChromiumSysroot in H. cbv zeta in H.
  unfold console_log at 1 in H. rewrite bind_emit_run, bind_clear_run in H.
  lazymatch type of H with
  | ?m ?sb = _ => assert (guarded I m) as G; [|apply (guarded_elim I m sb e s' G); [|done]]
  end.
  - apply guarded_bind; [apply preserves_emit|intros _].
    apply guarded_bind; [apply preserves_emit|intros _].
    apply guarded_bind; [by apply (preserves_downloadLoop out I (chromiumSysrootDir out sysrootDict))|intros ok].
    apply guarded_if.
    { apply guarded_preserves.
      preserves_step; [by apply (preserves_tarball_rm out I (chromiumSysrootDir out sysrootDict))|preserves_step]. }
    apply guarded_bind; [by apply (preserves_getSha out)|intros sha].
    apply guarded_if; [apply guarded_preserves, preserves_throw|].
    apply guarded_bind; [apply preserves_get|intros archive].
    apply guarded_bind;
      [apply preserves_run_tar, (dp_tar out I (chromiumSysrootDir out sysrootDict) (chromiumTarball out sysrootDict) D)|intros st].
    apply guarded_if; [apply guarded_preserves, preserves_throw|].
    apply guarded_bind; [by apply (preserves_tarball_rm out I (chromiumSysrootDir out sysrootDict))|intros _].
    apply guarded_returns. by intros s0.
  - apply Hc.
Qed.

(** What a successful acquisition leaves behind: the marker with the URL,
    and whatever survives the writes below the directory. *)
Lemma installChromiumSysroot_Ok_inv s p s' :
  installChromiumSysroot out arch sysrootDict s = (Ok p, s') ->
  p = (chromiumSysrootDir out sysrootDict)
  /\ fs s' !! chromiumStamp out sysrootDict = Some (chromiumUrl sysrootDict)
  /\ forall I, writeProof I (chromiumSysrootDir out sysrootDict) -> holds I s -> holds I s'.
Proof.
  intros H. unfold installChromiumSysroot in H. cbv zeta in H.
  apply bind_Ok_inv in H as ([] & s1 & H1 & H).
  apply bind_Ok_inv in H as ([] & s2 & H2 & H).
  apply bind_Ok_inv in H as ([] & s3 & H3 & H).
  apply bind_Ok_inv in H as ([] & s4 & H4 & H).
  apply bind_Ok_inv in H as (ok & s5 & H5 & H).
  destruct ok; cbn [negb] in H;
    [|apply bind_Ok_inv in H as ([] & ? & _ & H); discriminate].
  apply bind_Ok_inv in H as (sha & s6 & H6 & H).
  destruct (negb (sha =? Sha1Sum sysrootDict)%string); [discriminate|].
  apply bind_Ok_inv in H as (archive & s7 & H7 & H).
  apply bind_Ok_inv in H as (st & s8 & H8 & H).
  destruct (truthy_status st); [discriminate|].
  apply bind_Ok_inv in H as ([] & s9 & H9 & H).
  apply bind_Ok_inv in H as ([] & s10 & H10 & H).
  injection H as <- <-. split_and!; [done| |].
  - revert H10. unfold writeFileSync. run_monad. intros [= <-]. apply lookup_insert_eq.
  - intros I W Hi.
    pose proof (writeProof_downloadProof out I (chromiumSysrootDir out sysrootDict) (Tarball sysrootDict) W) as D.
    eapply preserves_elim in H1; [|apply preserves_emit|done].
    eapply preserves_elim in H2;
      [|by apply (preserves_rmSync_recursive_force I (chromiumSysrootDir out sysrootDict))|done].
    eapply preserves_elim in H3; [|apply preserves_emit|done].
    eapply preserves_elim in H4; [|apply preserves_emit|done].
    eapply preserves_elim in H5; [|by apply (preserves_downloadLoop out I (chromiumSysrootDir out sysrootDict))|done].
    eapply preserves_elim in H6; [|by apply (preserves_getSha out)|done].
    eapply preserves_elim in H7; [|apply preserves_get|done].
    eapply preserves_elim in H8;
      [|apply preserves_run_tar, (dp_tar out I (chromiumSysrootDir out sysrootDict) (chromiumTarball out sysrootDict) D)|done].
    eapply preserves_elim in H9; [|by apply (preserves_tarball_rm out I (chromiumSysrootDir out sysrootDict))|done].
    eapply preserves_elim in H10;
      [done|apply (preserves_writeFileSync I (chromiumSysrootDir out sysrootDict) W), chromiumStamp_inside|done].
Qed.

End InstallChromium.

Section ChromiumTwice.
Context (out : Outside) (arch : DebianArchString).

Lemma getChromiumSysroot_Ok_inv s p s' :
  getChromiumSysroot out arch s = (Ok p, s') ->
  exists sysrootInfo s1 sysrootDict,
    loadSysrootInfo out s = (Ok sysrootInfo, s1)
    /\ sysrootInfo !! sysrootArchOf arch = Some sysrootDict
    /\ p = chromiumSysrootDir out sysrootDict
    /\ fs s' !! chromiumStamp out sysrootDict = Some (chromiumUrl sysrootDict)
    /\ requireCache s' !! sysrootDictLocation out = Some sysrootInfo.
Proof.
  intros H. unfold getChromiumSysroot in H.
  apply bind_Ok_inv in H as (sysrootInfo & s1 & Hl & H).
  destruct (sysrootInfo !! sysrootArchOf arch) as [sysrootDict|] eqn:Hd; [|discriminate].
  cbv zeta in H. rewrite bind_readOnly in H by apply readOnly_stampMatches.
  pose proof (stampMatches_true (chromiumStamp out sysrootDict)
                (chromiumUrl sysrootDict) s1) as Hs.
  destruct (loadSysrootInfo_Ok_inv out s sysrootInfo s1 Hl) as (_ & _ & Hc & _).
  exists sysrootInfo, s1, sysrootDict.
  destruct (fst (stampMatches _ _ s1)) as [[|]|e]; [| |discriminate].
  - injection H as <- <-. split_and!; [done..| |done]. by apply Hs.
  - apply installChromiumSysroot_Ok_inv in H as (-> & Hst & Hi). split_and!; [done..|].
    apply (Hi (fun _ cache => cache !! sysrootDictLocation out = Some sysrootInfo));
      [apply writeProof_cache|done].
Qed.

(** Two calls in a row: the second one downloads the manifest again and
    then only reads the marker. *)
Lemma getChromiumSysroot_twice s p s' sysrootInfo s2 :
  getChromiumSysroot out arch s = (Ok p, s') ->
  loadSysrootInfo out s' = (Ok sysrootInfo, s2) ->
  getChromiumSysroot out arch s' = (Ok p, s2).
Proof.
  intros H Hl.
  apply getChromiumSysroot_Ok_inv in H as (info & s1 & dict & _ & Hd & -> & Hs & Hc).
  destruct (loadSysrootInfo_Ok_inv out s' sysrootInfo s2 Hl) as (_ & _ & _ & Hsame & Hfs).
  apply Hsame in Hc as ->.
  apply (getChromiumSysroot_cache_hit out arch s' info s2 dict); [done..|].
  rewrite Hfs; [done|]. apply stamp_is_not_the_manifest.
Qed.

End ChromiumTwice.

Section ChromiumFirst.
Context (out : Outside) (arch : DebianArchString).

(** Without the version of Electron there is no call of [curl]. *)
Lemma getChromiumSysroot_without_version s e :
  fst (getElectronVersion out s) = Throw e ->
  getChromiumSysroot out arch s = (Throw e, s).
Proof.
  intros He. unfold getChromiumSysroot. apply bind_run_throw.
  unfold loadSysrootInfo. rewrite bind_readOnly by apply readOnly_getElectronVersion.
  by rewrite He.
Qed.

(** When [curl] does not end with status 0 the call throws after it. *)
Lemma getChromiumSysroot_curl_failed s electron :
  fst (getElectronVersion out s) = Ok electron ->
  status_not_zero (status (fst (curl out (clock s) (SysrootMore.sysrootJSONUrl electron.1))))
  = true ->
  exists s',
    getChromiumSysroot out arch s
    = (Throw (Error ("Cannot retrieve sysroots.json. Stderr:" +:+ LF
                       +:+ stderr (fst (curl out (clock s)
                                          (SysrootMore.sysrootJSONUrl electron.1))))), s')
    /\ trace s' = trace s ++ [curlEvent out electron.1]
    /\ forall p, p <> sysrootDictLocation out -> fs s' !! p = fs s !! p.
Proof.
  intros He Hst. unfold getChromiumSysroot. eexists. split.
  - apply bind_run_throw. unfold loadSysrootInfo.
    rewrite bind_readOnly by apply readOnly_getElectronVersion. rewrite He. cbv zeta.
    rewrite (bind_run _ _ _ _ _ (spawnSync_curl_run out _ _ s)).
    unfold SysrootMore.sysrootJSONUrl in Hst. rewrite Hst. reflexivity.
  - cbn [trace fs]. split; [done|]. intros p Hp.
    destruct (snd (curl out _ _)); [|done]. by rewrite lookup_insert_ne.
Qed.

End ChromiumFirst.

Lemma path_join_inj dir a b : path_join [dir; a] = path_join [dir; b] -> a = b.
Proof.
  unfold path_join, join. cbn [String.concat]. intros H.
  apply (inj (String.app dir)) in H. by apply (inj (String.app "/")) in H.
Qed.

Lemma survivesTar_no_stamp out dir :
  noStampEntry out ->
  survivesTar out (fun files _ => files !! path_join [dir; ".stamp"] = None) dir.
Proof.
  intros Hn files cache n archive. specialize (Hn n archive).
  revert files. induction (tar_files (tar out n archive)) as [|entry entries IH];
    intros files H; [done|].
  cbn [fold_left]. apply IH.
  - intros e He. apply Hn. by right.
  - rewrite lookup_insert_ne; [done|]. intros E%path_join_inj.
    apply (Hn entry); [by left|done].
Qed.

Lemma cleared_stamp dir (files : gmap string string) :
  filter (fun entry => negb (String.eqb entry.1 dir || isInside dir entry.1) = true)
         files !! path_join [dir; ".stamp"] = None.
Proof. apply cleared_inside, isInside_path_join. Qed.

(** Variant A: a call that throws has either changed nothing or left the
    directory without a marker. *)
Lemma getVSCodeSysroot_throws_without_marker out arch s e s' :
  noStampEntry out ->
  getVSCodeSysroot out arch s = (Throw e, s') ->
  s' = s \/ fs s' !! vscodeStamp out arch = None.
Proof.
  intros Hn. rewrite getVSCodeSysroot_unfold.
  destruct (fst (getVSCodeSysrootChecksum out (expectedNameOf arch) s)) as [c|e0];
    [|intros [= _ <-]; by left].
  destruct (negb (truthy_string c)); [intros [= _ <-]; by left|].
  case_bool_decide as Hstamp; [discriminate|]. intros H. right.
  unfold console_log at 1 in H. rewrite bind_emit_run, bind_clear_run in H.
  unfold mkdirSync at 1 in H. rewrite bind_emit_run in H.
  set (I := fun (files : gmap string string) (_ : gmap string (gmap string SysrootDict)) =>
              files !! vscodeStamp out arch = None).
  lazymatch type of H with
  | ?m ?sb = _ => assert (guarded I m) as G; [|apply (guarded_elim I m sb e s' G); [|done]]
  end.
  - apply guarded_bind.
    + apply preserves_fetchUrl. by apply survivesTar_no_stamp.
    + intros _. apply guarded_returns. by intros s0.
  - apply cleared_stamp.
Qed.

(** Variant B: an acquisition that throws leaves the directory without a
    marker. *)
Lemma installChromiumSysroot_throws_without_marker out arch sysrootDict s e s' :
  noStampEntry out ->
  Tarball sysrootDict <> ".stamp" ->
  installChromiumSysroot out arch sysrootDict s = (Throw e, s') ->
  fs s' !! chromiumStamp out sysrootDict = None.
Proof.
  intros Hn Ht H.
  apply (installChromiumSysroot_throws out arch sysrootDict
           (fun files _ => files !! chromiumStamp out sysrootDict = None) s e s');
    [|intros; apply cleared_stamp|done].
  split.
  - intros files cache content Hf. rewrite lookup_insert_ne; [done|].
    intros E%path_join_inj. done.
  - intros files cache Hf. by apply lookup_delete_None; right.
  - by apply survivesTar_no_stamp.
Qed.

Lemma Failure_attemptFails out options s : Failure out options s -> attemptFails out options s.
Proof.
  unfold attemptFails. intros [e H|r H1 H2|r c a H1 H2 H3 H4 H5|r c a x ar ac ex
                                 H1 H2 H3 H4 H5 H6 H7 H8 H9 H10 H11].
  - by rewrite (attempt_network_error out options s e).
  - by rewrite (attempt_bad_status out options s r).
  - by rewrite (attempt_missing_asset out options s r c a).
  - by rewrite (attempt_checksum_mismatch out options s r c a x ar ac ex).
Qed.

(** C1, as the code has it.  [fetchUrl] with its default parameters makes a
    first attempt and up to ten retries, eleven attempts in all, each retry
    1000 ms after the failure before it.  A failure of any kind (a network
    error, a status outside 200 to 299, a missing asset, a checksum mismatch)
    ends the attempt and is retried while retries are left.  The first
    attempt that succeeds ends the call, and when all eleven attempts fail
    the failure of the last one is thrown. *)
Theorem fetchUrl_default_retries_ten_times
  (out : Outside) (options : FetchOptions) (s : State) :
  let before := stateBefore out options 1000 in
  (forall s0, Failure out options s0 -> attemptFails out options s0)
  /\ (forall k,
         k < 10 ->
         (forall j, j <= k -> attemptFails out options (before j s)) ->
         fetchUrl_default out options s = fetchUrl out options (10 - S k) 1000 (before (S k) s)
         /\ exists e,
             fst (fetchAttempt out options (before k s)) = Throw e
             /\ trace (before (S k) s)
                = trace (snd (fetchAttempt out options (before k s)))
                    ++ [ConsoleLog ("Fetching failed: " +:+ Exception_toString e);
                        Delay 1000])
  /\ (forall k,
         k <= 10 ->
         (forall j, j < k -> attemptFails out options (before j s)) ->
         ~ attemptFails out options (before k s) ->
         fetchUrl_default out options s = fetchAttempt out options (before k s)
         /\ fst (fetchUrl_default out options s) = Ok tt)
  /\ ((forall j, j <= 10 -> attemptFails out options (before j s)) ->
      fetchUrl_default out options s = fetchAttempt out options (before 10 s)
      /\ exists e, fst (fetchUrl_default out options s) = Throw e).
Proof.
  intros before. unfold fetchUrl_default. split_and!.
  - apply Failure_attemptFails.
  - intros k Hk Hf. split.
    + apply (fetchUrl_after_failures out options 1000 (S k)); [lia|].
      intros j Hj. apply Hf. lia.
    + assert (before (S k) s = afterFailure out options 1000 (before k s)) as ->.
      { clear. unfold before. revert s. induction k as [|k IH]; intros s; [done|].
        cbn [stateBefore] in *. by rewrite IH. }
      specialize (Hf k (le_n k)). unfold attemptFails, afterFailure in *.
      destruct (fetchAttempt out options (before k s)) as [[[]|e] s1]; [discriminate|].
      exists e. split; [done|]. apply trace_beforeRetry.
  - intros k Hk Hf Hs.
    rewrite (fetchUrl_first_success out options 1000 10 k s) by done.
    split; [done|]. unfold attemptFails in Hs.
    by destruct (fetchAttempt out options _) as [[[]|e] s1].
  - intros Hf. rewrite (fetchUrl_exhausted out options 1000 10 s) by done.
    split; [done|]. specialize (Hf 10 (le_n 10)). unfold attemptFails in Hf.
    destruct (fetchAttempt out options _) as [[[]|e] s1]; [discriminate|eauto].
Qed.

(** C1 as stated, with ten attempts.  When the first ten requests are
    refused and the eleventh is answered, the call succeeds: the tenth
    failure was not the last attempt.  When eleven requests are refused, the
    release is requested eleven times, with ten delays, before the error is
    thrown. *)
Lemma fetchUrl_default_makes_an_eleventh_attempt :
  forallb (fun j => negb (isOk (fst (fetchAttempt (Example.outside 10 (Some 0%Z)) Example.options
                                      (stateBefore (Example.outside 10 (Some 0%Z))
                                         Example.options 1000 j Example.fresh)))))
          (seq 0 10) = true
  /\ fst (fetchUrl_default (Example.outside 10 (Some 0%Z)) Example.options Example.fresh)
     = Ok tt
  /\ length (List.filter (isFetchOf releaseUrl)
               (trace (snd (fetchUrl_default (Example.outside 11 (Some 0%Z))
                                             Example.options Example.fresh)))) = 11
  /\ List.filter isDelay
       (trace (snd (fetchUrl_default (Example.outside 11 (Some 0%Z))
                                     Example.options Example.fresh)))
     = repeat (Delay 1000) 10
  /\ fst (fetchUrl_default (Example.outside 11 (Some 0%Z)) Example.options Example.fresh)
     = Throw (TypeError "fetch failed").
Proof. vm_compute. repeat split. Qed.

Lemma fetchUrl_default_retries_ten_times_witness :
  fetchUrl_default (Example.outside 10 (Some 0%Z)) Example.options Example.fresh
  = fetchAttempt (Example.outside 10 (Some 0%Z)) Example.options
      (stateBefore (Example.outside 10 (Some 0%Z)) Example.options 1000 10 Example.fresh)
  /\ exists e,
      fst (fetchUrl_default (Example.outside 11 (Some 0%Z)) Example.options Example.fresh)
      = Throw e.
Proof.
  split.
  - pose proof (fetchUrl_default_retries_ten_times (Example.outside 10 (Some 0%Z))
                  Example.options Example.fresh) as (_ & _ & H & _).
    apply (H 10).
    + lia.
    + intros j Hj. do 10 (destruct j as [|j]; [vm_compute; reflexivity|]). lia.
    + vm_compute. discriminate.
  - pose proof (fetchUrl_default_retries_ten_times (Example.outside 11 (Some 0%Z))
                  Example.options Example.fresh) as (_ & _ & _ & H).
    apply H.
    intros j Hj. do 11 (destruct j as [|j]; [vm_compute; reflexivity|]). lia.
Defined.

Lemma run_pair {A} (m : M A) (s : State) : m s = (fst (m s), snd (m s)).
Proof. apply surjective_pairing. Qed.

(** C4, as the code has it.  [getVSCodeSysroot]: when the checksum of the
    archive is known and the marker holds the archive name, the call returns
    the path and changes nothing; so a second call right after a successful
    one returns the same path and changes nothing, provided the checksum
    file is not the sysroot directory and does not lie in it, both being
    given by absolute paths in normal form: the first call empties that
    directory.  [getChromiumSysroot] reads the
    version of Electron from [.yarnrc] and runs [curl] for the manifest
    before it looks at the marker: when the version cannot be read the call
    throws and changes nothing, and when [curl] does not end with status 0
    the call throws after the run of [curl], whatever the marker holds.
    When the manifest is loaded and the marker holds the URL, the call
    returns the path, and the run of [curl] is its only event and the
    manifest file the only file it may have written; so a second call right
    after a successful one, if it loads the manifest, returns the same path
    after its run of [curl] alone. *)
Theorem marker_check_skips_the_acquisition (out : Outside) (arch : DebianArchString) :
  (forall s checksum,
      fst (getVSCodeSysrootChecksum out (expectedNameOf arch) s) = Ok checksum ->
      truthy_string checksum = true ->
      fs s !! vscodeStamp out arch = Some (expectedNameOf arch) ->
      getVSCodeSysroot out arch s = (Ok (vscodeResult out arch), s))
  /\ (forall s p s',
         Text.resolved (vscodeSysrootDir out arch) = true ->
         Text.resolved (checksumsPath out) = true ->
         checksumsPath out <> vscodeSysrootDir out arch ->
         isInside (vscodeSysrootDir out arch) (checksumsPath out) = false ->
         getVSCodeSysroot out arch s = (Ok p, s') ->
         getVSCodeSysroot out arch s' = (Ok p, s'))
  /\ (forall s e,
         fst (getElectronVersion out s) = Throw e ->
         getChromiumSysroot out arch s = (Throw e, s))
  /\ (forall s electron,
         fst (getElectronVersion out s) = Ok electron ->
         status_not_zero
           (status (fst (curl out (clock s) (SysrootMore.sysrootJSONUrl electron.1)))) = true ->
         exists s',
           getChromiumSysroot out arch s
           = (Throw (Error ("Cannot retrieve sysroots.json. Stderr:" +:+ LF
                              +:+ stderr (fst (curl out (clock s)
                                                 (SysrootMore.sysrootJSONUrl electron.1))))),
              s')
           /\ trace s' = trace s ++ [curlEvent out electron.1])
  /\ (forall s sysrootInfo s1 sysrootDict,
         loadSysrootInfo out s = (Ok sysrootInfo, s1) ->
         sysrootInfo !! sysrootArchOf arch = Some sysrootDict ->
         fs s1 !! chromiumStamp out sysrootDict = Some (chromiumUrl sysrootDict) ->
         getChromiumSysroot out arch s = (Ok (chromiumSysrootDir out sysrootDict), s1)
         /\ (exists electronVersion, trace s1 = trace s ++ [curlEvent out electronVersion])
         /\ forall p, p <> sysrootDictLocation out -> fs s1 !! p = fs s !! p)
  /\ (forall s p s' sysrootInfo s2,
         getChromiumSysroot out arch s = (Ok p, s') ->
         loadSysrootInfo out s' = (Ok sysrootInfo, s2) ->
         getChromiumSysroot out arch s' = (Ok p, s2)
         /\ (exists electronVersion, trace s2 = trace s' ++ [curlEvent out electronVersion])
         /\ forall p, p <> sysrootDictLocation out -> fs s2 !! p = fs s' !! p).
Proof.
  split_and!.
  - apply getVSCodeSysroot_cache_hit.
  - intros s p s' _ _. apply getVSCodeSysroot_again.
  - intros s e. apply getChromiumSysroot_without_version.
  - intros s electron He Hst.
    destruct (getChromiumSysroot_curl_failed out arch s electron He Hst)
      as (s' & H & Ht & _).
    eauto.
  - intros s sysrootInfo s1 sysrootDict Hl Hd Hs.
    destruct (loadSysrootInfo_Ok_inv out s sysrootInfo s1 Hl)
      as ((electron & _ & Ht) & _ & _ & _ & Hfs).
    split_and!; [by apply (getChromiumSysroot_cache_hit out arch s sysrootInfo)|eauto|done].
  - intros s p s' sysrootInfo s2 H Hl.
    destruct (loadSysrootInfo_Ok_inv out s' sysrootInfo s2 Hl)
      as ((electron & _ & Ht) & _ & _ & _ & Hfs).
    split_and!; [by apply (getChromiumSysroot_twice out arch s p s' sysrootInfo)|eauto|done].
Qed.

Lemma marker_check_skips_the_acquisition_witness :
  getVSCodeSysroot Example.working amd64 Example.withVSCodeSysroot
  = (Ok "/tmp/vscode-amd64-sysroot/x86_64-linux-gnu/x86_64-linux-gnu/sysroot",
     Example.withVSCodeSysroot)
  /\ fst (getChromiumSysroot Example.working amd64 Example.withChromiumSysroot)
     = Ok "/tmp/debian_bullseye_amd64-sysroot".
Proof.
  pose proof (marker_check_skips_the_acquisition Example.working amd64)
    as (_ & HA & _ & _ & _ & HB).
  split.
  - apply (HA Example.fresh).
    + vm_compute. reflexivity.
    + vm_compute. reflexivity.
    + vm_compute. discriminate.
    + vm_compute. reflexivity.
    + rewrite (run_pair (getVSCodeSysroot Example.working amd64) Example.fresh).
      f_equal; vm_compute; reflexivity.
  - destruct (HB Example.fresh "/tmp/debian_bullseye_amd64-sysroot"
                Example.withChromiumSysroot
                {[ "bullseye_amd64" := Example.bullseye_amd64 ]}
                (snd (loadSysrootInfo Example.working Example.withChromiumSysroot)))
      as [-> _]; [| |reflexivity].
    + rewrite (run_pair (getChromiumSysroot Example.working amd64) Example.fresh).
      f_equal; vm_compute; reflexivity.
    + rewrite (run_pair (loadSysrootInfo Example.working) Example.withChromiumSysroot).
      f_equal; vm_compute; reflexivity.
Defined.

(** C4 as stated.  With the marker of [getChromiumSysroot] in place, a call
    returns the path after a run of [curl], and without a network the same
    call throws.  With [VSCODE_SYSROOT_DIR] set to the directory of the
    checksum file, a first call of [getVSCodeSysroot] succeeds and the
    second call right after it throws: the first one has removed the
    checksum file with the old content of the directory. *)
Lemma chromium_marker_check_follows_a_download :
  fs (Example.again Example.withChromiumSysroot) !! "/tmp/debian_bullseye_amd64-sysroot/.stamp"
  = Some (chromiumUrl Example.bullseye_amd64)
  /\ fst (getChromiumSysroot Example.working amd64 (Example.again Example.withChromiumSysroot))
     = Ok "/tmp/debian_bullseye_amd64-sysroot"
  /\ List.filter isNetwork
       (trace (snd (getChromiumSysroot Example.working amd64
                      (Example.again Example.withChromiumSysroot))))
     = [SpawnSync "curl"
          ["https://raw.githubusercontent.com/electron/electron/v27.1.3/script/sysroots.json";
           "-o"; "/tmp/sysroots.json"]]
  /\ fst (getChromiumSysroot Example.offline amd64 (Example.again Example.withChromiumSysroot))
     = Throw (Error ("Cannot retrieve sysroots.json. Stderr:" +:+ LF
                       +:+ "curl: (6) Could not resolve host"))
  /\ fst (getVSCodeSysroot Example.amongChecksums amd64 Example.fresh)
     = Ok "/repo/build/checksums/x86_64-linux-gnu/x86_64-linux-gnu/sysroot"
  /\ fst (getVSCodeSysroot Example.amongChecksums amd64
            (snd (getVSCodeSysroot Example.amongChecksums amd64 Example.fresh)))
     = Throw (Error "ENOENT: no such file or directory, open '/repo/build/checksums/vscode-sysroot.txt'").
Proof. vm_compute. repeat split. Qed.

(** C5.  [getChromiumSysroot] with a [tar] that is ended by a signal: the
    status is [null], the call returns the path and writes the marker
    although nothing was unpacked, and the next call finds the marker and
    unpacks nothing either.  An exit status of 2 makes the same call throw,
    and [getVSCodeSysroot] throws in the same world and leaves no marker. *)
Theorem marker_written_after_killed_extraction :
  tar_status (tar (Example.outside 0 None) 1 "tarball") = None
  /\ fst (getChromiumSysroot (Example.outside 0 None) amd64 Example.fresh)
     = Ok "/tmp/debian_bullseye_amd64-sysroot"
  /\ fs (snd (getChromiumSysroot (Example.outside 0 None) amd64 Example.fresh))
       !! "/tmp/debian_bullseye_amd64-sysroot/.stamp"
     = Some (chromiumUrl Example.bullseye_amd64)
  /\ fs (snd (getChromiumSysroot (Example.outside 0 None) amd64 Example.fresh))
       !! "/tmp/debian_bullseye_amd64-sysroot/usr/lib/libc.so.6"
     = None
  /\ List.filter isExtraction
       (trace (snd (getChromiumSysroot Example.working amd64
                      (Example.again
                         (snd (getChromiumSysroot (Example.outside 0 None) amd64
                                                  Example.fresh))))))
     = []
  /\ fst (getChromiumSysroot (Example.outside 0 (Some 2%Z)) amd64 Example.fresh)
     = Throw (Error "Tarball extraction failed with code 2")
  /\ fst (getVSCodeSysroot (Example.outside 0 None) amd64 Example.fresh)
     = Throw (Error "Command failed: tar -xz -C /tmp/vscode-amd64-sysroot")
  /\ fs (snd (getVSCodeSysroot (Example.outside 0 None) amd64 Example.fresh))
       !! "/tmp/vscode-amd64-sysroot/.stamp"
     = None.
Proof. vm_compute. repeat split. Qed.

End SysrootFacts.

(** ** Further properties: texts *)

Module TextFacts.
Import Text JSFacts.

Lemma append_cons c (r s : string) : String c r +:+ s = String c (r +:+ s).
Proof. reflexivity. Qed.

Lemma trimEnd_blank s : blank s = true -> trimEnd s = EmptyString.
Proof.
  unfold blank. induction s as [|c r IH]; [done|]. cbn [allChars trimEnd].
  intros [W H]%andb_true_iff. by rewrite (IH H), W.
Qed.

Lemma trimEnd_app_blank body c ws :
  isWhiteSpace c = false -> blank ws = true ->
  trimEnd (body +:+ String c ws) = body +:+ String c EmptyString.
Proof.
  intros W H. induction body as [|a body IH].
  - change (trimEnd (String c ws) = String c EmptyString). cbn [trimEnd].
    by rewrite (trimEnd_blank ws H), W.
  - rewrite !append_cons. cbn [trimEnd]. rewrite IH.
    by destruct body.
Qed.

Lemma split_oneLine s : oneLine s = true -> split (ascii_of_N 10) s = [s].
Proof.
  unfold oneLine. induction s as [|c r IH]; [done|]. cbn [allChars split].
  intros [W H]%andb_true_iff. apply negb_true_iff in W. unfold isLineFeed in W.
  by rewrite W, (IH H).
Qed.

Lemma split_app_LF x r :
  oneLine x = true ->
  split (ascii_of_N 10) (x +:+ String (ascii_of_N 10) r) = x :: split (ascii_of_N 10) r.
Proof.
  unfold oneLine. induction x as [|c x IH].
  - intros _. change (split (ascii_of_N 10) (String (ascii_of_N 10) r)
                      = EmptyString :: split (ascii_of_N 10) r). done.
  - cbn [allChars]. intros [W H]%andb_true_iff. apply negb_true_iff in W.
    unfold isLineFeed in W. rewrite append_cons. cbn [split]. by rewrite W, (IH H).
Qed.

(** Splitting at line feeds undoes joining with them. *)
Lemma split_join lines :
  lines <> [] -> Forall (fun l => oneLine l = true) lines ->
  split (ascii_of_N 10) (join LF lines) = lines.
Proof.
  unfold join. induction lines as [|x lines IH]; [done|]. intros _ H.
  apply Forall_cons in H as [Hx H]. destruct lines as [|y lines].
  - cbn [String.concat]. by apply split_oneLine.
  - change (String.concat LF (x :: y :: lines))
      with (x +:+ String (ascii_of_N 10) (String.concat LF (y :: lines))).
    rewrite split_app_LF by done. f_equal. by apply IH.
Qed.

Lemma forallb_weaken {A} (p q : A -> bool) (l : list A) :
  (forall x, p x = true -> q x = true) -> forallb p l = true -> forallb q l = true.
Proof. rewrite !forallb_forall. auto. Qed.

Lemma filter_none {A} (p : A -> bool) (l : list A) :
  forallb (fun x => negb (p x)) l = true -> List.filter p l = [].
Proof.
  induction l as [|x l IH]; [done|]. cbn [forallb List.filter].
  intros [Hx H]%andb_true_iff. apply negb_true_iff in Hx. rewrite Hx. by apply IH.
Qed.

End TextFacts.

(** ** Further properties of the dependency reconciler *)

Module ReconcilerMoreFacts.
Import Reconciler Text ReconcilerMore JSFacts TextFacts ReconcilerFacts.

Lemma fold_Set_add l : forall acc, fold_left Set_add l acc = acc ++ newOf acc l.
Proof.
  induction l as [|x l IH]; intros acc; cbn [fold_left newOf].
  - by rewrite app_nil_r.
  - rewrite IH. unfold Set_add.
    destruct (existsb (String.eqb x) acc); [done|]. by rewrite <- app_assoc.
Qed.

Lemma Set_from_newOf l : Set_from l = newOf [] l.
Proof. unfold Set_from. by rewrite fold_Set_add. Qed.

Lemma newOf_absorbs l : forall seen' seen,
  (forall y, y ∈ seen' -> y ∈ seen) ->
  newOf seen (newOf seen' l) = newOf seen l.
Proof.
  induction l as [|x l IH]; intros seen' seen H; cbn [newOf]; [done|].
  destruct (existsb (String.eqb x) seen') eqn:E'.
  - apply existsb_eqb_elem in E'. apply H in E'. apply existsb_eqb_elem in E'.
    rewrite E'. by apply IH.
  - cbn [newOf]. destruct (existsb (String.eqb x) seen) eqn:E.
    + apply IH. intros y [Hy| ->%list_elem_of_singleton]%elem_of_app; [by apply H|].
      by apply existsb_eqb_elem.
    + f_equal. apply IH. intros y. rewrite !elem_of_app. intros [Hy|Hy]; auto.
Qed.

Lemma newOf_app l1 : forall seen l2,
  newOf seen (l1 ++ l2) = newOf seen l1 ++ newOf (seen ++ newOf seen l1) l2.
Proof.
  induction l1 as [|x l1 IH]; intros seen l2; cbn [newOf app].
  - by rewrite app_nil_r.
  - destruct (existsb (String.eqb x) seen); [apply IH|].
    cbn [app]. f_equal. rewrite IH. by rewrite <- app_assoc.
Qed.

Lemma Set_from_app_Set_from l1 l2 :
  Set_from (Set_from l1 ++ Set_from l2) = Set_from (l1 ++ l2).
Proof.
  rewrite !Set_from_newOf, !newOf_app. cbn [app].
  rewrite (newOf_absorbs l1 [] []) by done.
  by rewrite (newOf_absorbs l2 [] (newOf [] l1)) by (intros y Hy; by apply elem_of_nil in Hy).
Qed.

Lemma fold_addDep_flat depSet : forall requires,
  fold_left addDep depSet requires
  = fold_left Set_add (List.filter keptEntry (map trim depSet)) requires.
Proof.
  induction depSet as [|dep depSet IH]; intros requires; [done|].
  cbn [fold_left map List.filter]. rewrite IH. unfold addDep.
  by destruct (keptEntry (trim dep)).
Qed.

Lemma merge_from_flat inputDeps : forall requires,
  fold_left (fun requires depSet => fold_left addDep depSet requires) inputDeps requires
  = fold_left Set_add (keptEntries inputDeps) requires.
Proof.
  unfold keptEntries.
  induction inputDeps as [|depSet inputDeps IH]; intros requires; [done|].
  cbn [fold_left List.concat]. rewrite IH, fold_addDep_flat.
  by rewrite map_app, List.filter_app, fold_left_app.
Qed.

Lemma mergePackageDeps_flat inputDeps :
  mergePackageDeps inputDeps = Set_from (keptEntries inputDeps).
Proof. apply merge_from_flat. Qed.

Lemma keptEntries_app a b : keptEntries (a ++ b) = keptEntries a ++ keptEntries b.
Proof. unfold keptEntries. by rewrite List.concat_app, map_app, List.filter_app. Qed.

(** X1.  For a Debian package the set built from the two merged sets,
    [new Set([...vscodeDependencies, ...runtimeDependencies])], is the set
    that one call of [mergePackageDeps] on all dependency sets builds, with
    the same insertion order: both branches of [getDependencies] merge
    alike. *)
Theorem debian_union_is_one_merge (vscodeDeps runtimeDeps : list (list string)) :
  Set_from (mergePackageDeps vscodeDeps ++ mergePackageDeps runtimeDeps)
  = mergePackageDeps (vscodeDeps ++ runtimeDeps).
Proof.
  rewrite !mergePackageDeps_flat, keptEntries_app. apply Set_from_app_Set_from.
Qed.


Lemma newOf_NoDup l : forall seen,
  NoDup l -> (forall x, x ∈ l -> x ∉ seen) -> newOf seen l = l.
Proof.
  induction l as [|x l IH]; intros seen Hn Hd; cbn [newOf]; [done|].
  apply NoDup_cons in Hn as [Hx Hn].
  destruct (existsb (String.eqb x) seen) eqn:E.
  - apply existsb_eqb_elem in E. destruct (Hd x); [left|done].
  - f_equal. apply IH; [done|]. intros y Hy [Hs| ->%list_elem_of_singleton]%elem_of_app.
    + apply (Hd y); [by right|done].
    + done.
Qed.

Lemma Set_from_NoDup l : NoDup l -> Set_from l = l.
Proof.
  intros H. rewrite Set_from_newOf. apply newOf_NoDup; [done|].
  intros x _ Hx. by apply elem_of_nil in Hx.
Qed.

Lemma trimEnd_idem s : trimEnd (trimEnd s) = trimEnd s.
Proof.
  induction s as [|c r IH]; [done|]. cbn [trimEnd].
  destruct (trimEnd r) as [|a r'] eqn:E.
  - destruct (isWhiteSpace c) eqn:W; [done|]. cbn [trimEnd]. by rewrite W.
  - cbn [trimEnd] in IH |- *. by rewrite IH.
Qed.

Lemma trimEnd_head c r :
  isWhiteSpace c = false -> exists r', trimEnd (String c r) = String c r'.
Proof.
  intros W. cbn [trimEnd]. destruct (trimEnd r); [rewrite W|]; eauto.
Qed.

Lemma trimStart_cases s :
  trimStart s = EmptyString
  \/ exists c r, trimStart s = String c r /\ isWhiteSpace c = false.
Proof.
  induction s as [|c r IH]; [by left|]. cbn [trimStart].
  destruct (isWhiteSpace c) eqn:W; [done|]. right. eauto.
Qed.

Lemma trim_idem s : trim (trim s) = trim s.
Proof.
  unfold trim. destruct (trimStart_cases s) as [->|(c & r & -> & W)]; [done|].
  destruct (trimEnd_head c r W) as [r' E]. rewrite E. cbn [trimStart]. rewrite W.
  by rewrite <- E, trimEnd_idem.
Qed.

Lemma filter_all {A} (p : A -> bool) (l : list A) :
  (forall x, x ∈ l -> p x = true) -> List.filter p l = l.
Proof.
  induction l as [|x l IH]; intros H; [done|]. cbn [List.filter].
  rewrite (H x) by left. f_equal. apply IH. intros y Hy. apply H. by right.
Qed.

Lemma map_fixed {A} (f : A -> A) (l : list A) :
  (forall x, x ∈ l -> f x = x) -> map f l = l.
Proof.
  induction l as [|x l IH]; intros H; [done|]. cbn [map].
  rewrite (H x) by left. f_equal. apply IH. intros y Hy. apply H. by right.
Qed.

(** X2.  Merging is idempotent: the entries of a merged set are trimmed and
    pass the test already, so merging the set again gives the same set in
    the same order. *)
Theorem merge_is_idempotent (inputDeps : list (list string)) :
  mergePackageDeps [mergePackageDeps inputDeps] = mergePackageDeps inputDeps.
Proof.
  rewrite (mergePackageDeps_flat [_]). unfold keptEntries.
  cbn [List.concat]. rewrite app_nil_r.
  rewrite map_fixed, filter_all, Set_from_NoDup; [done|apply NoDup_mergePackageDeps|..].
  - intros x (Hk & _)%elem_of_mergePackageDeps. by apply kept_test.
  - intros x (_ & depSet & dep & _ & _ & <-)%elem_of_mergePackageDeps. apply trim_idem.
Qed.

Lemma excludeAndSort_same_entries bundled o1 o2 :
  (forall d, entriesOf o1 d <-> entriesOf o2 d) ->
  excludeAndSort bundled (mergePackageDeps o1)
  = excludeAndSort bundled (mergePackageDeps o2).
Proof.
  intros H. apply (describes_unique bundled o1).
  - apply describes_excludeAndSort; [apply NoDup_mergePackageDeps|].
    intros d. rewrite elem_of_mergePackageDeps. unfold entriesOf. tauto.
  - apply describes_excludeAndSort; [apply NoDup_mergePackageDeps|].
    intros d. rewrite elem_of_mergePackageDeps, H. unfold entriesOf. tauto.
Qed.

(** X3.  The list that the filter and the sort make of the merged set
    depends only on which entries the dependency sets hold, not on their
    order, their repetition or their grouping into sets. *)
Theorem final_list_ignores_order_and_grouping (bundled : list string) :
  (forall o1 o2 : list (list string),
      (forall d, entriesOf o1 d <-> entriesOf o2 d) ->
      excludeAndSort bundled (mergePackageDeps o1)
      = excludeAndSort bundled (mergePackageDeps o2))
  /\ (forall a b : list (list string),
         excludeAndSort bundled (mergePackageDeps (a ++ b))
         = excludeAndSort bundled (mergePackageDeps (b ++ a)))
  /\ (forall a : list (list string),
         excludeAndSort bundled (mergePackageDeps (a ++ a))
         = excludeAndSort bundled (mergePackageDeps a))
  /\ (forall a : list (list string),
         excludeAndSort bundled (mergePackageDeps [List.concat a])
         = excludeAndSort bundled (mergePackageDeps a)).
Proof.
  split_and!.
  - apply excludeAndSort_same_entries.
  - intros a b. apply excludeAndSort_same_entries. intros d.
    rewrite !entriesOf_app. tauto.
  - intros a. apply excludeAndSort_same_entries. intros d.
    rewrite !entriesOf_app. tauto.
  - intros a. apply excludeAndSort_same_entries. intros d. unfold entriesOf. split.
    + intros (depSet & dep & ->%list_elem_of_singleton & Hd & <-).
      apply list_elem_of_In, in_concat in Hd as (ds & H1 & H2).
      exists ds, dep. by rewrite !list_elem_of_In.
    + intros (depSet & dep & Hs & Hd & <-). exists (List.concat a), dep.
      split_and!; [by apply list_elem_of_singleton| |done].
      apply list_elem_of_In, in_concat. exists depSet. by rewrite <- !list_elem_of_In.
Qed.

(** X4.  A valid architecture without an entry in the table of reference
    lists: the comparison finds the lists different and the message cannot
    be built, so the call throws a [TypeError] after the extractors ran,
    with the build flag set or not. *)
Theorem missing_baseline_throws_a_type_error
  (env : Imports) (packageType : PackageType) (buildDir applicationName arch : string)
  (t : list Event) (merged : list string) :
  validArch env packageType arch = true ->
  truthy_status (status (findResultOf env buildDir)) = false ->
  generateMerged env packageType (vscodeFilesOf env buildDir)
    (runtimeFilesOf buildDir applicationName) arch = (t, Ok merged) ->
  referenceFor env packageType arch = None ->
  forall failBuild,
    getDependenciesWith env failBuild packageType buildDir applicationName arch
    = (SpawnSync "find" (findArgs buildDir) :: t,
       Throw (TypeError "Cannot read properties of undefined (reading 'join')")).
Proof.
  intros Hv Hf Hm Hr failBuild.
  rewrite (getDependenciesWith_compared _ _ _ _ _ _ t merged) by done.
  unfold checkAgainstReference.
  replace (if PackageType_eqb packageType deb then _ else _)
    with (referenceFor env packageType arch) by by destruct packageType.
  rewrite Hr. cbn. by rewrite app_nil_r.
Qed.

Lemma missing_baseline_throws_a_type_error_witness :
  getDependencies (ExampleBuild.imports (Some 0%Z) ExampleBuild.unchanged ExampleBuild.baseline)
    rpm "/build" "code" "aarch64"
  = ([SpawnSync "find" ["/build/resources/app/node_modules.asar.unpacked"; "-name"; "*.node"];
      RpmGeneratePackageDeps
        ["/build/resources/app/node_modules.asar.unpacked/pty.node"; "/build/bin/code-tunnel";
         "/build/code"; "/build/chrome-sandbox"; "/build/chrome_crashpad_handler"]],
     Throw (TypeError "Cannot read properties of undefined (reading 'join')")).
Proof.
  apply (missing_baseline_throws_a_type_error
           (ExampleBuild.imports (Some 0%Z) ExampleBuild.unchanged ExampleBuild.baseline)
           rpm "/build" "code" "aarch64"
           [RpmGeneratePackageDeps
              ["/build/resources/app/node_modules.asar.unpacked/pty.node";
               "/build/bin/code-tunnel";
               "/build/code"; "/build/chrome-sandbox"; "/build/chrome_crashpad_handler"]]
           ["libpthread.so.0"; "libc.so.6"; "libffmpeg.so"]);
    vm_compute; reflexivity.
Defined.

Lemma generateMerged_rpm_steps env vscodeFiles runtimeFiles arch :
  forallb (fun ev => negb (isDebianStep ev))
    (fst (generateMerged env rpm vscodeFiles runtimeFiles arch)) = true.
Proof.
  unfold generateMerged. cbv [PackageType_eqb bind call ret].
  by destruct (rpmGeneratePackageDeps env _).
Qed.

Lemma generateMerged_deb_steps env vscodeFiles runtimeFiles arch :
  forallb (fun ev => negb (isRpmStep ev))
    (fst (generateMerged env deb vscodeFiles runtimeFiles arch)) = true.
Proof.
  unfold generateMerged. cbv [PackageType_eqb bind call ret].
  destruct (getChromiumSysroot env arch) as [cs|e]; [|done].
  destruct (getVSCodeSysroot env arch) as [vs|e]; [|done].
  destruct (debGeneratePackageDeps env vscodeFiles arch vs) as [v|e]; [|done].
  by destruct (debGeneratePackageDeps env runtimeFiles arch cs).
Qed.

Lemma checkAgainstReference_steps env failBuild packageType arch sorted :
  forallb (fun ev => negb (isDebianStep ev) && negb (isRpmStep ev))
    (fst (checkAgainstReference env failBuild packageType arch sorted)) = true.
Proof.
  unfold checkAgainstReference. cbv [bind ret throw emit].
  destruct (depsChanged _ _); [|done].
  destruct (if PackageType_eqb packageType deb then _ else _); [|done].
  by destruct failBuild.
Qed.

(** X5.  Each package type keeps to its own tools: a call for an RPM
    package never asks for a sysroot and never runs the Debian extractor,
    and a call for a Debian package never runs the RPM extractor, whatever
    the outcome of the call. *)
Theorem package_types_keep_to_their_tools
  (env : Imports) (failBuild : bool) (buildDir applicationName arch : string) :
  forallb (fun ev => negb (isDebianStep ev))
    (fst (getDependenciesWith env failBuild rpm buildDir applicationName arch)) = true
  /\ forallb (fun ev => negb (isRpmStep ev))
       (fst (getDependenciesWith env failBuild deb buildDir applicationName arch)) = true.
Proof.
  split.
  - destruct (isRpmArchString env arch) eqn:Hv.
    + rewrite getDependenciesWith_valid by done. rewrite bind_emit.
      destruct (truthy_status _); [done|].
      pose proof (generateMerged_rpm_steps env (vscodeFilesOf env buildDir)
                    (runtimeFilesOf buildDir applicationName) arch) as Hg.
      destruct (generateMerged env rpm _ _ arch) as [t [merged|e]]; [|done].
      rewrite bind_pair_ok. cbn [fst forallb isDebianStep negb andb] in *.
      rewrite forallb_app, Hg. cbn [andb].
      eapply forallb_weaken; [|apply checkAgainstReference_steps].
      intros ev. by intros [? ?]%andb_true_iff.
    + unfold getDependenciesWith. cbn [PackageType_eqb andb]. rewrite Hv. by rewrite bind_ret_l.
  - destruct (isDebianArchString env arch) eqn:Hv.
    + rewrite getDependenciesWith_valid by done. rewrite bind_emit.
      destruct (truthy_status _); [done|].
      pose proof (generateMerged_deb_steps env (vscodeFilesOf env buildDir)
                    (runtimeFilesOf buildDir applicationName) arch) as Hg.
      destruct (generateMerged env deb _ _ arch) as [t [merged|e]]; [|done].
      rewrite bind_pair_ok. cbn [fst forallb isRpmStep negb andb] in *.
      rewrite forallb_app, Hg. cbn [andb].
      eapply forallb_weaken; [|apply checkAgainstReference_steps].
      intros ev. by intros [? ?]%andb_true_iff.
    + unfold getDependenciesWith. cbn [PackageType_eqb]. by rewrite Hv.
Qed.

(** X6.  For a build directory in normal form and a tunnel binary with a
    plain name: when [find] prints nothing but white space, as it does when
    the directory holds no native module, the list of the files of VS Code
    starts with the empty file name, for the empty text splits into one
    empty line; the tunnel binary follows. *)
Theorem empty_find_output_gives_an_empty_file_name (env : Imports) (buildDir : string) :
  normal buildDir = true ->
  isName (tunnelApplicationName env) = true ->
  blank (stdout (findResultOf env buildDir)) = true ->
  vscodeFilesOf env buildDir
  = [EmptyString; buildDir +:+ "/bin/" +:+ tunnelApplicationName env].
Proof.
  intros _ _ H. unfold vscodeFilesOf. fold (findResultOf env buildDir).
  by rewrite (trimEnd_blank _ H).
Qed.

Lemma empty_find_output_gives_an_empty_file_name_witness :
  vscodeFilesOf ExampleBuildMore.quiet "/build" = [EmptyString; "/build/bin/code-tunnel"].
Proof.
  apply (empty_find_output_gives_an_empty_file_name ExampleBuildMore.quiet "/build");
    vm_compute; reflexivity.
Defined.

(** X7.  For a build directory in normal form and a tunnel binary with a
    plain name: when [find] prints the paths one per line, each followed by
    a line feed, and the last path does not end in white space, the files of
    VS Code are exactly these paths, in order, followed by the tunnel
    binary. *)
Theorem find_output_becomes_the_file_list
  (env : Imports) (buildDir : string) (paths : list string)
  (body : string) (c : ascii) (trailing : string) :
  normal buildDir = true ->
  isName (tunnelApplicationName env) = true ->
  stdout (findResultOf env buildDir) = join LF paths +:+ trailing ->
  Forall (fun path => oneLine path = true) paths ->
  join LF paths = body +:+ String c EmptyString ->
  isWhiteSpace c = false ->
  blank trailing = true ->
  vscodeFilesOf env buildDir
  = paths ++ [buildDir +:+ "/bin/" +:+ tunnelApplicationName env].
Proof.
  intros _ _ Hs Hp Hb Hc Ht. unfold vscodeFilesOf. fold (findResultOf env buildDir).
  rewrite Hs, Hb, append_assoc, append_cons. change (EmptyString +:+ trailing) with trailing.
  rewrite trimEnd_app_blank by done. rewrite <- Hb.
  rewrite split_join; [done| |done]. intros ->. by destruct body.
Qed.

Lemma find_output_becomes_the_file_list_witness :
  vscodeFilesOf (ExampleBuild.imports (Some 0%Z) ExampleBuild.unchanged ExampleBuild.baseline)
    "/build"
  = ["/build/resources/app/node_modules.asar.unpacked/pty.node"; "/build/bin/code-tunnel"].
Proof.
  apply (find_output_becomes_the_file_list
           (ExampleBuild.imports (Some 0%Z) ExampleBuild.unchanged ExampleBuild.baseline)
           "/build" ["/build/resources/app/node_modules.asar.unpacked/pty.node"]
           "/build/resources/app/node_modules.asar.unpacked/pty.nod" "e" LF).
  - vm_compute. reflexivity.
  - vm_compute. reflexivity.
  - vm_compute. reflexivity.
  - repeat constructor.
  - vm_compute. reflexivity.
  - vm_compute. reflexivity.
  - vm_compute. reflexivity.
Defined.

(** X8.  A Debian call takes its steps in a fixed order and stops at the
    first that throws: when the Chromium sysroot cannot be had, the VS Code
    sysroot is never asked for, and when a sysroot cannot be had no extractor
    runs; the files of VS Code are examined against the VS Code sysroot
    before the runtime files are examined against the Chromium sysroot. *)
Theorem debian_steps_stop_at_the_first_failure
  (env : Imports) (failBuild : bool) (buildDir applicationName arch : string) :
  validArch env deb arch = true ->
  truthy_status (status (findResultOf env buildDir)) = false ->
  (forall e,
      getChromiumSysroot env arch = Throw e ->
      getDependenciesWith env failBuild deb buildDir applicationName arch
      = ([SpawnSync "find" (findArgs buildDir); GetChromiumSysroot arch], Throw e))
  /\ (forall chromiumSysroot e,
         getChromiumSysroot env arch = Ok chromiumSysroot ->
         getVSCodeSysroot env arch = Throw e ->
         getDependenciesWith env failBuild deb buildDir applicationName arch
         = ([SpawnSync "find" (findArgs buildDir); GetChromiumSysroot arch;
             GetVSCodeSysroot arch], Throw e))
  /\ (forall chromiumSysroot vscodeSysroot e,
         getChromiumSysroot env arch = Ok chromiumSysroot ->
         getVSCodeSysroot env arch = Ok vscodeSysroot ->
         debGeneratePackageDeps env (vscodeFilesOf env buildDir) arch vscodeSysroot
         = Throw e ->
         getDependenciesWith env failBuild deb buildDir applicationName arch
         = ([SpawnSync "find" (findArgs buildDir); GetChromiumSysroot arch;
             GetVSCodeSysroot arch;
             DebGeneratePackageDeps (vscodeFilesOf env buildDir) arch vscodeSysroot],
            Throw e))
  /\ (forall chromiumSysroot vscodeSysroot vscodeDeps e,
         getChromiumSysroot env arch = Ok chromiumSysroot ->
         getVSCodeSysroot env arch = Ok vscodeSysroot ->
         debGeneratePackageDeps env (vscodeFilesOf env buildDir) arch vscodeSysroot
         = Ok vscodeDeps ->
         debGeneratePackageDeps env (runtimeFilesOf buildDir applicationName) arch
           chromiumSysroot = Throw e ->
         getDependenciesWith env failBuild deb buildDir applicationName arch
         = ([SpawnSync "find" (findArgs buildDir); GetChromiumSysroot arch;
             GetVSCodeSysroot arch;
             DebGeneratePackageDeps (vscodeFilesOf env buildDir) arch vscodeSysroot;
             DebGeneratePackageDeps (runtimeFilesOf buildDir applicationName) arch
               chromiumSysroot],
            Throw e)).
Proof.
  intros Hv Hf. split_and!.
  - intros e H. apply getDependenciesWith_rethrows; [done..|].
    unfold generateMerged. cbv [PackageType_eqb bind call ret]. by rewrite H.
  - intros cs e H1 H2. apply getDependenciesWith_rethrows; [done..|].
    unfold generateMerged. cbv [PackageType_eqb bind call ret]. by rewrite H1, H2.
  - intros cs vs e H1 H2 H3. apply getDependenciesWith_rethrows; [done..|].
    unfold generateMerged. cbv [PackageType_eqb bind call ret]. by rewrite H1, H2, H3.
  - intros cs vs v e H1 H2 H3 H4. apply getDependenciesWith_rethrows; [done..|].
    unfold generateMerged. cbv [PackageType_eqb bind call ret]. by rewrite H1, H2, H3, H4.
Qed.

Lemma debian_steps_stop_at_the_first_failure_witness :
  getDependencies ExampleBuildMore.withoutChromium deb "/build" "code" "amd64"
  = ([SpawnSync "find" ["/build/resources/app/node_modules.asar.unpacked"; "-name"; "*.node"];
      GetChromiumSysroot "amd64"],
     Throw (Error ("Cannot retrieve sysroots.json. Stderr:" +:+ LF
                     +:+ "curl: (6) Could not resolve host"))).
Proof.
  destruct (debian_steps_stop_at_the_first_failure ExampleBuildMore.withoutChromium true
              "/build" "code" "amd64") as (H & _); [vm_compute; reflexivity..|].
  by apply H.
Defined.

End ReconcilerMoreFacts.

(** ** Further properties of the sysroot provisioner *)

Module SysrootMoreFacts.
Import Sysroot Text SysrootMore JSFacts TextFacts SysrootFacts.

Lemma length_Buffer_alloc size : String.length (Buffer_alloc size) = size.
Proof. induction size; cbn; congruence. Qed.

Lemma substring_nothing p s : String.substring p 0 s = EmptyString.
Proof. revert p. induction s as [|c s IH]; intros [|p]; cbn; auto. Qed.

Lemma length_substring s : forall p n,
  String.length (String.substring p n s) = Nat.min n (String.length s - p).
Proof.
  induction s as [|c s IH]; intros [|p] [|n]; cbn; auto.
  rewrite IH. by rewrite Nat.sub_0_r.
Qed.

Lemma substring_split s : forall p a b,
  String.substring p (a + b) s
  = String.substring p a s +:+ String.substring (p + a) b s.
Proof.
  induction s as [|c s IH]; intros p a b.
  - destruct p, a, b; reflexivity.
  - destruct p as [|p].
    + destruct a as [|a]; [reflexivity|].
      cbn [Nat.add String.substring]. rewrite append_cons. f_equal. apply (IH 0).
    + change (String.substring p (a + b) s
              = String.substring p a s +:+ String.substring (p + a) b s).
      apply IH.
Qed.

Lemma substring_prefix a b : String.substring 0 (String.length a) (a +:+ b) = a.
Proof.
  induction a as [|c a IH]; [apply substring_nothing|].
  rewrite append_cons. cbn. by rewrite IH.
Qed.

Lemma substring_beyond s : forall p n m,
  String.length s - p <= n -> String.length s - p <= m ->
  String.substring p n s = String.substring p m s.
Proof.
  induction s as [|c s IH]; intros p n m Hn Hm.
  - by destruct p, n, m.
  - destruct p as [|p].
    + cbn in Hn, Hm. destruct n as [|n], m as [|m]; try lia.
      cbn. f_equal. apply IH; lia.
    + cbn in Hn, Hm. destruct n, m; cbn; apply IH; cbn; lia.
Qed.

Lemma length_append (a b : string) :
  String.length (a +:+ b) = String.length a + String.length b.
Proof. induction a as [|c a IH]; [done|]. rewrite append_cons. cbn. by rewrite IH. Qed.

(** The loop gives the hash the rest of the file, whatever the buffer
    holds. *)
Lemma getShaLoop_rest fuel : forall content buffer position hashed,
  0 < String.length buffer ->
  String.length content - position < String.length buffer * fuel ->
  getShaLoop fuel content buffer position hashed
  = Some (hashed +:+ String.substring position (String.length content - position) content).
Proof.
  induction fuel as [|fuel IH]; intros content buffer position hashed Hb Hf; [lia|].
  cbn [getShaLoop readSync].
  pose proof (length_substring content position (String.length buffer)) as Hl.
  destruct (Nat.eqb_spec (String.length (String.substring position (String.length buffer)
                                            content)) (String.length buffer)) as [E|E].
  - rewrite E, Nat.sub_diag, substring_nothing, append_nil_r.
    rewrite IH.
    + rewrite append_assoc. do 2 f_equal.
      replace (String.length content - position)
        with (String.length buffer + (String.length content - (position + String.length buffer)))
        by lia.
      by rewrite substring_split.
    + by rewrite E.
    + rewrite E. lia.
  - rewrite substring_prefix. do 2 f_equal. apply substring_beyond; lia.
Qed.

Lemma substring_whole s : String.substring 0 (String.length s) s = s.
Proof. induction s as [|c s IH]; [done|]. cbn. by rewrite IH. Qed.

Lemma getShaDataWith_whole size fuel content :
  0 < size -> String.length content < size * fuel ->
  getShaDataWith size fuel content = Some content.
Proof.
  intros Hs Hf. unfold getShaDataWith.
  rewrite getShaLoop_rest; rewrite ?length_Buffer_alloc, ?Nat.sub_0_r; [|done..].
  by rewrite substring_whole.
Qed.

(** X9.  [getSha] reads the file through a buffer of one megabyte and gives
    the hash every byte of the file once and in order, whatever the size of
    the file: an empty file, a file shorter than the buffer and a file whose
    size is a multiple of the size of the buffer alike.  So the digest is the
    SHA-1 of the content of the file.  The same holds for every buffer that
    is not empty. *)
Theorem getSha_hashes_the_whole_file (content : string) :
  (forall size fuel,
      0 < size -> String.length content < size * fuel ->
      getShaDataWith size fuel content = Some content)
  /\ (forall fuel,
         (String.length content < 1024 * 1024 * fuel)%nat ->
         getShaData fuel content = Some content)
  /\ (forall out filename s,
         fs s !! filename = Some content ->
         getSha out filename s = (Ok (sha1_hex out content), s)).
Proof.
  split_and!.
  - intros size fuel. apply getShaDataWith_whole.
  - intros fuel Hf. unfold getShaData. apply getShaDataWith_whole; [|done].
    apply Nat.mul_pos_pos; apply Nat.lt_0_succ.
  - intros out filename s H. unfold getSha, readFileSync. run_monad. by rewrite H.
Qed.

Lemma getSha_hashes_the_whole_file_witness :
  getShaDataWith 4 3 "12345678" = Some "12345678".
Proof.
  pose proof (getSha_hashes_the_whole_file "12345678") as (H & _).
  apply (H 4 3); cbn; lia.
Defined.

Lemma split_whitespace_solid w rest h t :
  solid w = true ->
  split_whitespace_from false rest = h :: t ->
  split_whitespace_from false (w +:+ rest) = (w +:+ h) :: t.
Proof.
  unfold solid. intros Hw Hr. induction w as [|c w IH]; [done|].
  cbn [allChars] in Hw. apply andb_true_iff in Hw as [Hc Hw].
  apply negb_true_iff in Hc. rewrite !append_cons. cbn [split_whitespace_from].
  by rewrite Hc, (IH Hw).
Qed.

Lemma split_whitespace_run gap rest :
  blank gap = true ->
  split_whitespace_from true (gap +:+ rest) = split_whitespace_from true rest.
Proof.
  unfold blank. induction gap as [|c gap IH]; [done|]. cbn [allChars].
  intros [Hc H]%andb_true_iff. rewrite append_cons. cbn [split_whitespace_from].
  by rewrite Hc, (IH H).
Qed.

Lemma split_whitespace_gap gap rest :
  blank gap = true -> gap <> EmptyString ->
  split_whitespace_from false (gap +:+ rest)
  = EmptyString :: split_whitespace_from true rest.
Proof.
  unfold blank. destruct gap as [|c gap]; [done|]. cbn [allChars].
  intros [Hc H]%andb_true_iff _. rewrite append_cons. cbn [split_whitespace_from].
  by rewrite Hc, (split_whitespace_run gap rest H).
Qed.

Lemma split_whitespace_end rest :
  endsField rest = true -> exists t, split_whitespace_from false rest = EmptyString :: t.
Proof.
  destruct rest as [|c rest]; cbn [endsField split_whitespace_from]; [eauto|].
  intros ->. eauto.
Qed.

(** The fields of a line of the form checksum, white space, name. *)
Lemma fields_of_entry checksum gap name rest :
  solid checksum = true -> blank gap = true -> gap <> EmptyString ->
  solid name = true -> name <> EmptyString -> endsField rest = true ->
  exists more,
    split_whitespace (checksum +:+ gap +:+ name +:+ rest) = checksum :: name :: more.
Proof.
  intros Hc Hg Hg' Hn Hn' Hr. unfold split_whitespace.
  destruct (split_whitespace_end rest Hr) as [t Ht].
  assert (split_whitespace_from true (name +:+ rest) = name :: t) as E.
  { destruct name as [|a name]; [done|]. unfold solid in Hn. cbn [allChars] in Hn.
    apply andb_true_iff in Hn as [Ha Hn]. apply negb_true_iff in Ha.
    rewrite append_cons. cbn [split_whitespace_from]. rewrite Ha.
    rewrite (split_whitespace_solid name rest EmptyString t Hn Ht).
    by rewrite append_nil_r. }
  exists t.
  rewrite (split_whitespace_solid checksum _ EmptyString (name :: t) Hc).
  - by rewrite append_nil_r.
  - by rewrite split_whitespace_gap, E.
Qed.

Lemma findChecksum_first name before line after checksum more :
  Forall (fun l => secondField l <> Some name) before ->
  split_whitespace line = checksum :: name :: more ->
  findChecksum name (before ++ line :: after) = Some checksum.
Proof.
  intros Hb Hl. induction before as [|l before IH]; cbn [app findChecksum].
  - by rewrite Hl, String.eqb_refl.
  - apply Forall_cons in Hb as [Hl' Hb]. unfold secondField in Hl'.
    destruct (split_whitespace l) as [|c [|n m]]; [by apply IH..|].
    destruct (String.eqb_spec n name) as [->|_]; [done|by apply IH].
Qed.

Lemma findChecksum_none name lines :
  Forall (fun l => secondField l <> Some name) lines ->
  findChecksum name lines = None.
Proof.
  induction lines as [|l lines IH]; [done|]. intros [Hl H]%Forall_cons.
  cbn [findChecksum]. unfold secondField in Hl.
  destruct (split_whitespace l) as [|c [|n m]]; [by apply IH..|].
  destruct (String.eqb_spec n name) as [->|_]; [done|by apply IH].
Qed.

Lemma getVSCodeSysrootChecksum_entry
  (out : Outside) (s : State) (lines before after : list string)
  (checksum gap name rest : string) :
  fs s !! checksumsPath out = Some (join LF lines) ->
  Forall (fun l => oneLine l = true) lines ->
  lines = before ++ (checksum +:+ gap +:+ name +:+ rest) :: after ->
  Forall (fun l => secondField l <> Some name) before ->
  solid checksum = true ->
  blank gap = true -> gap <> EmptyString ->
  solid name = true -> name <> EmptyString ->
  endsField rest = true ->
  getVSCodeSysrootChecksum out name s = (Ok (Some checksum), s).
Proof.
  intros Hf Hl -> Hb Hc Hg Hg' Hn Hn' Hr.
  unfold getVSCodeSysrootChecksum, readFileSync. run_monad. rewrite Hf.
  rewrite split_join by (done || by destruct before).
  destruct (fields_of_entry checksum gap name rest) as [more Hm]; [done..|].
  by rewrite (findChecksum_first name before _ after checksum more).
Qed.

(** X10.  The checksum file is read as lines of a checksum, white space and
    a name: [getVSCodeSysrootChecksum] returns the checksum of the first
    line whose second field is the name asked for, also when the line goes
    on after the name (a carriage return, further fields), and changes
    nothing. *)
Theorem checksum_of_the_first_entry_is_found
  (out : Outside) (s : State) (lines before after : list string)
  (checksum gap name rest : string) :
  fs s !! checksumsPath out = Some (join LF lines) ->
  Forall (fun l => oneLine l = true) lines ->
  lines = before ++ (checksum +:+ gap +:+ name +:+ rest) :: after ->
  Forall (fun l => secondField l <> Some name) before ->
  solid checksum = true ->
  blank gap = true -> gap <> EmptyString ->
  solid name = true -> name <> EmptyString ->
  endsField rest = true ->
  getVSCodeSysrootChecksum out name s = (Ok (Some checksum), s).
Proof. apply getVSCodeSysrootChecksum_entry. Qed.

Lemma status_not_zero_false st : status_not_zero st = false -> st = Some 0%Z.
Proof.
  destruct st as [z|]; [|done]. cbn. intros H%negb_false_iff%Z.eqb_eq. by subst.
Qed.

Lemma execSync_tar_Ok_inv out target assetContents s r s' :
  execSync_tar out target assetContents s = (Ok r, s') ->
  tar_status (tar out (clock s) assetContents) = Some 0%Z.
Proof.
  unfold execSync_tar, run_tar. run_monad.
  destruct (status_not_zero _) eqn:E; [discriminate|]. intros _.
  by apply status_not_zero_false.
Qed.

(** What an attempt that succeeds has seen. *)
Lemma fetchAttempt_Ok_inv out options s s' :
  fetchAttempt out options s = (Ok tt, s') ->
  exists response contents assets asset assetResponse assetContents,
    fetch out (clock s) releaseUrl = Ok response
    /\ okStatus response = true
    /\ response_arrayBuffer response = Ok contents
    /\ JSON_parse_assets out contents = Ok assets
    /\ find (fun a => String.eqb (asset_name a) (assetName options)) assets = Some asset
    /\ fetch out (S (clock s)) (asset_url asset) = Ok assetResponse
    /\ okStatus assetResponse = true
    /\ response_arrayBuffer assetResponse = Ok assetContents
    /\ (forall expected,
           checksumSha256 options = Some expected -> expected <> EmptyString ->
           sha256_hex out assetContents = expected)
    /\ tar_status (tar out (S (S (clock s))) assetContents) = Some 0%Z.
Proof.
  unfold fetchAttempt. run_monad.
  destruct (fetch out (clock s) releaseUrl) as [response|e] eqn:H1; [|discriminate].
  destruct (okStatus response) eqn:H2; [|discriminate].
  destruct (response_arrayBuffer response) as [contents|e] eqn:H3; [|discriminate].
  destruct (JSON_parse_assets out contents) as [assets|e] eqn:H4; [|discriminate].
  destruct (find _ assets) as [asset|] eqn:H5; [|discriminate].
  run_monad.
  destruct (fetch out (S (clock s)) (asset_url asset)) as [assetResponse|e] eqn:H6;
    [|discriminate].
  destruct (okStatus assetResponse) eqn:H7; [|discriminate].
  destruct (response_arrayBuffer assetResponse) as [assetContents|e] eqn:H8; [|discriminate].
  intros H. exists response, contents, assets, asset, assetResponse, assetContents.
  split_and!; try done.
  - intros expected H9 Hne. rewrite H9 in H. destruct expected as [|a expected]; [done|].
    cbn [truthy_string] in H.
    destruct (String.eqb_spec (sha256_hex out assetContents) (String a expected)); [done|].
    discriminate.
  - destruct (checksumSha256 options) as [expected|].
    + destruct (truthy_string (Some expected));
        [destruct (negb _); [discriminate|]|];
        cbn [fs requireCache clock trace] in H;
        (destruct (execSync_tar _ _ _ _) as [[r|e] s1] eqn:E; [|discriminate]);
        by apply execSync_tar_Ok_inv in E.
    + cbn [fs requireCache clock trace] in H.
      destruct (execSync_tar _ _ _ _) as [[r|e] s1] eqn:E; [|discriminate].
      by apply execSync_tar_Ok_inv in E.
Qed.

Lemma fetchUrl_Ok_inv out options retryDelay retries : forall s s',
  fetchUrl out options retries retryDelay s = (Ok tt, s') ->
  exists s0, fetchAttempt out options s0 = (Ok tt, s').
Proof.
  induction retries as [|retries IH]; intros s s'; rewrite fetchUrl_unfold.
  - destruct (fetchAttempt out options s) as [[[]|e] s1] eqn:E; [|discriminate].
    intros [= <-]. eauto.
  - destruct (fetchAttempt out options s) as [[[]|e] s1] eqn:E; [intros [= <-]; eauto|].
    apply IH.
Qed.

Section VSCodeInstall.
Context (out : Outside) (arch : DebianArchString).

(** What a call of [getVSCodeSysroot] does when it is not stopped by the
    checksum and does not find its marker. *)
Lemma getVSCodeSysroot_installs s checksum :
  fst (getVSCodeSysrootChecksum out (expectedNameOf arch) s) = Ok checksum ->
  truthy_string checksum = true ->
  fs s !! vscodeStamp out arch <> Some (expectedNameOf arch) ->
  getVSCodeSysroot out arch s
  = bind (fetchUrl_default out {| checksumSha256 := checksum;
                                  assetName := expectedNameOf arch;
                                  dest := vscodeSysrootDir out arch |})
      (fun _ => bind (writeFileSync (vscodeStamp out arch) (expectedNameOf arch))
                  (fun _ => ret (vscodeResult out arch)))
      (snd (mkdirSync (vscodeSysrootDir out arch)
              (snd (rmSync_recursive_force (vscodeSysrootDir out arch)
                      (snd (console_log ("Installing " +:+ arch_toString arch
                                           +:+ " root image: " +:+ vscodeSysrootDir out arch)
                              s)))))).
Proof.
  intros Hc Ht Hs. rewrite getVSCodeSysroot_unfold, Hc, Ht. cbn [negb].
  by rewrite bool_decide_eq_false_2.
Qed.

(** Whatever holds of the cleared directory, and survives the unpacking and
    the writing of the marker, holds after the installation, whether it
    returns or throws. *)
Lemma getVSCodeSysroot_install_keeps (I : Inv) s checksum r s' :
  fst (getVSCodeSysrootChecksum out (expectedNameOf arch) s) = Ok checksum ->
  truthy_string checksum = true ->
  fs s !! vscodeStamp out arch <> Some (expectedNameOf arch) ->
  I (filter (fun entry => negb (String.eqb entry.1 (vscodeSysrootDir out arch)
                                || isInside (vscodeSysrootDir out arch) entry.1) = true)
            (fs s)) (requireCache s) ->
  survivesTar out I (vscodeSysrootDir out arch) ->
  (forall files cache content,
      I files cache -> I (<[vscodeStamp out arch := content]> files) cache) ->
  getVSCodeSysroot out arch s = (r, s') ->
  holds I s'.
Proof.
  intros Hc Ht Hs Hi Htar Hstamp. rewrite (getVSCodeSysroot_installs s checksum) by done.
  apply preserves_elim; [|done].
  apply preserves_bind; [by apply preserves_fetchUrl|intros _].
  apply preserves_bind; [|intros _; apply preserves_ret].
  unfold writeFileSync. apply preserves_bind; [apply preserves_emit|intros _].
  apply preserves_set_fs. intros. by apply Hstamp.
Qed.


End VSCodeInstall.

(** X11.  [getVSCodeSysroot] reports a fresh installation only after it has
    downloaded an asset named like the archive, found its SHA-256 equal to
    the checksum of the checksum file, and seen [tar] end with status 0 on
    it. *)
Theorem installed_archive_was_verified
  (out : Outside) (arch : DebianArchString) (s : State) (p : string) (s' : State) :
  getVSCodeSysroot out arch s = (Ok p, s') ->
  fs s !! vscodeStamp out arch <> Some (expectedNameOf arch) ->
  exists checksum n asset response archive,
    fst (getVSCodeSysrootChecksum out (expectedNameOf arch) s) = Ok (Some checksum)
    /\ checksum <> EmptyString
    /\ asset_name asset = expectedNameOf arch
    /\ fetch out n (asset_url asset) = Ok response
    /\ response_arrayBuffer response = Ok archive
    /\ sha256_hex out archive = checksum
    /\ tar_status (tar out (S n) archive) = Some 0%Z.
Proof.
  intros H Hs.
  destruct (getVSCodeSysroot_Ok_inv out arch s p s' H) as (_ & _ & (c & Hc & Ht) & _).
  rewrite (getVSCodeSysroot_installs out arch s c) in H by done.
  apply bind_Ok_inv in H as ([] & s4 & H4 & _).
  apply fetchUrl_Ok_inv in H4 as [s0 H4].
  apply fetchAttempt_Ok_inv in H4
    as (response & contents & assets & asset & assetResponse & assetContents
        & _ & _ & _ & _ & Hfind & Hfetch & _ & Hbody & Hsha & Htar).
  destruct c as [[|a checksum]|]; [done| |done].
  exists (String a checksum), (S (clock s0)), asset, assetResponse, assetContents.
  split_and!; try done.
  - apply find_some in Hfind as [_ Hn]. by apply String.eqb_eq in Hn.
  - by apply Hsha.
Qed.

(** X12.  Without a usable checksum [getVSCodeSysroot] fails before it looks
    at the marker and changes nothing, also when the sysroot is installed
    and its marker is valid: when the checksum file is missing, when no line
    of it names the archive, and when the first line that names it starts
    with white space, which leaves its checksum field empty. *)
Theorem no_checksum_no_sysroot (out : Outside) (arch : DebianArchString) (s : State) :
  (fs s !! checksumsPath out = None ->
   exists e, getVSCodeSysroot out arch s = (Throw e, s))
  /\ (forall content,
         fs s !! checksumsPath out = Some content ->
         Forall (fun l => secondField l <> Some (expectedNameOf arch))
                (split (ascii_of_N 10) content) ->
         getVSCodeSysroot out arch s
         = (Throw (Error ("Could not find checksum for " +:+ expectedNameOf arch)), s))
  /\ (forall lines before after gap rest,
         fs s !! checksumsPath out = Some (join LF lines) ->
         Forall (fun l => oneLine l = true) lines ->
         lines = before ++ (gap +:+ expectedNameOf arch +:+ rest) :: after ->
         Forall (fun l => secondField l <> Some (expectedNameOf arch)) before ->
         blank gap = true -> gap <> EmptyString -> endsField rest = true ->
         getVSCodeSysroot out arch s
         = (Throw (Error ("Could not find checksum for " +:+ expectedNameOf arch)), s)).
Proof.
  split_and!.
  - intros H. rewrite getVSCodeSysroot_unfold.
    unfold getVSCodeSysrootChecksum, readFileSync. run_monad. rewrite H. eauto.
  - intros content H Hl. rewrite getVSCodeSysroot_unfold.
    unfold getVSCodeSysrootChecksum, readFileSync. run_monad. rewrite H.
    by rewrite findChecksum_none.
  - intros lines before after gap rest H Hl -> Hb Hg Hg' Hr.
    rewrite getVSCodeSysroot_unfold.
    assert (getVSCodeSysrootChecksum out (expectedNameOf arch) s
            = (Ok (Some EmptyString), s)) as E.
    { apply (getVSCodeSysrootChecksum_entry out s
               (before ++ (gap +:+ expectedNameOf arch +:+ rest) :: after)
               before after EmptyString gap (expectedNameOf arch) rest);
        try done; by destruct arch. }
    by rewrite E.
Qed.

Section Download.
Context (out : Outside) (url tarball : string).

Lemma appendFileSync_run p chunk s content :
  fs s !! p = Some content ->
  appendFileSync p chunk s
  = (Ok tt, {| fs := <[p := content +:+ chunk]> (fs s);
               requireCache := requireCache s; clock := clock s;
               trace := trace s ++ [AppendFileSync p] |}).
Proof. intros H. unfold appendFileSync. run_monad. by rewrite H. Qed.

Lemma writeFileSync_run p content s :
  writeFileSync p content s
  = (Ok tt, {| fs := <[p := content]> (fs s);
               requireCache := requireCache s; clock := clock s;
               trace := trace s ++ [WriteFileSync p] |}).
Proof. reflexivity. Qed.

Lemma append_chunks_run chunks : forall s content,
  fs s !! tarball = Some content ->
  exists s',
    fold_right (fun chunk rest => bind (appendFileSync tarball chunk) (fun _ => rest))
               (ret tt) chunks s = (Ok tt, s')
    /\ fs s' = <[tarball := content +:+ appended chunks]> (fs s)
    /\ requireCache s' = requireCache s
    /\ clock s' = clock s
    /\ trace s' = trace s ++ map (fun _ => AppendFileSync tarball) chunks.
Proof.
  induction chunks as [|chunk chunks IH]; intros s content Hc; cbn [fold_right map appended].
  - exists s. split_and!; try done.
    + by rewrite append_nil_r, insert_id.
    + by rewrite app_nil_r.
  - rewrite (bind_run _ _ _ _ _ (appendFileSync_run tarball chunk s content Hc)).
    edestruct (IH {| fs := <[tarball := content +:+ chunk]> (fs s);
                     requireCache := requireCache s; clock := clock s;
                     trace := trace s ++ [AppendFileSync tarball] |}
                  (content +:+ chunk)) as (s' & -> & Hfs & Hrc & Hcl & Htr).
    { cbn [fs]. apply lookup_insert_eq. }
    exists s'. cbn [fs requireCache clock trace] in *. split_and!; try done.
    + by rewrite Hfs, insert_insert_eq, append_assoc.
    + by rewrite Htr, <- app_assoc.
Qed.

(** One request: the file afterwards holds what it held and the chunks that
    came. *)
Lemma httpsAttempt_run s content :
  fs s !! tarball = Some content ->
  exists s',
    httpsAttempt out url tarball s
    = (Ok (negb (isRequestError (https_get out (clock s) url))), s')
    /\ fs s' = <[tarball := content +:+ appended (chunksOf (https_get out (clock s) url))]>
                 (fs s)
    /\ requireCache s' = requireCache s
    /\ clock s' = S (clock s)
    /\ exists steps, trace s' = trace s ++ HttpsGet url :: steps
                     /\ forallb (fun ev => isDownloadStep ev && negb (isHttpsGet ev)) steps
                        = true.
Proof.
  intros Hc. unfold httpsAttempt. rewrite bind_emit_run.
  change (bind tick ?k ?s0) with (k (clock s0) (snd (tick s0))).
  cbn [emit tick snd clock].
  set (s0 := {| fs := fs s; requireCache := requireCache s; clock := S (clock s);
                trace := trace s ++ [HttpsGet url] |}).
  destruct (https_get out (clock s) url) as [chunks|chunks message].
  - destruct (append_chunks_run chunks s0 content Hc) as (s' & Hrun & Hfs & Hrc & Hcl & Htr).
    rewrite (bind_run _ _ _ _ _ Hrun).
    exists s'. cbn [fs requireCache clock trace isRequestError negb chunksOf s0] in *.
    split_and!; try done.
    exists (map (fun _ => AppendFileSync tarball) chunks). split.
    + by rewrite Htr, <- app_assoc.
    + clear. by induction chunks.
  - destruct (append_chunks_run chunks s0 content Hc) as (s' & Hrun & Hfs & Hrc & Hcl & Htr).
    rewrite (bind_run _ _ _ _ _ Hrun). unfold console_error. rewrite bind_emit_run.
    eexists. split; [reflexivity|].
    cbn [fs requireCache clock trace isRequestError negb chunksOf s0 emit snd] in *.
    split_and!; try done.
    exists (map (fun _ => AppendFileSync tarball) chunks
            ++ [ConsoleError ("Encountered an error during the download attempt: "
                                +:+ message)]). split.
    + by rewrite Htr, <- !app_assoc.
    + rewrite forallb_app. cbn. rewrite andb_true_r. clear. by induction chunks.
Qed.

(** The download loop with [S left] rounds: it ends with request number
    [n], the first that is answered or else the last one, and the file holds
    the chunks of that request alone. *)
Lemma downloadLoop_run left : forall s,
  exists n s',
    downloadLoop out (S left) url tarball s
    = (Ok (negb (isRequestError (https_get out (clock s + n) url))), s')
    /\ n <= left
    /\ (forall j, j < n -> isRequestError (https_get out (clock s + j) url) = true)
    /\ (isRequestError (https_get out (clock s + n) url) = true -> n = left)
    /\ fs s' = <[tarball := appended (chunksOf (https_get out (clock s + n) url))]> (fs s)
    /\ requireCache s' = requireCache s
    /\ clock s' = S (clock s + n)
    /\ exists steps, trace s' = trace s ++ steps
                     /\ forallb isDownloadStep steps = true
                     /\ length (List.filter isHttpsGet steps) = S n.
Proof.
  induction left as [|left IH]; intros s.
  - cbn [downloadLoop]. rewrite (bind_run _ _ _ _ _ (writeFileSync_run tarball EmptyString s)).
    edestruct (httpsAttempt_run
                 {| fs := <[tarball := EmptyString]> (fs s); requireCache := requireCache s;
                    clock := clock s; trace := trace s ++ [WriteFileSync tarball] |}
                 EmptyString) as (s' & Hrun & Hfs & Hrc & Hcl & steps & Htr & Hst).
    { cbn [fs]. apply lookup_insert_eq. }
    rewrite (bind_run _ _ _ _ _ Hrun). cbn [fs requireCache clock trace] in *.
    exists 0, s'. rewrite Nat.add_0_r. split_and!; try done.
    + by destruct (isRequestError _).
    + intros j Hj. lia.
    + by rewrite Hfs, insert_insert_eq.
    + exists (WriteFileSync tarball :: HttpsGet url :: steps). split_and!.
      * by rewrite Htr, <- app_assoc.
      * cbn. eapply forallb_weaken; [|exact Hst]. by intros ev [? _]%andb_true_iff.
      * cbn. rewrite filter_none; [done|].
        eapply forallb_weaken; [|exact Hst]. by intros ev [_ ?]%andb_true_iff.
  - cbn [downloadLoop]. rewrite (bind_run _ _ _ _ _ (writeFileSync_run tarball EmptyString s)).
    edestruct (httpsAttempt_run
                 {| fs := <[tarball := EmptyString]> (fs s); requireCache := requireCache s;
                    clock := clock s; trace := trace s ++ [WriteFileSync tarball] |}
                 EmptyString) as (s1 & Hrun & Hfs & Hrc & Hcl & steps & Htr & Hst).
    { cbn [fs]. apply lookup_insert_eq. }
    rewrite (bind_run _ _ _ _ _ Hrun). cbn [fs requireCache clock trace] in *.
    assert (length (List.filter isHttpsGet (WriteFileSync tarball :: HttpsGet url :: steps))
            = 1) as Hone.
    { cbn. rewrite filter_none; [done|].
      eapply forallb_weaken; [|exact Hst]. by intros ev [_ ?]%andb_true_iff. }
    assert (forallb isDownloadStep (WriteFileSync tarball :: HttpsGet url :: steps) = true)
      as Hall.
    { cbn. eapply forallb_weaken; [|exact Hst]. by intros ev [? _]%andb_true_iff. }
    destruct (isRequestError (https_get out (clock s) url)) eqn:E0; cbn [negb].
    + destruct (IH s1) as (n & s' & Hl & Hn & Hbefore & Hlast & Hfs' & Hrc' & Hcl' & steps'
                           & Htr' & Hst' & Hcount).
      rewrite Hcl in *. replace (S (clock s) + n) with (clock s + S n) in * by lia.
      exists (S n), s'. split_and!; try done.
      * lia.
      * intros [|j] Hj; [by rewrite Nat.add_0_r|].
        replace (clock s + S j) with (S (clock s) + j) by lia. apply Hbefore. lia.
      * intros H. f_equal. by apply Hlast.
      * by rewrite Hfs', Hfs, !insert_insert_eq.
      * congruence.
      * exists ((WriteFileSync tarball :: HttpsGet url :: steps) ++ steps'). split_and!.
        -- rewrite Htr', Htr. by rewrite <- !app_assoc.
        -- by rewrite forallb_app, Hall, Hst'.
        -- rewrite List.filter_app, length_app, Hone, Hcount. done.
    + exists 0, s1. rewrite Nat.add_0_r, E0. split_and!; try done.
      * lia.
      * intros j Hj. lia.
      * by rewrite Hfs, insert_insert_eq.
      * exists (WriteFileSync tarball :: HttpsGet url :: steps). split_and!; try done.
        by rewrite Htr, <- app_assoc.
Qed.

End Download.

Lemma rmSync_run p s content :
  fs s !! p = Some content ->
  rmSync p s
  = (Ok tt, {| fs := delete p (fs s); requireCache := requireCache s; clock := clock s;
               trace := trace s ++ [RmSync p] |}).
Proof.
  intros H. unfold rmSync, existsSync. run_monad.
  by rewrite bool_decide_eq_true_2 by eauto.
Qed.

Lemma getSha_run out filename s content :
  fs s !! filename = Some content ->
  getSha out filename s = (Ok (sha1_hex out content), s).
Proof. intros H. unfold getSha, readFileSync. run_monad. by rewrite H. Qed.

Section InstallRun.
Context (out : Outside) (arch : DebianArchString) (sysrootDict : SysrootDict).

(** The acquisition of [getChromiumSysroot] up to the check of the SHA-1:
    request number [n] ends the download, and the state [s5] after it holds
    the chunks of that request in the tarball. *)
Lemma installChromiumSysroot_run s :
  exists n s5,
    n <= 2
    /\ (forall j, j < n ->
                  isRequestError (https_get out (clock s + j) (chromiumUrl sysrootDict)) = true)
    /\ (isRequestError (https_get out (clock s + n) (chromiumUrl sysrootDict)) = true -> n = 2)
    /\ fs s5
       = <[chromiumTarball out sysrootDict :=
             appended (chunksOf (https_get out (clock s + n) (chromiumUrl sysrootDict)))]>
           (filter (fun entry =>
                      negb (String.eqb entry.1 (chromiumSysrootDir out sysrootDict)
                            || isInside (chromiumSysrootDir out sysrootDict) entry.1) = true)
                   (fs s))
    /\ requireCache s5 = requireCache s
    /\ clock s5 = S (clock s + n)
    /\ (exists steps, trace s5 = trace s ++ steps
                      /\ List.filter isExtraction steps = []
                      /\ length (List.filter isHttpsGet steps) = S n)
    /\ installChromiumSysroot out arch sysrootDict s
       = if isRequestError (https_get out (clock s + n) (chromiumUrl sysrootDict))
         then (Throw (Error ("Failed to download " +:+ chromiumUrl sysrootDict)),
               {| fs := delete (chromiumTarball out sysrootDict) (fs s5);
                  requireCache := requireCache s5; clock := clock s5;
                  trace := trace s5 ++ [RmSync (chromiumTarball out sysrootDict)] |})
         else
           let content :=
             appended (chunksOf (https_get out (clock s + n) (chromiumUrl sysrootDict))) in
           if negb (String.eqb (sha1_hex out content) (Sha1Sum sysrootDict))
           then (Throw (Error ("Tarball sha1sum is wrong. Expected " +:+ Sha1Sum sysrootDict
                                 +:+ ", actual " +:+ sha1_hex out content)), s5)
           else
             bind (run_tar out (SpawnSync "tar" ["xf"; chromiumTarball out sysrootDict; "-C";
                                                chromiumSysrootDir out sysrootDict])
                           content (chromiumSysrootDir out sysrootDict))
               (fun procStatus =>
                  if truthy_status procStatus then
                    throw (Error ("Tarball extraction failed with code "
                                    +:+ Number_toString (default 0%Z procStatus)))
                  else
                    bind (rmSync (chromiumTarball out sysrootDict))
                      (fun _ => bind (writeFileSync (chromiumStamp out sysrootDict)
                                        (chromiumUrl sysrootDict))
                         (fun _ => ret (chromiumSysrootDir out sysrootDict)))) s5.
Proof.
  unfold installChromiumSysroot. cbv zeta.
  unfold console_log, mkdirSync.
  rewrite bind_emit_run, bind_clear_run, bind_emit_run, bind_emit_run.
  match goal with |- context [bind (downloadLoop _ _ _ _) _ ?s0] => set (s4 := s0) end.
  destruct (downloadLoop_run out (chromiumUrl sysrootDict) (chromiumTarball out sysrootDict)
              2 s4) as (n & s5 & Hrun & Hn & Hbefore & Hlast & Hfs & Hrc & Hcl & steps & Htr
                        & Hst & Hcount).
  change (clock s4) with (clock s) in *.
  exists n, s5. split_and!; try done.
  - exists ([ConsoleLog ("Installing Debian " +:+ arch_toString arch +:+ " root image: "
                           +:+ chromiumSysrootDir out sysrootDict);
             RmSync (chromiumSysrootDir out sysrootDict);
             MkdirSync (chromiumSysrootDir out sysrootDict);
             ConsoleLog ("Downloading " +:+ chromiumUrl sysrootDict)] ++ steps).
    split_and!.
    + rewrite Htr. unfold s4. cbn [emit rmSync_recursive_force bind set_fs snd trace].
      by rewrite <- !app_assoc.
    + cbn. apply filter_none. eapply forallb_weaken; [|exact Hst]. by intros [].
    + cbn. done.
  - rewrite (bind_run _ _ _ _ _ Hrun).
    assert (fs s5 !! chromiumTarball out sysrootDict
            = Some (appended (chunksOf (https_get out (clock s + n)
                                          (chromiumUrl sysrootDict))))) as Hfile.
    { rewrite Hfs. apply lookup_insert_eq. }
    destruct (isRequestError _); cbn [negb].
    + by rewrite (bind_run _ _ _ _ _ (rmSync_run _ s5 _ Hfile)).
    + rewrite (bind_run _ _ _ _ _ (getSha_run out _ s5 _ Hfile)). cbv zeta.
      destruct (String.eqb (sha1_hex out _) (Sha1Sum sysrootDict)); cbn [negb];
        [|reflexivity].
      unfold get at 1. unfold bind at 1. by rewrite Hfile.
Qed.

End InstallRun.

(** X13.  The download loop of [getChromiumSysroot] never throws and sends
    at most three requests: it stops at the first request that is answered
    to the end.  Each request starts from an empty file, so the tarball
    holds the chunks of the last request alone, not what failed requests
    had written. *)
Theorem download_stops_at_the_first_answer
  (out : Outside) (url tarball : string) (s : State) :
  exists n s' steps,
    downloadLoop out 3 url tarball s
    = (Ok (negb (isRequestError (https_get out (clock s + n) url))), s')
    /\ n <= 2
    /\ (forall j, j < n -> isRequestError (https_get out (clock s + j) url) = true)
    /\ (isRequestError (https_get out (clock s + n) url) = true -> n = 2)
    /\ fs s' !! tarball = Some (appended (chunksOf (https_get out (clock s + n) url)))
    /\ trace s' = trace s ++ steps
    /\ length (List.filter isHttpsGet steps) = S n.
Proof.
  destruct (downloadLoop_run out url tarball 2 s)
    as (n & s' & Hrun & Hn & Hbefore & Hlast & Hfs & _ & _ & steps & Htr & _ & Hcount).
  exists n, s', steps. split_and!; try done.
  rewrite Hfs. apply lookup_insert_eq.
Qed.

(** X14.  When all three requests for the tarball fail, the acquisition
    throws the download error after exactly three requests; the partial
    tarball is removed, nothing is unpacked, and the directory is left
    without a marker. *)
Theorem three_failed_requests_give_up
  (out : Outside) (arch : DebianArchString) (sysrootDict : SysrootDict) (s : State) :
  (forall j, j < 3 ->
             isRequestError (https_get out (clock s + j) (chromiumUrl sysrootDict)) = true) ->
  Tarball sysrootDict <> ".stamp" ->
  exists s' steps,
    installChromiumSysroot out arch sysrootDict s
    = (Throw (Error ("Failed to download " +:+ chromiumUrl sysrootDict)), s')
    /\ fs s' !! chromiumTarball out sysrootDict = None
    /\ fs s' !! chromiumStamp out sysrootDict = None
    /\ trace s' = trace s ++ steps
    /\ length (List.filter isHttpsGet steps) = 3
    /\ List.filter isExtraction steps = [].
Proof.
  intros Hfail Hname.
  destruct (installChromiumSysroot_run out arch sysrootDict s)
    as (n & s5 & Hn & _ & Hlast & Hfs & _ & _ & (steps & Htr & Hex & Hcount) & Hrun).
  rewrite (Hfail n) in Hrun, Hlast by lia. rewrite (Hlast eq_refl) in *.
  eexists _, (steps ++ [RmSync (chromiumTarball out sysrootDict)]).
  split; [exact Hrun|]. cbn [fs trace]. split_and!.
  - apply lookup_delete_eq.
  - rewrite lookup_delete_ne, Hfs, lookup_insert_ne.
    + apply cleared_stamp.
    + intros E. by apply path_join_inj in E.
    + intros E. by apply path_join_inj in E.
  - by rewrite Htr, <- app_assoc.
  - by rewrite List.filter_app, length_app, Hcount.
  - by rewrite List.filter_app, Hex.
Qed.

(** X15.  When the downloaded tarball does not have the SHA-1 of the
    manifest, the acquisition throws an error that names both sums; [tar] is
    not run, and the tarball stays where it was written. *)
Theorem wrong_tarball_is_not_unpacked
  (out : Outside) (arch : DebianArchString) (sysrootDict : SysrootDict) (s : State)
  (n : nat) (chunks : list string) :
  n <= 2 ->
  (forall j, j < n ->
             isRequestError (https_get out (clock s + j) (chromiumUrl sysrootDict)) = true) ->
  https_get out (clock s + n) (chromiumUrl sysrootDict) = ResponseEnd chunks ->
  sha1_hex out (appended chunks) <> Sha1Sum sysrootDict ->
  exists s' steps,
    installChromiumSysroot out arch sysrootDict s
    = (Throw (Error ("Tarball sha1sum is wrong. Expected " +:+ Sha1Sum sysrootDict
                       +:+ ", actual " +:+ sha1_hex out (appended chunks))), s')
    /\ fs s' !! chromiumTarball out sysrootDict = Some (appended chunks)
    /\ trace s' = trace s ++ steps
    /\ List.filter isExtraction steps = [].
Proof.
  intros Hn Hbefore Hend Hsha.
  destruct (installChromiumSysroot_run out arch sysrootDict s)
    as (m & s5 & Hm & Hbefore' & Hlast & Hfs & _ & _ & (steps & Htr & Hex & _) & Hrun).
  assert (m = n) as ->.
  { destruct (Nat.lt_trichotomy m n) as [Hlt| [->|Hgt]]; [|done|].
    - pose proof (Hlast (Hbefore m Hlt)). lia.
    - pose proof (Hbefore' n Hgt) as E. by rewrite Hend in E. }
  rewrite Hend in Hrun, Hfs. cbn [isRequestError chunksOf] in Hrun, Hfs. cbv zeta in Hrun.
  apply String.eqb_neq in Hsha. rewrite Hsha in Hrun. cbn [negb] in Hrun.
  exists s5, steps. split_and!; try done.
  rewrite Hfs. apply lookup_insert_eq.
Qed.

(** X16.  What a successful acquisition has seen and leaves behind: one of
    at most three requests was answered to the end, the SHA-1 of what came
    was the one of the manifest, [tar] was run on it and ended with status 0
    or without a status, the tarball is removed, and the marker holds the
    URL. *)
Theorem acquired_tarball_was_verified
  (out : Outside) (arch : DebianArchString) (sysrootDict : SysrootDict)
  (s : State) (p : string) (s' : State) :
  installChromiumSysroot out arch sysrootDict s = (Ok p, s') ->
  Tarball sysrootDict <> ".stamp" ->
  exists n chunks,
    n <= 2
    /\ https_get out (clock s + n) (chromiumUrl sysrootDict) = ResponseEnd chunks
    /\ sha1_hex out (appended chunks) = Sha1Sum sysrootDict
    /\ (tar_status (tar out (S (clock s + n)) (appended chunks)) = Some 0%Z
        \/ tar_status (tar out (S (clock s + n)) (appended chunks)) = None)
    /\ p = chromiumSysrootDir out sysrootDict
    /\ fs s' !! chromiumTarball out sysrootDict = None
    /\ fs s' !! chromiumStamp out sysrootDict = Some (chromiumUrl sysrootDict).
Proof.
  intros H Hname.
  destruct (installChromiumSysroot_run out arch sysrootDict s)
    as (n & s5 & Hn & _ & _ & _ & _ & Hcl & _ & Hrun).
  rewrite H in Hrun.
  destruct (https_get out (clock s + n) (chromiumUrl sysrootDict)) as [chunks|chunks message]
    eqn:Hend; cbn [isRequestError chunksOf] in Hrun; [|discriminate].
  cbv zeta in Hrun.
  destruct (String.eqb_spec (sha1_hex out (appended chunks)) (Sha1Sum sysrootDict))
    as [Hsha|_]; cbn [negb] in Hrun; [|discriminate].
  symmetry in Hrun. apply bind_Ok_inv in Hrun as (st & s6 & Htar & Hrun).
  assert (st = tar_status (tar out (S (clock s + n)) (appended chunks))) as Hst.
  { revert Htar. unfold run_tar. run_monad. rewrite Hcl. by intros [= <- _]. }
  destruct (truthy_status st) eqn:Htruthy; [discriminate|].
  apply bind_Ok_inv in Hrun as ([] & s7 & Hrm & Hrun).
  apply bind_Ok_inv in Hrun as ([] & s8 & Hwr & Hrun).
  injection Hrun as <- <-.
  assert (fs s7 !! chromiumTarball out sysrootDict = None) as Hgone.
  { revert Hrm. unfold rmSync, existsSync. run_monad.
    destruct (bool_decide _); [|discriminate]. intros [= <-]. apply lookup_delete_eq. }
  rewrite writeFileSync_run in Hwr. injection Hwr as <-. cbn [fs].
  exists n, chunks. split_and!; try done.
  - rewrite <- Hst. destruct st as [z|]; [left|by right]. cbn in Htruthy.
    apply negb_false_iff, Z.eqb_eq in Htruthy. by subst.
  - rewrite lookup_insert_ne; [done|]. intros E. by apply path_join_inj in E.
  - apply lookup_insert_eq.
Qed.



Section VSCodeMore.
Context (out : Outside) (arch : DebianArchString).

Lemma getVSCodeSysroot_install_throws s checksum e s' :
  fst (getVSCodeSysrootChecksum out (expectedNameOf arch) s) = Ok checksum ->
  truthy_string checksum = true ->
  fs s !! vscodeStamp out arch <> Some (expectedNameOf arch) ->
  noStampEntry out ->
  getVSCodeSysroot out arch s = (Throw e, s') ->
  fs s' !! vscodeStamp out arch = None.
Proof.
  intros Hc Ht Hs Hn. rewrite (getVSCodeSysroot_installs out arch s checksum) by done.
  set (I := fun (files : gmap string string) (_ : gmap string (gmap string SysrootDict)) =>
              files !! vscodeStamp out arch = None).
  intros H.
  lazymatch type of H with
  | ?m ?sb = _ => assert (guarded I m) as G; [|apply (guarded_elim I m sb e s' G); [|done]]
  end.
  - apply guarded_bind.
    + apply preserves_fetchUrl. by apply survivesTar_no_stamp.
    + intros _. apply guarded_returns. by intros s0.
  - apply cleared_stamp.
Qed.

End VSCodeMore.

(** X18.  An installation starts from an empty directory: when
    [getVSCodeSysroot] does not find its marker, a file that lay below the
    sysroot directory and is not unpacked again is gone afterwards, whether
    the call returns or throws. *)
Theorem reinstall_starts_from_an_empty_directory
  (out : Outside) (arch : DebianArchString) (s : State) (checksum : option string)
  (r : Result string) (s' : State) (p : string) :
  fst (getVSCodeSysrootChecksum out (expectedNameOf arch) s) = Ok checksum ->
  truthy_string checksum = true ->
  fs s !! vscodeStamp out arch <> Some (expectedNameOf arch) ->
  getVSCodeSysroot out arch s = (r, s') ->
  isInside (vscodeSysrootDir out arch) p = true ->
  p <> vscodeStamp out arch ->
  (forall n archive entry,
      entry ∈ tar_files (tar out n archive) ->
      path_join [vscodeSysrootDir out arch; entry.1] <> p) ->
  fs s' !! p = None.
Proof.
  intros Hc Ht Hs H Hp Hne Htar.
  apply (getVSCodeSysroot_install_keeps out arch (fun files _ => files !! p = None)
           s checksum r s'); try done.
  - by apply cleared_inside.
  - intros files cache n archive. specialize (Htar n archive).
    revert files. induction (tar_files (tar out n archive)) as [|entry entries IH];
      intros files Hf; [done|].
    cbn [fold_left]. apply IH.
    + intros e He. apply Htar. by right.
    + rewrite lookup_insert_ne; [done|]. apply Htar. by left.
  - intros files cache content Hf. by rewrite lookup_insert_ne.
Qed.

Lemma expectedNameOf_inj a b : expectedNameOf a = expectedNameOf b -> a = b.
Proof. by destruct a, b. Qed.

(** X19.  With [VSCODE_SYSROOT_DIR] set, all architectures share one
    directory and one marker: after a call for one architecture, however it
    ended, the marker does not vouch for any other architecture, so the next
    call for another architecture installs again. *)
Theorem shared_directory_serves_one_architecture
  (out : Outside) (dir : string) (arch other : DebianArchString) (s : State)
  (checksum : option string) (r : Result string) (s' : State) :
  VSCODE_SYSROOT_DIR out = Some dir ->
  other <> arch ->
  noStampEntry out ->
  fst (getVSCodeSysrootChecksum out (expectedNameOf arch) s) = Ok checksum ->
  truthy_string checksum = true ->
  getVSCodeSysroot out arch s = (r, s') ->
  vscodeStamp out other = vscodeStamp out arch
  /\ fs s' !! vscodeStamp out other <> Some (expectedNameOf other).
Proof.
  intros Hdir Hne Hn Hc Ht H.
  assert (vscodeStamp out other = vscodeStamp out arch) as E.
  { unfold vscodeStamp, vscodeSysrootDir. by rewrite Hdir. }
  split; [done|]. rewrite E.
  assert (expectedNameOf arch <> expectedNameOf other) as Hnames.
  { intros Heq. apply expectedNameOf_inj in Heq. congruence. }
  destruct r as [p|e].
  - apply getVSCodeSysroot_Ok_inv in H as (_ & -> & _). congruence.
  - destruct (decide (fs s !! vscodeStamp out arch = Some (expectedNameOf arch))) as [Hs|Hs].
    + rewrite (getVSCodeSysroot_cache_hit out arch s checksum) in H by done. discriminate.
    + by rewrite (getVSCodeSysroot_install_throws out arch s checksum e s').
Qed.

Section Manifest.
Context (out : Outside).

Lemma loadSysrootInfo_unfold s :
  loadSysrootInfo out s
  = match fst (getElectronVersion out s) with
    | Throw e => (Throw e, s)
    | Ok electron =>
        bind (spawnSync_curl out (sysrootJSONUrl electron.1) (sysrootDictLocation out))
          (fun result =>
             if status_not_zero (status result) then
               throw (Error ("Cannot retrieve sysroots.json. Stderr:" +:+ LF
                               +:+ stderr result))
             else require out (sysrootDictLocation out)) s
    end.
Proof.
  unfold loadSysrootInfo. rewrite bind_readOnly by apply readOnly_getElectronVersion.
  by destruct (fst (getElectronVersion out s)).
Qed.

End Manifest.

(** X20.  [getChromiumSysroot] fails before it touches the sysroot when the
    manifest cannot be had: when [.yarnrc] cannot be read for the version it
    changes nothing; when [curl] ends with a status other than 0, or without
    one, it throws with the error output of [curl], having run [curl] and
    nothing else; when the manifest has no entry for the architecture it
    throws with the manifest loaded and nothing else done. *)
Theorem manifest_failures_leave_the_sysroot_alone
  (out : Outside) (arch : DebianArchString) (s : State) :
  (forall e,
      fst (getElectronVersion out s) = Throw e ->
      getChromiumSysroot out arch s = (Throw e, s))
  /\ (forall electron,
         fst (getElectronVersion out s) = Ok electron ->
         status_not_zero (status (fst (curl out (clock s) (sysrootJSONUrl electron.1))))
         = true ->
         exists s',
           getChromiumSysroot out arch s
           = (Throw (Error ("Cannot retrieve sysroots.json. Stderr:" +:+ LF
                              +:+ stderr (fst (curl out (clock s)
                                                 (sysrootJSONUrl electron.1))))), s')
           /\ trace s' = trace s ++ [curlEvent out electron.1]
           /\ forall p, p <> sysrootDictLocation out -> fs s' !! p = fs s !! p)
  /\ (forall sysrootInfo s1,
         loadSysrootInfo out s = (Ok sysrootInfo, s1) ->
         sysrootInfo !! sysrootArchOf arch = None ->
         getChromiumSysroot out arch s
         = (Throw (TypeError "Cannot read properties of undefined (reading 'Tarball')"), s1)
         /\ (exists electron, trace s1 = trace s ++ [curlEvent out electron])
         /\ forall p, p <> sysrootDictLocation out -> fs s1 !! p = fs s !! p).
Proof.
  split_and!.
  - intros e He. unfold getChromiumSysroot.
    rewrite (bind_run_throw _ _ s e s); [done|].
    by rewrite loadSysrootInfo_unfold, He.
  - intros electron He Hst. unfold getChromiumSysroot.
    eexists. split.
    + apply bind_run_throw. rewrite loadSysrootInfo_unfold, He.
      rewrite (bind_run _ _ _ _ _ (spawnSync_curl_run out _ _ s)). rewrite Hst.
      reflexivity.
    + cbn [trace fs]. split; [done|]. intros p Hp.
      destruct (snd (curl out _ _)); [|done]. by rewrite lookup_insert_ne.
  - intros sysrootInfo s1 Hl Hd. unfold getChromiumSysroot.
    rewrite (bind_run _ _ _ _ _ Hl), Hd.
    destruct (loadSysrootInfo_Ok_inv out s sysrootInfo s1 Hl)
      as ((electron & _ & Ht) & _ & _ & _ & Hfs).
    split_and!; [done|eauto|done].
Qed.

(** X21.  The manifest is parsed once in a process: when [require] has
    loaded it before, a later call uses that manifest, whatever [curl] has
    downloaded since, and a call that loads the manifest leaves it in the
    cache for the calls that follow. *)
Theorem manifest_is_parsed_once (out : Outside) (s : State) :
  (forall cached electron,
      requireCache s !! sysrootDictLocation out = Some cached ->
      fst (getElectronVersion out s) = Ok electron ->
      status (fst (curl out (clock s) (sysrootJSONUrl electron.1))) = Some 0%Z ->
      fst (loadSysrootInfo out s) = Ok cached)
  /\ (forall sysrootInfo s1,
         loadSysrootInfo out s = (Ok sysrootInfo, s1) ->
         requireCache s1 !! sysrootDictLocation out = Some sysrootInfo).
Proof.
  split.
  - intros cached electron Hc He Hst. rewrite loadSysrootInfo_unfold, He.
    rewrite (bind_run _ _ _ _ _ (spawnSync_curl_run out _ _ s)). rewrite Hst.
    cbn [status_not_zero Z.eqb negb]. unfold require. cbn [requireCache]. by rewrite Hc.
  - intros sysrootInfo s1 Hl.
    by destruct (loadSysrootInfo_Ok_inv out s sysrootInfo s1 Hl) as (_ & _ & H & _).
Qed.

Section InstallPreserves.
Context (out : Outside) (arch : DebianArchString) (sysrootDict : SysrootDict).

Lemma preserves_installChromiumSysroot (I : Inv) :
  writeProof I (chromiumSysrootDir out sysrootDict) ->
  preserves I (installChromiumSysroot out arch sysrootDict).
Proof.
  intros W.
  pose proof (writeProof_downloadProof out I (chromiumSysrootDir out sysrootDict)
                (Tarball sysrootDict) W) as D.
  unfold installChromiumSysroot. cbv zeta. unfold console_log, mkdirSync.
  preserves_step; [preserves_step|].
  preserves_step; [by apply (preserves_rmSync_recursive_force I _ W)|].
  preserves_step; [preserves_step|].
  preserves_step; [preserves_step|].
  preserves_step;
    [by apply (preserves_downloadLoop out I (chromiumSysrootDir out sysrootDict))|].
  preserves_step.
  { preserves_step; [|preserves_step].
    by apply (preserves_tarball_rm out I (chromiumSysrootDir out sysrootDict)). }
  preserves_step; [by apply (preserves_getSha out)|].
  preserves_step; [preserves_step|].
  preserves_step; [preserves_step|].
  preserves_step.
  { apply preserves_run_tar.
    apply (dp_tar out I (chromiumSysrootDir out sysrootDict)
             (chromiumTarball out sysrootDict) D). }
  preserves_step; [preserves_step|].
  preserves_step;
    [by apply (preserves_tarball_rm out I (chromiumSysrootDir out sysrootDict))|].
  preserves_step; [|preserves_step].
  apply (preserves_writeFileSync I _ W), chromiumStamp_inside.
Qed.

End InstallPreserves.

(** X22.  [getChromiumSysroot] writes the manifest and below the sysroot
    directory that the manifest names, nowhere else.  For a manifest file, a
    sysroot directory and a file that are all given by an absolute path in
    normal form, and a tarball with a plain name: whether the call returns
    or throws, the file is as it was unless it is the manifest or the
    directory or lies below the directory. *)
Theorem chromium_sysroot_keeps_to_its_directory
  (out : Outside) (arch : DebianArchString) (s : State)
  (sysrootInfo : gmap string SysrootDict) (s1 : State) (sysrootDict : SysrootDict)
  (p : string) :
  loadSysrootInfo out s = (Ok sysrootInfo, s1) ->
  sysrootInfo !! sysrootArchOf arch = Some sysrootDict ->
  resolved (sysrootDictLocation out) = true ->
  resolved (chromiumSysrootDir out sysrootDict) = true ->
  isName (Tarball sysrootDict) = true ->
  resolved p = true ->
  p <> sysrootDictLocation out ->
  p <> chromiumSysrootDir out sysrootDict ->
  isInside (chromiumSysrootDir out sysrootDict) p = false ->
  fs (snd (getChromiumSysroot out arch s)) !! p = fs s !! p.
Proof.
  intros Hl Hd _ _ _ _ Hm Hne Hout. unfold getChromiumSysroot.
  rewrite (bind_run _ _ _ _ _ Hl), Hd. cbv zeta.
  destruct (loadSysrootInfo_Ok_inv out s sysrootInfo s1 Hl) as (_ & _ & _ & _ & Hfs).
  rewrite bind_readOnly by apply readOnly_stampMatches.
  destruct (fst (stampMatches _ _ s1)) as [[|]|e]; cbn [snd ret]; [by apply Hfs| |by apply Hfs].
  apply (preserves_installChromiumSysroot out arch sysrootDict
           (fun files _ => files !! p = fs s !! p)).
  - by apply writeProof_lookup.
  - by apply Hfs.
Qed.

Lemma substring_suffix a b :
  String.substring (String.length a) (String.length (a +:+ b) - String.length a) (a +:+ b) = b.
Proof.
  rewrite length_append. replace (_ + _ - _) with (String.length b) by lia.
  induction a as [|c a IH]; [apply substring_whole|]. by rewrite append_cons.
Qed.

Lemma get_last v c : String.get (String.length (v +:+ String c EmptyString) - 1)
                                (v +:+ String c EmptyString) = Some c.
Proof.
  rewrite length_append. cbn [String.length]. replace (_ + 1 - 1) with (String.length v) by lia.
  induction v as [|a v IH]; [done|]. by rewrite append_cons.
Qed.

Lemma dropLast_snoc v c : dropLast (v +:+ String c EmptyString) = v.
Proof.
  unfold dropLast. rewrite length_append. cbn [String.length].
  replace (_ + 1 - 1) with (String.length v) by lia. apply substring_prefix.
Qed.

(** Reading a line that sets [key] gives the value back. *)
Lemma matchQuotedLine_yarnrcLine key value :
  matchQuotedLine key (yarnrcLine key value) = Some value.
Proof.
  unfold matchQuotedLine, yarnrcLine. cbv zeta.
  set (opening := key +:+ String " " (String dquote EmptyString)).
  assert (key +:+ String " " (String dquote EmptyString) +:+ value +:+ String dquote EmptyString
          = opening +:+ (value +:+ String dquote EmptyString)) as ->.
  { unfold opening. rewrite !append_assoc. by rewrite !append_cons. }
  assert (startsWith (opening +:+ (value +:+ String dquote EmptyString)) opening = true) as ->.
  { apply startsWith_iff. eauto. }
  rewrite substring_suffix. unfold endsWithQuote. rewrite get_last.
  by rewrite Ascii.eqb_refl, dropLast_snoc.
Qed.

Lemma split_without sep s :
  allChars (fun c => negb (Ascii.eqb c sep)) s = true -> split sep s = [s].
Proof.
  induction s as [|c r IH]; [done|]. cbn [allChars split].
  intros [W H]%andb_true_iff. apply negb_true_iff in W. by rewrite W, (IH H).
Qed.

Lemma plain_oneLine s : plain s = true -> oneLine s = true.
Proof.
  unfold plain, oneLine. induction s as [|c r IH]; [done|]. cbn [allChars].
  intros [[W _]%andb_true_iff H]%andb_true_iff. rewrite (IH H), andb_true_r.
  unfold isLineFeed. by rewrite W.
Qed.

Lemma plain_no_return s :
  plain s = true -> allChars (fun c => negb (Ascii.eqb c (ascii_of_N 13))) s = true.
Proof.
  unfold plain. induction s as [|c r IH]; [done|]. cbn [allChars].
  intros [[_ W]%andb_true_iff H]%andb_true_iff. by rewrite W, (IH H).
Qed.

(** The lines that the patterns of [getElectronVersion] see are the lines
    that were joined. *)
Lemma regexLines_join lines :
  lines <> [] -> Forall (fun l => plain l = true) lines ->
  regexLines (join LF lines) = lines.
Proof.
  intros Hne H. unfold regexLines. rewrite split_join; [|done|].
  - clear Hne. induction H as [|l lines Hl H IH]; [done|].
    cbn [map concat]. rewrite (split_without _ l (plain_no_return l Hl)).
    cbn [app]. by rewrite IH.
  - eapply Forall_impl; [exact H|]. apply plain_oneLine.
Qed.

Lemma execQuoted_first key before line after value :
  Forall (fun l => matchQuotedLine key l = None) before ->
  matchQuotedLine key line = Some value ->
  forall text, regexLines text = before ++ line :: after ->
  execQuoted key text = Ok value.
Proof.
  intros Hb Hl text Hr. unfold execQuoted. rewrite Hr. clear Hr.
  induction Hb as [|l before Hn Hb IH].
  - cbn [app]. cbn. by rewrite Hl.
  - cbn [app]. cbn. rewrite Hn. exact IH.
Qed.

Lemma execQuoted_none key text :
  Forall (fun l => matchQuotedLine key l = None) (regexLines text) ->
  execQuoted key text = Throw (TypeError "Cannot read properties of null (reading '1')").
Proof.
  unfold execQuoted. intros H. induction H as [|l lines Hn H IH]; [done|].
  cbn. rewrite Hn. exact IH.
Qed.

Lemma execQuoted_cases key text :
  (exists value, execQuoted key text = Ok value)
  \/ execQuoted key text = Throw (TypeError "Cannot read properties of null (reading '1')").
Proof. unfold execQuoted. destruct (omap _ _); eauto. Qed.

(** X23.  [getElectronVersion] reads [.yarnrc] line by line: it returns the
    text between the quotes of the first line that sets [target] and of the
    first line that sets [ms_build_id], and changes nothing. *)
Theorem electron_version_is_read_from_yarnrc
  (out : Outside) (s : State) (lines before1 after1 before2 after2 : list string)
  (electronVersion msBuildId : string) :
  fs s !! path_join [REPO_ROOT out; ".yarnrc"] = Some (join LF lines) ->
  Forall (fun l => plain l = true) lines ->
  lines = before1 ++ yarnrcLine "target" electronVersion :: after1 ->
  Forall (fun l => matchQuotedLine "target" l = None) before1 ->
  lines = before2 ++ yarnrcLine "ms_build_id" msBuildId :: after2 ->
  Forall (fun l => matchQuotedLine "ms_build_id" l = None) before2 ->
  getElectronVersion out s = (Ok (electronVersion, msBuildId), s).
Proof.
  intros Hf Hp H1 Hb1 H2 Hb2.
  assert (regexLines (join LF lines) = lines) as Hr.
  { apply regexLines_join; [|done]. rewrite H1. by destruct before1. }
  unfold getElectronVersion, readFileSync. run_monad. rewrite Hf.
  rewrite (execQuoted_first "target" before1 _ after1 electronVersion Hb1
             (matchQuotedLine_yarnrcLine _ _)) by (by rewrite Hr).
  by rewrite (execQuoted_first "ms_build_id" before2 _ after2 msBuildId Hb2
                (matchQuotedLine_yarnrcLine _ _)) by (by rewrite Hr).
Qed.

(** X24.  [getChromiumSysroot] needs both settings of [.yarnrc] although it
    uses the version only: without a line that sets [ms_build_id] it throws
    a [TypeError] before anything is downloaded, and so it does without a
    line that sets [target]. *)
Theorem yarnrc_needs_both_settings
  (out : Outside) (arch : DebianArchString) (s : State) (yarnrc : string) :
  fs s !! path_join [REPO_ROOT out; ".yarnrc"] = Some yarnrc ->
  Forall (fun l => matchQuotedLine "ms_build_id" l = None) (regexLines yarnrc)
  \/ Forall (fun l => matchQuotedLine "target" l = None) (regexLines yarnrc) ->
  getChromiumSysroot out arch s
  = (Throw (TypeError "Cannot read properties of null (reading '1')"), s).
Proof.
  intros Hf H. unfold getChromiumSysroot. apply bind_run_throw.
  rewrite loadSysrootInfo_unfold.
  assert (fst (getElectronVersion out s)
          = Throw (TypeError "Cannot read properties of null (reading '1')")) as ->; [|done].
  unfold getElectronVersion, readFileSync. run_monad. rewrite Hf.
  destruct H as [H|H].
  - rewrite (execQuoted_none "ms_build_id" yarnrc H).
    by destruct (execQuoted_cases "target" yarnrc) as [[v ->]| ->].
  - by rewrite (execQuoted_none "target" yarnrc H).
Qed.

(** *** The statements at work *)

Lemma run_known {A} (m : M A) (s : State) (r : Result A) :
  fst (m s) = r -> m s = (r, snd (m s)).
Proof. intros <-. apply surjective_pairing. Qed.

Lemma checksum_of_the_first_entry_is_found_witness :
  getVSCodeSysrootChecksum Example.working "x86_64-linux-gnu.tar.gz" Example.fresh
  = (Ok (Some "sha256-of-archive"), Example.fresh).
Proof.
  apply (checksum_of_the_first_entry_is_found Example.working Example.fresh
           ["sha256-of-archive  x86_64-linux-gnu.tar.gz"; EmptyString]
           [] [EmptyString] "sha256-of-archive" "  " "x86_64-linux-gnu.tar.gz" EmptyString).
  - vm_compute. reflexivity.
  - repeat constructor.
  - reflexivity.
  - constructor.
  - vm_compute. reflexivity.
  - vm_compute. reflexivity.
  - discriminate.
  - vm_compute. reflexivity.
  - discriminate.
  - reflexivity.
Defined.

Lemma installed_archive_was_verified_witness :
  exists checksum n asset response archive,
    fst (getVSCodeSysrootChecksum Example.working (expectedNameOf amd64) Example.fresh)
    = Ok (Some checksum)
    /\ checksum <> EmptyString
    /\ asset_name asset = expectedNameOf amd64
    /\ fetch Example.working n (asset_url asset) = Ok response
    /\ response_arrayBuffer response = Ok archive
    /\ sha256_hex Example.working archive = checksum
    /\ tar_status (tar Example.working (S n) archive) = Some 0%Z.
Proof.
  apply (installed_archive_was_verified Example.working amd64 Example.fresh
           "/tmp/vscode-amd64-sysroot/x86_64-linux-gnu/x86_64-linux-gnu/sysroot"
           (snd (getVSCodeSysroot Example.working amd64 Example.fresh))).
  - apply run_known. vm_compute. reflexivity.
  - vm_compute. discriminate.
Defined.

Lemma no_checksum_no_sysroot_witness :
  fs ExampleMore.unlisted !! vscodeStamp Example.working amd64 = Some (expectedNameOf amd64)
  /\ getVSCodeSysroot Example.working amd64 ExampleMore.unlisted
     = (Throw (Error "Could not find checksum for x86_64-linux-gnu.tar.gz"),
        ExampleMore.unlisted).
Proof.
  split; [vm_compute; reflexivity|].
  pose proof (no_checksum_no_sysroot Example.working amd64 ExampleMore.unlisted)
    as (_ & H & _).
  apply (H ("sha256-of-another  aarch64-linux-gnu.tar.gz" +:+ LF)).
  - vm_compute. reflexivity.
  - assert (split (ascii_of_N 10) ("sha256-of-another  aarch64-linux-gnu.tar.gz" +:+ LF)
            = ["sha256-of-another  aarch64-linux-gnu.tar.gz"; EmptyString]) as ->
      by (vm_compute; reflexivity).
    repeat constructor; vm_compute; discriminate.
Defined.

Lemma three_failed_requests_give_up_witness :
  exists s' steps,
    installChromiumSysroot Example.offline amd64 Example.bullseye_amd64 Example.fresh
    = (Throw (Error ("Failed to download " +:+ chromiumUrl Example.bullseye_amd64)), s')
    /\ fs s' !! chromiumTarball Example.offline Example.bullseye_amd64 = None
    /\ fs s' !! chromiumStamp Example.offline Example.bullseye_amd64 = None
    /\ trace s' = trace Example.fresh ++ steps
    /\ length (List.filter isHttpsGet steps) = 3
    /\ List.filter isExtraction steps = [].
Proof.
  apply (three_failed_requests_give_up Example.offline amd64 Example.bullseye_amd64
           Example.fresh).
  - intros j _. reflexivity.
  - discriminate.
Defined.

Lemma wrong_tarball_is_not_unpacked_witness :
  exists s' steps,
    installChromiumSysroot Example.working amd64 ExampleMore.wrongSum Example.fresh
    = (Throw (Error ("Tarball sha1sum is wrong. Expected sha1-of-another-tarball"
                       +:+ ", actual sha1-of-tarball")), s')
    /\ fs s' !! chromiumTarball Example.working ExampleMore.wrongSum = Some "tarball"
    /\ trace s' = trace Example.fresh ++ steps
    /\ List.filter isExtraction steps = [].
Proof.
  apply (wrong_tarball_is_not_unpacked Example.working amd64 ExampleMore.wrongSum
           Example.fresh 0 ["tar"; "ball"]).
  - lia.
  - intros j Hj. lia.
  - reflexivity.
  - vm_compute. discriminate.
Defined.

Lemma acquired_tarball_was_verified_witness :
  exists n chunks,
    n <= 2
    /\ https_get Example.working (clock Example.fresh + n) (chromiumUrl Example.bullseye_amd64)
       = ResponseEnd chunks
    /\ sha1_hex Example.working (appended chunks) = Sha1Sum Example.bullseye_amd64
    /\ (tar_status (tar Example.working (S (clock Example.fresh + n)) (appended chunks))
        = Some 0%Z
        \/ tar_status (tar Example.working (S (clock Example.fresh + n)) (appended chunks))
           = None)
    /\ "/tmp/debian_bullseye_amd64-sysroot"
       = chromiumSysrootDir Example.working Example.bullseye_amd64
    /\ fs (snd (installChromiumSysroot Example.working amd64 Example.bullseye_amd64
                  Example.fresh))
         !! chromiumTarball Example.working Example.bullseye_amd64 = None
    /\ fs (snd (installChromiumSysroot Example.working amd64 Example.bullseye_amd64
                  Example.fresh))
         !! chromiumStamp Example.working Example.bullseye_amd64
       = Some (chromiumUrl Example.bullseye_amd64).
Proof.
  apply (acquired_tarball_was_verified Example.working amd64 Example.bullseye_amd64
           Example.fresh "/tmp/debian_bullseye_amd64-sysroot"
           (snd (installChromiumSysroot Example.working amd64 Example.bullseye_amd64
                   Example.fresh))).
  - apply run_known. vm_compute. reflexivity.
  - discriminate.
Defined.


Lemma reinstall_starts_from_an_empty_directory_witness :
  fs ExampleMore.stale !! "/tmp/vscode-amd64-sysroot/old/lib/libold.so" = Some "ELF"
  /\ fs (snd (getVSCodeSysroot Example.working amd64 ExampleMore.stale))
       !! "/tmp/vscode-amd64-sysroot/old/lib/libold.so" = None.
Proof.
  split; [vm_compute; reflexivity|].
  apply (reinstall_starts_from_an_empty_directory Example.working amd64 ExampleMore.stale
           (Some "sha256-of-archive")
           (fst (getVSCodeSysroot Example.working amd64 ExampleMore.stale))).
  - vm_compute. reflexivity.
  - reflexivity.
  - vm_compute. discriminate.
  - apply run_pair.
  - vm_compute. reflexivity.
  - vm_compute. discriminate.
  - intros n archive entry H. cbn in H. apply list_elem_of_singleton in H as ->.
    vm_compute. discriminate.
Defined.

Lemma shared_directory_serves_one_architecture_witness :
  vscodeStamp ExampleMore.sharedDirectory arm64 = vscodeStamp ExampleMore.sharedDirectory amd64
  /\ fs (snd (getVSCodeSysroot ExampleMore.sharedDirectory amd64 Example.fresh))
       !! vscodeStamp ExampleMore.sharedDirectory arm64
     <> Some (expectedNameOf arm64).
Proof.
  apply (shared_directory_serves_one_architecture ExampleMore.sharedDirectory
           "/cache/sysroot" amd64 arm64 Example.fresh (Some "sha256-of-archive")
           (fst (getVSCodeSysroot ExampleMore.sharedDirectory amd64 Example.fresh))).
  - reflexivity.
  - discriminate.
  - intros n archive entry H. cbn in H. apply list_elem_of_singleton in H as ->.
    cbn. discriminate.
  - vm_compute. reflexivity.
  - reflexivity.
  - apply run_pair.
Defined.

Lemma manifest_failures_leave_the_sysroot_alone_witness :
  exists s',
    getChromiumSysroot Example.offline amd64 (Example.again Example.withChromiumSysroot)
    = (Throw (Error ("Cannot retrieve sysroots.json. Stderr:" +:+ LF
                       +:+ "curl: (6) Could not resolve host")), s')
    /\ trace s' = [curlEvent Example.offline "27.1.3"]
    /\ forall p, p <> sysrootDictLocation Example.offline ->
                 fs s' !! p = fs (Example.again Example.withChromiumSysroot) !! p.
Proof.
  pose proof (manifest_failures_leave_the_sysroot_alone Example.offline amd64
                (Example.again Example.withChromiumSysroot)) as (_ & H & _).
  apply (H ("27.1.3", "25612240")).
  - vm_compute. reflexivity.
  - reflexivity.
Defined.

Lemma manifest_is_parsed_once_witness :
  fst (loadSysrootInfo Example.working (Example.again Example.withChromiumSysroot))
  = Ok {[ "bullseye_amd64" := Example.bullseye_amd64 ]}.
Proof.
  pose proof (manifest_is_parsed_once Example.working
                (Example.again Example.withChromiumSysroot)) as (H & _).
  apply (H _ ("27.1.3", "25612240")).
  - vm_compute. reflexivity.
  - vm_compute. reflexivity.
  - reflexivity.
Defined.

Lemma chromium_sysroot_keeps_to_its_directory_witness :
  fs (snd (getChromiumSysroot Example.working amd64 Example.fresh)) !! "/repo/.yarnrc"
  = fs Example.fresh !! "/repo/.yarnrc".
Proof.
  apply (chromium_sysroot_keeps_to_its_directory Example.working amd64 Example.fresh
           {[ "bullseye_amd64" := Example.bullseye_amd64 ]}
           (snd (loadSysrootInfo Example.working Example.fresh))
           Example.bullseye_amd64 "/repo/.yarnrc").
  - apply run_known. vm_compute. reflexivity.
  - vm_compute. reflexivity.
  - vm_compute. reflexivity.
  - vm_compute. reflexivity.
  - vm_compute. reflexivity.
  - vm_compute. reflexivity.
  - vm_compute. discriminate.
  - vm_compute. discriminate.
  - vm_compute. reflexivity.
Defined.

Lemma electron_version_is_read_from_yarnrc_witness :
  getElectronVersion Example.working Example.fresh
  = (Ok ("27.1.3", "25612240"), Example.fresh).
Proof.
  apply (electron_version_is_read_from_yarnrc Example.working Example.fresh
           [yarnrcLine "target" "27.1.3"; yarnrcLine "ms_build_id" "25612240"; EmptyString]
           [] [yarnrcLine "ms_build_id" "25612240"; EmptyString]
           [yarnrcLine "target" "27.1.3"] [EmptyString]).
  - vm_compute. reflexivity.
  - repeat constructor.
  - reflexivity.
  - constructor.
  - reflexivity.
  - repeat constructor.
Defined.

Lemma yarnrc_needs_both_settings_witness :
  getChromiumSysroot Example.working amd64 ExampleMore.withoutBuildId
  = (Throw (TypeError "Cannot read properties of null (reading '1')"),
     ExampleMore.withoutBuildId).
Proof.
  apply (yarnrc_needs_both_settings Example.working amd64 ExampleMore.withoutBuildId
           ("target " +:+ String dquote ("27.1.3" +:+ String dquote LF))).
  - vm_compute. reflexivity.
  - left.
    assert (regexLines ("target " +:+ String dquote ("27.1.3" +:+ String dquote LF))
            = [yarnrcLine "target" "27.1.3"; EmptyString]) as -> by (vm_compute; reflexivity).
    repeat constructor.
Defined.


Section TarStatus.
Context (out : Outside) (arch : DebianArchString) (sysrootDict : SysrootDict).



End TarStatus.

End SysrootMoreFacts.

(** ** The reconciler with the provisioners of [install-sysroot.js] *)

Module LinkedFacts.
Import Reconciler JSFacts ReconcilerFacts.




End LinkedFacts.
